(** * nfl_upload.py: validation-then-load pipeline of the NFL schedule import

    A shallow embedding of [nfl_upload.py] and the properties of its
    pipeline: schema, vocabulary and referential validation, kickoff
    timestamp derivation, the transactional load with per-row failure
    accounting, and the exit status of [main].

    The script runs against three libraries that are not part of the
    repository.  They are modelled as follows.
    - pandas: a [DataFrame] is a list of column names and a list of rows of
      cells; [pd.to_datetime] is defined on structured cells and takes the
      parser of strings and numbers as a parameter ([pandas_parse]).
    - pymysql: a [connection] is a record of the server's tables, the rows
      inserted by the open transaction, and the outcomes of the driver calls
      still to come ([faults]); it also keeps the sequence of calls made.
    - pytz: [localize] follows [DstTzInfo.localize] over a table of UTC
      transition times, on datetimes of the years 1 to 9999, beyond which
      the arithmetic of [datetime] raises [OverflowError];
      [America_New_York] is the table of the zone file of the tz database
      as pytz reads it, from 1901 to 2037.

    Python exceptions are values of [exn]; a computation is a function from
    the program state (standard output and the connection) to an outcome and
    a new state, so that what was printed or sent before a [raise] stays. *)

From Stdlib Require Import ZArith List String Ascii Bool Lia.
Import ListNotations.
Open Scope string_scope.
Open Scope list_scope.
Open Scope Z_scope.

Set Implicit Arguments.

(** ** Python values *)

Module Py.

(** [datetime.date], [datetime.time] and a naive [datetime.datetime]. *)
Record date := mkdate { year : Z; month : Z; day : Z }.
Record time := mktime { hour : Z; minute : Z; second : Z; microsecond : Z }.
Record datetime := mkdatetime { dt_date : date; dt_time : time }.

(** A float64 is NaN, an infinity, or [mantissa * 2 ^ exponent]. *)
Inductive pyfloat :=
| FNan
| FInf (negative : bool)
| FFin (mantissa exponent : Z).

(** The values a cell of the sheet can hold after [pd.read_excel]. *)
Inductive cell :=
| CInt (n : Z)
| CFloat (f : pyfloat)
| CStr (s : string)
| CTime (t : time)
| CTimestamp (d : datetime)
| CNaT.

(** Formatted text.  An f-string is kept as the sequence of its literal
    parts and of the values interpolated into it. *)
Inductive piece :=
| Lit (s : string)
| Num (n : Z)
| Val (c : cell)
| Repr (c : cell)
| TypeOf (c : cell)
| Vals (cs : list cell)
| Strs (ss : list string).

Definition text := list piece.

(** The line feed of ["\n"]. *)
Definition newline : string := String "010" "".

(** Exceptions: [SystemExit] derives from [BaseException] only; every other
    exception of this program derives from [Exception]. *)
Inductive exn :=
| SystemExit (code : Z)
| Exception (cls : string) (msg : text).

Definition is_Exception (e : exn) : bool :=
  match e with
  | Exception _ _ => true
  | SystemExit _ => false
  end.

(** [str(e)] *)
Definition exn_str (e : exn) : text :=
  match e with
  | Exception _ msg => msg
  | SystemExit code => [Num code]
  end.

Inductive outcome (A : Type) :=
| Ok (a : A)
| Raise (e : exn).
Arguments Ok {A} a.
Arguments Raise {A} e.

Definition obind {A B} (o : outcome A) (k : A -> outcome B) : outcome B :=
  match o with
  | Ok a => k a
  | Raise e => Raise e
  end.

Definition ValueError (msg : text) : exn := Exception "ValueError" msg.
Definition TypeError (msg : text) : exn := Exception "TypeError" msg.
Definition KeyError (key : string) : exn := Exception "KeyError" [Repr (CStr key)].

(** *** [int(x)]

    On a string, [int] is given for ASCII text.  It also takes the decimal
    digits and the white space of other scripts, which are left out here: a
    string with a character beyond ASCII is refused. *)

(** The white space [int] skips around the digits of ASCII text: tab to
    carriage return, and the space. *)
Definition is_space (a : ascii) : bool :=
  let n := nat_of_ascii a in
  ((9 <=? n) && (n <=? 13))%nat || (n =? 32)%nat.

Definition digit_of (a : ascii) : option Z :=
  let n := nat_of_ascii a in
  if ((48 <=? n) && (n <=? 57))%nat then Some (Z.of_nat n - 48) else None.

Fixpoint lstrip (s : string) : string :=
  match s with
  | String a s' => if is_space a then lstrip s' else s
  | EmptyString => s
  end.

(** Decimal digits, where single underscores may separate digits; only
    white space may follow.  [after_digit] tells whether the previous
    character was a digit. *)
Fixpoint int_digits (s : string) (acc : Z) (after_digit : bool) : option Z :=
  match s with
  | EmptyString => if after_digit then Some acc else None
  | String a s' =>
      match digit_of a with
      | Some d => int_digits s' (10 * acc + d) true
      | None =>
          if (a =? "_")%char then
            if after_digit then
              match s' with
              | String b _ =>
                  match digit_of b with
                  | Some _ => int_digits s' acc false
                  | None => None
                  end
              | EmptyString => None
              end
            else None
          else if is_space a then
            if after_digit then
              match lstrip s' with
              | EmptyString => Some acc
              | _ => None
              end
            else None
          else None
      end
  end.

Definition int_of_string (s : string) : option Z :=
  match lstrip s with
  | String "-" s' => option_map Z.opp (int_digits s' 0 false)
  | String "+" s' => int_digits s' 0 false
  | s' => int_digits s' 0 false
  end.

(** [int(f)] truncates a finite float toward zero. *)
Definition float_trunc (m e : Z) : Z :=
  if 0 <=? e then m * 2 ^ e else Z.quot m (2 ^ (- e)).

Definition py_int (c : cell) : outcome Z :=
  match c with
  | CInt n => Ok n
  | CFloat FNan =>
      Raise (ValueError [Lit "cannot convert float NaN to integer"])
  | CFloat (FInf _) =>
      Raise (Exception "OverflowError"
               [Lit "cannot convert float infinity to integer"])
  | CFloat (FFin m e) => Ok (float_trunc m e)
  | CStr s =>
      match int_of_string s with
      | Some n => Ok n
      | None =>
          Raise (ValueError
                   [Lit "invalid literal for int() with base 10: "; Repr c])
      end
  | CTime _ | CTimestamp _ | CNaT =>
      Raise (TypeError
               [Lit "int() argument must be a string, a bytes-like object or a real number, not ";
                TypeOf c])
  end.

(** [s == c] for a [str] [s] and a cell [c]. *)
Definition str_eq_cell (s : string) (c : cell) : bool :=
  match c with
  | CStr s' => String.eqb s s'
  | _ => false
  end.

End Py.
Export Py.

(** ** pandas: tables and rows *)

Module Pandas.

(** A [DataFrame] read from a sheet: the header and the rows of cells.
    A cell missing from a short row reads as NaN, as an empty cell does. *)
Record DataFrame := mkDataFrame { columns : list string; data : list (list cell) }.

(** One row as [iterrows] yields it: a [Series] labelled by the columns. *)
Record Series := mkSeries { labels : list string; values : list cell }.

Definition nan : cell := CFloat FNan.

Fixpoint index_of (k : string) (l : list string) : option nat :=
  match l with
  | [] => None
  | x :: l' =>
      if String.eqb k x then Some 0%nat else option_map S (index_of k l')
  end.

(** [k in df.columns] *)
Definition has_column (l : list string) (k : string) : bool :=
  match index_of k l with
  | Some _ => true
  | None => false
  end.

(** [row[k]] *)
Definition getitem (row : Series) (k : string) : outcome cell :=
  match index_of k (labels row) with
  | Some j => Ok (nth j (values row) nan)
  | None => Raise (KeyError k)
  end.

(** [df[k]]: the cells of a column, top to bottom. *)
Definition column (df : DataFrame) (k : string) : outcome (list cell) :=
  match index_of k (columns df) with
  | Some j => Ok (map (fun r => nth j r nan) (data df))
  | None => Raise (KeyError k)
  end.

Fixpoint enumerate_from {A} (i : Z) (l : list A) : list (Z * A) :=
  match l with
  | [] => []
  | x :: l' => (i, x) :: enumerate_from (i + 1) l'
  end.

(** [df.iterrows()]: the rows with their index, a [RangeIndex] from 0. *)
Definition iterrows (df : DataFrame) : list (Z * Series) :=
  enumerate_from 0 (map (mkSeries (columns df)) (data df)).

(** [len(df)] *)
Definition len (df : DataFrame) : Z := Z.of_nat (List.length (data df)).

(** The result of [pd.to_datetime]: a [Timestamp] or [NaT]. *)
Inductive stamp :=
| NaT
| Stamp (d : datetime).

End Pandas.
Export Pandas.

(** ** pymysql: the connection and its transaction *)

Module Driver.

Record team_row := mkteam { team_id : Z; abbreviation : string; active : bool }.

(** The tuple bound to the placeholders of the INSERT, in column order. *)
Record game_row := mkgame {
  g_nfl_game_id : cell;
  g_season_year : Z;
  g_week : Z;
  g_game_type : cell;
  g_home_team_id : Z;
  g_away_team_id : Z;
  g_game_date : cell;
  g_game_time : cell;
  g_kickoff_timestamp : datetime;    (* in UTC *)
  g_status : string
}.

(** An error raised by the driver; all of them derive from
    [pymysql.err.MySQLError], an [Exception]. *)
Record db_error := mkerr { err_class : string; err_text : string }.

Definition raise_db (f : db_error) : exn :=
  Exception (err_class f) [Lit (err_text f)].

Inductive conn_status := NotConnected | Connected | Closed.

(** The calls made on the connection, in order; [ok] tells whether the call
    returned. *)
Inductive db_event :=
| EvConnect (ok : bool)
| EvCursor
| EvSelectTeams (ok : bool)
| EvInsert (g : game_row) (ok : bool)
| EvCommit (ok : bool)
| EvRollback (ok : bool)
| EvCursorClose
| EvClose.

(** The connection object together with the server behind it.
    - [games] holds the durable rows of table games, [pending] the rows
      inserted by the open transaction (autocommit is off).
    - [faults] scripts the calls that reach the server (connect, execute,
      commit, rollback): each takes the head, [Some f] makes it raise [f],
      and a call past the end of the script succeeds. *)
Record connection := mkconn {
  status : conn_status;
  teams : list team_row;
  games : list game_row;
  pending : list game_row;
  faults : list (option db_error);
  calls : list db_event
}.

Definition next_fault (c : connection) : option db_error :=
  hd None (faults c).

Definition is_connected (c : connection) : bool :=
  match status c with
  | Connected => true
  | _ => false
  end.

(** The error of a call on a connection without a socket. *)
Definition no_socket : exn := Exception "InterfaceError" [Lit "(0, '')"].

End Driver.
Export Driver.

(** ** Program state and computations *)

Record state := mkstate { stdout : list text; db : connection }.

Definition M (A : Type) : Type := state -> outcome A * state.

Definition ret {A} (a : A) : M A := fun s => (Ok a, s).

Definition bind {A B} (m : M A) (k : A -> M B) : M B :=
  fun s =>
    match m s with
    | (Ok a, s') => k a s'
    | (Raise e, s') => (Raise e, s')
    end.

Definition raise {A} (e : exn) : M A := fun s => (Raise e, s).

Definition lift {A} (o : outcome A) : M A := fun s => (o, s).

Notation "x <- m ;; k" := (bind m (fun x => k))
  (at level 61, m at next level, right associativity).
Notation "m ;;; k" := (bind m (fun _ => k))
  (at level 61, right associativity).

(** [print(t)] *)
Definition print (t : text) : M unit :=
  fun s => (Ok tt, mkstate (stdout s ++ [t]) (db s)).

(** [try: body except Exception as e: handler(e)] *)
Definition try_except {A} (body : M A) (handler : exn -> M A) : M A :=
  fun s =>
    match body s with
    | (Raise e, s') =>
        if is_Exception e then handler e s' else (Raise e, s')
    | r => r
    end.

(** [try: body finally: final]: [final] runs on both ways out, and an
    exception it raises replaces the one in flight. *)
Definition try_finally {A} (body : M A) (final : M unit) : M A :=
  fun s =>
    match body s with
    | (r, s') =>
        match final s' with
        | (Ok _, s'') => (r, s'')
        | (Raise e, s'') => (Raise e, s'')
        end
    end.

(** ** Driver calls *)

(** A call on the connection object: its outcome and the connection after
    it. *)
Definition call (A : Type) : Type := connection -> outcome A * connection.

Definition on_db {A} (f : call A) : M A :=
  fun s => let (r, c) := f (db s) in (r, mkstate (stdout s) c).

Definition log_call (c : connection) (ev : db_event) : list db_event :=
  calls c ++ [ev].

(** [pymysql.connect] with the settings of [DB_CONFIG] *)
Definition connect_call : call unit :=
  fun c =>
    match next_fault c with
    | Some f =>
        (Raise (raise_db f),
         mkconn (status c) (teams c) (games c) (pending c)
                (tl (faults c)) (log_call c (EvConnect false)))
    | None =>
        (Ok tt,
         mkconn Connected (teams c) (games c) []
                (tl (faults c)) (log_call c (EvConnect true)))
    end.

(** [connection.cursor()]: creates the cursor object, nothing is sent. *)
Definition cursor_call : call unit :=
  fun c =>
    (Ok tt, mkconn (status c) (teams c) (games c) (pending c)
                   (faults c) (log_call c EvCursor)).

(** [cursor.close()] *)
Definition cursor_close_call : call unit :=
  fun c =>
    (Ok tt, mkconn (status c) (teams c) (games c) (pending c)
                   (faults c) (log_call c EvCursorClose)).

(** [cursor.execute(insert_query, data)] *)
Definition insert_call (g : game_row) : call unit :=
  fun c =>
    if is_connected c then
      match next_fault c with
      | Some f =>
          (Raise (raise_db f),
           mkconn (status c) (teams c) (games c) (pending c)
                  (tl (faults c)) (log_call c (EvInsert g false)))
      | None =>
          (Ok tt,
           mkconn (status c) (teams c) (games c) (pending c ++ [g])
                  (tl (faults c)) (log_call c (EvInsert g true)))
      end
    else
      (Raise no_socket,
       mkconn (status c) (teams c) (games c) (pending c)
              (faults c) (log_call c (EvInsert g false))).

(** [cursor.execute("SELECT team_id, abbreviation FROM teams WHERE active =
    TRUE")] followed by [cursor.fetchall()]. *)
Definition select_call : call (list (Z * string)) :=
  fun c =>
    if is_connected c then
      match next_fault c with
      | Some f =>
          (Raise (raise_db f),
           mkconn (status c) (teams c) (games c) (pending c)
                  (tl (faults c)) (log_call c (EvSelectTeams false)))
      | None =>
          (Ok (map (fun t => (team_id t, abbreviation t))
                   (filter active (teams c))),
           mkconn (status c) (teams c) (games c) (pending c)
                  (tl (faults c)) (log_call c (EvSelectTeams true)))
      end
    else
      (Raise no_socket,
       mkconn (status c) (teams c) (games c) (pending c)
              (faults c) (log_call c (EvSelectTeams false))).

(** [connection.commit()]: the pending rows become durable together. *)
Definition commit_call : call unit :=
  fun c =>
    if is_connected c then
      match next_fault c with
      | Some f =>
          (Raise (raise_db f),
           mkconn (status c) (teams c) (games c) (pending c)
                  (tl (faults c)) (log_call c (EvCommit false)))
      | None =>
          (Ok tt,
           mkconn (status c) (teams c) (games c ++ pending c) []
                  (tl (faults c)) (log_call c (EvCommit true)))
      end
    else
      (Raise no_socket,
       mkconn (status c) (teams c) (games c) (pending c)
              (faults c) (log_call c (EvCommit false))).

(** [connection.rollback()]: the pending rows are discarded. *)
Definition rollback_call : call unit :=
  fun c =>
    if is_connected c then
      match next_fault c with
      | Some f =>
          (Raise (raise_db f),
           mkconn (status c) (teams c) (games c) (pending c)
                  (tl (faults c)) (log_call c (EvRollback false)))
      | None =>
          (Ok tt,
           mkconn (status c) (teams c) (games c) []
                  (tl (faults c)) (log_call c (EvRollback true)))
      end
    else
      (Raise no_socket,
       mkconn (status c) (teams c) (games c) (pending c)
              (faults c) (log_call c (EvRollback false))).

(** [connection.close()]: errors while saying goodbye are swallowed by the
    driver; the server discards what was not committed. *)
Definition close_call : call unit :=
  fun c =>
    if is_connected c then
      (Ok tt, mkconn Closed (teams c) (games c) []
                     (faults c) (log_call c EvClose))
    else
      (Raise (Exception "Error" [Lit "Already closed"]),
       mkconn (status c) (teams c) (games c) (pending c)
              (faults c) (log_call c EvClose)).

Definition pymysql_connect : M unit := on_db connect_call.
Definition cursor_open : M unit := on_db cursor_call.
Definition cursor_close : M unit := on_db cursor_close_call.
Definition execute_insert (g : game_row) : M unit := on_db (insert_call g).
Definition select_active_teams : M (list (Z * string)) := on_db select_call.
Definition commit : M unit := on_db commit_call.
Definition rollback : M unit := on_db rollback_call.
Definition close : M unit := on_db close_call.

(** ** datetime arithmetic *)

Module Calendar.

(** Days from 1970-01-01 to a date of the proleptic Gregorian calendar, and
    back ([date.toordinal] and [date.fromordinal] up to the origin). *)
Definition days_from_civil (d : date) : Z :=
  let y := if month d <=? 2 then year d - 1 else year d in
  let era := y / 400 in
  let yoe := y - era * 400 in
  let mp := if 2 <? month d then month d - 3 else month d + 9 in
  let doy := (153 * mp + 2) / 5 + day d - 1 in
  let doe := yoe * 365 + yoe / 4 - yoe / 100 + doy in
  era * 146097 + doe - 719468.

Definition civil_from_days (z : Z) : date :=
  let z := z + 719468 in
  let era := z / 146097 in
  let doe := z - era * 146097 in
  let yoe := (doe - doe / 1460 + doe / 36524 - doe / 146096) / 365 in
  let doy := doe - (365 * yoe + yoe / 4 - yoe / 100) in
  let mp := (5 * doy + 2) / 153 in
  let d := doy - (153 * mp + 2) / 5 + 1 in
  let m := if mp <? 10 then mp + 3 else mp - 9 in
  let y := yoe + era * 400 in
  mkdate (if m <=? 2 then y + 1 else y) m d.

(** A naive datetime as seconds from 1970-01-01T00:00:00 (its microseconds
    are carried along unchanged, every offset being whole seconds). *)
Definition seconds_of (d : datetime) : Z :=
  days_from_civil (dt_date d) * 86400
  + hour (dt_time d) * 3600 + minute (dt_time d) * 60 + second (dt_time d).

(** The datetime of a number of seconds from 1970-01-01T00:00:00.  The
    program applies it to sums that [add_timedelta], below, has found in
    the range of [datetime]. *)
Definition datetime_of (secs us : Z) : datetime :=
  let sod := secs mod 86400 in
  mkdatetime (civil_from_days (secs / 86400))
             (mktime (sod / 3600) (sod mod 3600 / 60) (sod mod 60) us).

(** [datetime.min], 0001-01-01T00:00:00, and the last second of
    [datetime.max], 9999-12-31T23:59:59, in seconds from 1970. *)
Definition datetime_min : Z := -62135596800.
Definition datetime_max : Z := 253402300799.

(** [dt + timedelta(seconds=delta)] on a naive datetime given in seconds:
    the sum is a datetime of the years 1 to 9999, or [OverflowError] is
    raised. *)
Definition add_timedelta (dt delta : Z) : outcome Z :=
  if (datetime_min <=? dt + delta) && (dt + delta <=? datetime_max)
  then Ok (dt + delta)
  else Raise (Exception "OverflowError" [Lit "date value out of range"]).

End Calendar.
Export Calendar.

(** ** pytz: time zones with transitions *)

Module Pytz.

(** One of the [tzinfo] instances of a zone: offset from UTC and daylight
    saving part of it, in seconds, and the abbreviation. *)
Record tzinfo := mktz { utcoffset : Z; dst : Z; tzname : string }.

Definition tzinfo_eqb (a b : tzinfo) : bool :=
  (utcoffset a =? utcoffset b) && (dst a =? dst b)
  && String.eqb (tzname a) (tzname b).

(** A [DstTzInfo]: the instants (naive UTC, in seconds) at which the zone
    changes, sorted, and the [tzinfo] in force from each on. *)
Record DstTzInfo := mkzone {
  utc_transition_times : list Z;
  transition_info : list tzinfo
}.

(** A datetime with a [tzinfo] attached: its wall clock, in seconds. *)
Record aware := mkaware { wall : Z; zone : tzinfo }.

Definition utc_of (a : aware) : Z := wall a - utcoffset (zone a).

(** [bisect_right(l, x)] on a sorted list: the number of elements [<= x]. *)
Fixpoint bisect_right (l : list Z) (x : Z) : nat :=
  match l with
  | [] => 0%nat
  | t :: l' => if t <=? x then S (bisect_right l' x) else 0%nat
  end.

Definition UTC : tzinfo := mktz 0 0 "UTC".

(** [self._transition_info[max(0, bisect_right(self._utc_transition_times,
    t) - 1)]] *)
Definition info_at (tz : DstTzInfo) (t : Z) : tzinfo :=
  nth (Nat.pred (bisect_right (utc_transition_times tz) t))
      (transition_info tz) UTC.

(** [DstTzInfo.fromutc] *)
Definition fromutc (tz : DstTzInfo) (u : Z) : outcome aware :=
  let inf := info_at tz u in
  obind (add_timedelta u (utcoffset inf)) (fun w =>
  Ok (mkaware w inf)).

(** [DstTzInfo.normalize] *)
Definition normalize (tz : DstTzInfo) (a : aware) : outcome aware :=
  obind (add_timedelta (wall a) (- utcoffset (zone a))) (fromutc tz).

(** Adding to a set of aware datetimes: two of them are equal when they
    are the same instant. *)
Definition set_add (a : aware) (l : list aware) : list aware :=
  if existsb (fun b => utc_of b =? utc_of a) l then l else l ++ [a].

(** The candidate for one [delta] in the first loop of [localize]. *)
Definition candidate (tz : DstTzInfo) (dt delta : Z) : outcome (list aware) :=
  obind (add_timedelta dt delta) (fun loc_dt =>
  let inf := info_at tz loc_dt in
  obind (normalize tz (mkaware dt inf)) (fun loc_dt =>
  Ok (if wall loc_dt =? dt then [loc_dt] else []))).

(** [set(l)], in insertion order. *)
Definition py_set (l : list aware) : list aware :=
  fold_left (fun acc a => set_add a acc) l [].

(** The first loop of [localize], over a day before and a day after. *)
Definition possible_loc_dt (tz : DstTzInfo) (dt : Z) : outcome (list aware) :=
  obind (candidate tz dt (-86400)) (fun before =>
  obind (candidate tz dt 86400) (fun after =>
  Ok (py_set (before ++ after)))).

(** [max(dates)] over the dictionary from UTC time to local datetime.  Each
    of the datetimes went through [normalize], so that its UTC time is in
    range. *)
Fixpoint latest (a : aware) (l : list aware) : aware :=
  match l with
  | [] => a
  | b :: l' => latest (if utc_of a <? utc_of b then b else a) l'
  end.

(** [DstTzInfo.localize(dt, is_dst=False)].  The recursion of the library
    for a wall clock time that never happened is bounded by [fuel]: at its
    end the interpreter gives up with [RecursionError]. *)
Fixpoint localize_rec (fuel : nat) (tz : DstTzInfo) (dt : Z) : outcome aware :=
  match fuel with
  | O =>
      Raise (Exception "RecursionError"
               [Lit "maximum recursion depth exceeded"])
  | S fuel' =>
      obind (possible_loc_dt tz dt) (fun possible =>
      match possible with
      | [p] => Ok p
      | [] =>
          obind (add_timedelta dt (- (6 * 3600))) (fun earlier =>
          obind (localize_rec fuel' tz earlier) (fun p =>
          obind (add_timedelta (wall p) (6 * 3600)) (fun w =>
          Ok (mkaware w (zone p)))))
      | p :: possible' =>
          match filter (fun q => dst (zone q) =? 0) (p :: possible') with
          | [q] => Ok q
          | [] => Ok (latest p possible')
          | q :: filtered => Ok (latest q filtered)
          end
      end)
  end.

(** The depth at which the interpreter gives up. *)
Definition recursion_limit : nat := 1000.

Definition localize (tz : DstTzInfo) (dt : Z) : outcome aware :=
  localize_rec recursion_limit tz dt.

(** [a.astimezone(pytz.UTC)]: the offset is subtracted from the wall clock
    time. *)
Definition astimezone_utc (a : aware) : outcome aware :=
  obind (add_timedelta (wall a) (- utcoffset (zone a))) (fun u =>
  Ok (mkaware u UTC)).

(** The [tzinfo]s of America/New_York: local mean time, four minutes ahead
    of Eastern time (pytz rounds the offsets of the tz database, here
    -4:56:02, to minutes), standard and daylight saving time, and the war
    and peace time of 1942 to 1945. *)
Definition LMT : tzinfo := mktz (-17760) 0 "LMT".
Definition EST : tzinfo := mktz (-18000) 0 "EST".
Definition EDT : tzinfo := mktz (-14400) 3600 "EDT".
Definition EWT : tzinfo := mktz (-14400) 3600 "EWT".
Definition EPT : tzinfo := mktz (-14400) 3600 "EPT".

(** The transitions of America/New_York in the zone file of the tz
    database from 1918 to 2037, where the file ends; pytz does not go on by
    rule after the last of them. *)
Definition eastern_transitions : list (Z * tzinfo) := [
  ((-1633280400), EDT); ((-1615140000), EST);
  ((-1601830800), EDT); ((-1583690400), EST); ((-1570381200), EDT);
  ((-1551636000), EST); ((-1536512400), EDT); ((-1523210400), EST);
  ((-1504458000), EDT); ((-1491760800), EST); ((-1473008400), EDT);
  ((-1459706400), EST); ((-1441558800), EDT); ((-1428256800), EST);
  ((-1410109200), EDT); ((-1396807200), EST); ((-1378659600), EDT);
  ((-1365357600), EST); ((-1347210000), EDT); ((-1333908000), EST);
  ((-1315155600), EDT); ((-1301853600), EST); ((-1283706000), EDT);
  ((-1270404000), EST); ((-1252256400), EDT); ((-1238954400), EST);
  ((-1220806800), EDT); ((-1207504800), EST); ((-1189357200), EDT);
  ((-1176055200), EST); ((-1157302800), EDT); ((-1144605600), EST);
  ((-1125853200), EDT); ((-1112551200), EST); ((-1094403600), EDT);
  ((-1081101600), EST); ((-1062954000), EDT); ((-1049652000), EST);
  ((-1031504400), EDT); ((-1018202400), EST); ((-1000054800), EDT);
  ((-986752800), EST); ((-968000400), EDT); ((-955303200), EST);
  ((-936550800), EDT); ((-923248800), EST); ((-905101200), EDT);
  ((-891799200), EST); ((-880218000), EWT); ((-769395600), EPT);
  ((-765396000), EST); ((-747248400), EDT); ((-733946400), EST);
  ((-715798800), EDT); ((-702496800), EST); ((-684349200), EDT);
  ((-671047200), EST); ((-652899600), EDT); ((-639597600), EST);
  ((-620845200), EDT); ((-608148000), EST); ((-589395600), EDT);
  ((-576093600), EST); ((-557946000), EDT); ((-544644000), EST);
  ((-526496400), EDT); ((-513194400), EST); ((-495046800), EDT);
  ((-481744800), EST); ((-463597200), EDT); ((-447271200), EST);
  ((-431542800), EDT); ((-415821600), EST); ((-400093200), EDT);
  ((-384372000), EST); ((-368643600), EDT); ((-352922400), EST);
  ((-337194000), EDT); ((-321472800), EST); ((-305744400), EDT);
  ((-289418400), EST); ((-273690000), EDT); ((-257968800), EST);
  ((-242240400), EDT); ((-226519200), EST); ((-210790800), EDT);
  ((-195069600), EST); ((-179341200), EDT); ((-163620000), EST);
  ((-147891600), EDT); ((-131565600), EST); ((-116442000), EDT);
  ((-100116000), EST); ((-84387600), EDT); ((-68666400), EST);
  ((-52938000), EDT); ((-37216800), EST); ((-21488400), EDT);
  ((-5767200), EST); (9961200, EDT); (25682400, EST); (41410800, EDT);
  (57736800, EST); (73465200, EDT); (89186400, EST); (104914800, EDT);
  (120636000, EST); (126687600, EDT); (152085600, EST); (162370800, EDT);
  (183535200, EST); (199263600, EDT); (215589600, EST); (230713200, EDT);
  (247039200, EST); (262767600, EDT); (278488800, EST); (294217200, EDT);
  (309938400, EST); (325666800, EDT); (341388000, EST); (357116400, EDT);
  (372837600, EST); (388566000, EDT); (404892000, EST); (420015600, EDT);
  (436341600, EST); (452070000, EDT); (467791200, EST); (483519600, EDT);
  (499240800, EST); (514969200, EDT); (530690400, EST); (544604400, EDT);
  (562140000, EST); (576054000, EDT); (594194400, EST); (607503600, EDT);
  (625644000, EST); (638953200, EDT); (657093600, EST); (671007600, EDT);
  (688543200, EST); (702457200, EDT); (719992800, EST); (733906800, EDT);
  (752047200, EST); (765356400, EDT); (783496800, EST); (796806000, EDT);
  (814946400, EST); (828860400, EDT); (846396000, EST); (860310000, EDT);
  (877845600, EST); (891759600, EDT); (909295200, EST); (923209200, EDT);
  (941349600, EST); (954658800, EDT); (972799200, EST); (986108400, EDT);
  (1004248800, EST); (1018162800, EDT); (1035698400, EST); (1049612400, EDT);
  (1067148000, EST); (1081062000, EDT); (1099202400, EST); (1112511600, EDT);
  (1130652000, EST); (1143961200, EDT); (1162101600, EST); (1173596400, EDT);
  (1194156000, EST); (1205046000, EDT); (1225605600, EST); (1236495600, EDT);
  (1257055200, EST); (1268550000, EDT); (1289109600, EST); (1299999600, EDT);
  (1320559200, EST); (1331449200, EDT); (1352008800, EST); (1362898800, EDT);
  (1383458400, EST); (1394348400, EDT); (1414908000, EST); (1425798000, EDT);
  (1446357600, EST); (1457852400, EDT); (1478412000, EST); (1489302000, EDT);
  (1509861600, EST); (1520751600, EDT); (1541311200, EST); (1552201200, EDT);
  (1572760800, EST); (1583650800, EDT); (1604210400, EST); (1615705200, EDT);
  (1636264800, EST); (1647154800, EDT); (1667714400, EST); (1678604400, EDT);
  (1699164000, EST); (1710054000, EDT); (1730613600, EST); (1741503600, EDT);
  (1762063200, EST); (1772953200, EDT); (1793512800, EST); (1805007600, EDT);
  (1825567200, EST); (1836457200, EDT); (1857016800, EST); (1867906800, EDT);
  (1888466400, EST); (1899356400, EDT); (1919916000, EST); (1930806000, EDT);
  (1951365600, EST); (1962860400, EDT); (1983420000, EST); (1994310000, EDT);
  (2014869600, EST); (2025759600, EDT); (2046319200, EST); (2057209200, EDT);
  (2077768800, EST); (2088658800, EDT); (2109218400, EST); (2120108400, EDT);
  (2140668000, EST)
].

(** pytz reads the 32-bit instants of the zone file.  The first of them,
    1901-12-13T20:45:52 UTC, stands for the adoption of standard time, which
    the tz database has in 1883; before it pytz has the zone on local mean
    time. *)
Definition new_york_transitions : list (Z * tzinfo) :=
  ((-2147483648), EST) :: eastern_transitions.

Definition America_New_York : DstTzInfo :=
  mkzone (datetime_min :: map fst new_york_transitions)
         (LMT :: map snd new_york_transitions).

End Pytz.
Export Pytz.

(** ** Dictionaries *)

Module Dict.
Section Dict.
Variables K V : Type.
Variable eqb : K -> K -> bool.

(** A [dict] keeps its keys in insertion order; storing under a key that
    is present replaces the value in place. *)
Definition dict := list (K * V).

Fixpoint set (d : dict) (k : K) (v : V) : dict :=
  match d with
  | [] => [(k, v)]
  | (k', v') :: d' =>
      if eqb k k' then (k', v) :: d' else (k', v') :: set d' k v
  end.

Fixpoint get (d : dict) (k : K) : option V :=
  match d with
  | [] => None
  | (k', v') :: d' => if eqb k k' then Some v' else get d' k
  end.
End Dict.
End Dict.

(** ** The program *)

Section Program.

(** [pd.to_datetime] on a string or a number: the parser of pandas, which
    returns a [Timestamp] or [NaT] or raises with a message. *)
Variable pandas_parse : cell -> stamp + text.

Definition to_datetime (c : cell) : outcome stamp :=
  match c with
  | CTimestamp d => Ok (Stamp d)
  | CNaT => Ok NaT
  | CTime _ =>
      Raise (TypeError [TypeOf c; Lit " is not convertible to datetime"])
  | CInt _ | CFloat _ | CStr _ =>
      match pandas_parse c with
      | inl s => Ok s
      | inr msg => Raise (ValueError msg)
      end
  end.

(** *** validate_excel_columns *)

Definition required_columns : list string :=
  ["nfl_game_id"; "season_year"; "week"; "game_type";
   "home_team_id"; "home_team"; "away_team_id"; "away_team";
   "game_date"; "game_time_et"].

(** [[col for col in required_columns if col not in df.columns]] *)
Definition missing_columns_of (df : DataFrame) : list string :=
  filter (fun col => negb (has_column (columns df) col)) required_columns.

Definition validate_excel_columns (df : DataFrame) : M bool :=
  let missing_columns := missing_columns_of df in
  match missing_columns with
  | _ :: _ =>
      raise (ValueError [Lit "Missing required columns: "; Strs missing_columns])
  | [] =>
      print [Lit "✓ Excel file has all required columns"] ;;;
      ret true
  end.

(** *** validate_game_types *)

Definition valid_types : list string :=
  ["regular"; "wildcard"; "divisional"; "conference"; "superbowl"].

(** [value in valid_types], one entry of [Series.isin]. *)
Definition isin (l : list string) (c : cell) : bool :=
  existsb (fun v => str_eq_cell v c) l.

Definition cell_eq_dec (a b : cell) : {a = b} + {a <> b}.
Proof.
  repeat decide equality; auto using Z.eq_dec, string_dec, bool_dec.
Defined.

Definition cell_eqb (a b : cell) : bool :=
  if cell_eq_dec a b then true else false.

(** [Series.unique]: the distinct values in order of first appearance. *)
Fixpoint unique (seen l : list cell) : list cell :=
  match l with
  | [] => []
  | c :: l' =>
      if existsb (cell_eqb c) seen then unique seen l'
      else c :: unique (c :: seen) l'
  end.

(** [df[~df['game_type'].isin(valid_types)]['game_type'].unique()], from
    the cells of the column. *)
Definition invalid_types_of (game_type : list cell) : list cell :=
  unique [] (filter (fun c => negb (isin valid_types c)) game_type).

Definition validate_game_types (df : DataFrame) : M bool :=
  game_type <- lift (column df "game_type") ;;
  let invalid_types := invalid_types_of game_type in
  match invalid_types with
  | _ :: _ =>
      raise (ValueError [Lit "Invalid game_type values: "; Vals invalid_types;
                         Lit ". Must be one of: "; Strs valid_types])
  | [] =>
      print [Lit "✓ All game types are valid"] ;;;
      ret true
  end.

(** *** get_team_lookup *)

(** [{abbr: team_id for team_id, abbr in cursor.fetchall()}] *)
Definition team_lookup_of (rows : list (Z * string)) : Dict.dict string Z :=
  fold_left (fun d r => Dict.set String.eqb d (snd r) (fst r)) rows [].

Definition get_team_lookup : M (Dict.dict string Z) :=
  cursor_open ;;;
  rows <- select_active_teams ;;
  let team_lookup := team_lookup_of rows in
  cursor_close ;;;
  print [Lit "✓ Loaded "; Num (Z.of_nat (List.length team_lookup));
         Lit " teams for lookup"] ;;;
  ret team_lookup.

(** *** validate_teams_exist *)

(** [{team_id: abbr for abbr, team_id in team_lookup.items()}] *)
Definition team_id_lookup_of (team_lookup : Dict.dict string Z)
  : Dict.dict Z string :=
  fold_left (fun d r => Dict.set Z.eqb d (snd r) (fst r)) team_lookup [].

Definition not_found_error (index : Z) (side : string) (id : Z) : text :=
  [Lit "Row "; Num (index + 2); Lit ": "; Lit side; Lit " team_id "; Num id;
   Lit " not found in database"].

Definition mismatch_error (index : Z) (side : string) (id : Z)
           (abbr : cell) (expected : string) : text :=
  [Lit "Row "; Num (index + 2); Lit ": "; Lit side; Lit " team_id "; Num id;
   Lit " doesn't match abbreviation '"; Val abbr;
   Lit "' (should be '"; Val (CStr expected); Lit "')"].

(** The [if]/[elif] on one side of a row. *)
Definition check_side (team_id_lookup : Dict.dict Z string) (index : Z)
           (side : string) (id : Z) (abbr : cell) (errors : list text)
  : list text :=
  match Dict.get Z.eqb team_id_lookup id with
  | None => errors ++ [not_found_error index side id]
  | Some expected =>
      if negb (str_eq_cell expected abbr)
      then errors ++ [mismatch_error index side id abbr expected]
      else errors
  end.

(** The body of the loop over the rows. *)
Definition check_row (team_id_lookup : Dict.dict Z string)
           (ir : Z * Series) (errors : list text) : outcome (list text) :=
  let (index, row) := ir in
  obind (obind (getitem row "home_team_id") py_int) (fun home_team_id =>
  obind (getitem row "home_team") (fun home_team_abbr =>
  let errors :=
    check_side team_id_lookup index "Home" home_team_id home_team_abbr errors in
  obind (obind (getitem row "away_team_id") py_int) (fun away_team_id =>
  obind (getitem row "away_team") (fun away_team_abbr =>
  Ok (check_side team_id_lookup index "Away" away_team_id away_team_abbr
                 errors))))).

Fixpoint check_rows (team_id_lookup : Dict.dict Z string)
         (rows : list (Z * Series)) (errors : list text)
  : outcome (list text) :=
  match rows with
  | [] => Ok errors
  | ir :: rows' =>
      obind (check_row team_id_lookup ir errors)
            (check_rows team_id_lookup rows')
  end.

(** [for x in l: print(prefix + x)] *)
Fixpoint print_each (prefix : text) (l : list text) : M unit :=
  match l with
  | [] => ret tt
  | x :: l' => print (prefix ++ x) ;;; print_each prefix l'
  end.

(** The lines shown for a list of errors: the first ten, then how many
    more there are. *)
Definition print_first_ten (indent bullet : string) (errors : list text)
  : M unit :=
  print_each [Lit bullet] (firstn 10 errors) ;;;
  if 10 <? Z.of_nat (List.length errors) then
    print [Lit indent; Lit "... and ";
           Num (Z.of_nat (List.length errors) - 10); Lit " more errors"]
  else ret tt.

Definition validate_teams_exist (df : DataFrame)
           (team_lookup : Dict.dict string Z) : M bool :=
  let team_id_lookup := team_id_lookup_of team_lookup in
  errors <- lift (check_rows team_id_lookup (iterrows df) []) ;;
  match errors with
  | _ :: _ =>
      print [Lit "❌ Team validation errors:"] ;;;
      print_first_ten "   " "   " errors ;;;
      raise (ValueError [Lit "Found "; Num (Z.of_nat (List.length errors));
                         Lit " team validation errors"])
  | [] =>
      print [Lit "✓ All team IDs and abbreviations are valid"] ;;;
      ret true
  end.

(** *** calculate_kickoff_timestamp *)

(** What [datetime.combine] receives as its second argument: a
    [datetime.time], or some other object. *)
Inductive time_arg :=
| ATime (t : time)
| AOther (c : cell).

(** [pd.to_datetime(c).date()]; [NaT.date()] is [NaT] again, here [None]. *)
Definition stamp_date (s : stamp) : option date :=
  match s with
  | Stamp d => Some (dt_date d)
  | NaT => None
  end.

(** [pd.to_datetime(c).time()], which [NaT] does not have. *)
Definition stamp_time (s : stamp) : outcome time_arg :=
  match s with
  | Stamp d => Ok (ATime (dt_time d))
  | NaT => Raise (ValueError [Lit "NaTType does not support time"])
  end.

(** The [if isinstance(game_time_value, str)] of the function. *)
Definition game_time_of (game_time_value : cell) : outcome time_arg :=
  match game_time_value with
  | CStr _ => obind (to_datetime game_time_value) stamp_time
  | CTime t => Ok (ATime t)
  | c => Ok (AOther c)
  end.

(** [datetime.combine(game_date, game_time)].  [NaT] is an instance of
    [datetime], built with the fields of 0001-01-01, and is accepted as the
    date. *)
Definition combine (game_date : option date) (game_time : time_arg)
  : outcome datetime :=
  match game_time with
  | AOther c =>
      Raise (TypeError
               [Lit "combine() argument 2 must be datetime.time, not ";
                TypeOf c])
  | ATime t =>
      match game_date with
      | Some d => Ok (mkdatetime d t)
      | None => Ok (mkdatetime (mkdate 1 1 1) t)
      end
  end.

(** The body of the [try]. *)
Definition kickoff_utc (row : Series) : outcome datetime :=
  obind (obind (getitem row "game_date") to_datetime) (fun s =>
  let game_date := stamp_date s in
  obind (getitem row "game_time_et") (fun game_time_value =>
  obind (game_time_of game_time_value) (fun game_time =>
  let eastern_tz := America_New_York in
  obind (combine game_date game_time) (fun naive_datetime =>
  obind (localize eastern_tz (seconds_of naive_datetime))
        (fun localized_datetime =>
  obind (astimezone_utc localized_datetime) (fun utc_datetime =>
  Ok (datetime_of (wall utc_datetime)
                  (microsecond (dt_time naive_datetime))))))))).

(** [None] is Python's [None]. *)
Definition calculate_kickoff_timestamp (row : Series) : M (option datetime) :=
  try_except
    (utc_datetime <- lift (kickoff_utc row) ;;
     ret (Some utc_datetime))
    (fun e =>
       nfl_game_id <- lift (getitem row "nfl_game_id") ;;
       print ([Lit "Error calculating kickoff for game "; Val nfl_game_id;
               Lit ": "] ++ exn_str e) ;;;
       game_date <- lift (getitem row "game_date") ;;
       print [Lit "  game_date: "; Val game_date; Lit " (type: ";
              TypeOf game_date; Lit ")"] ;;;
       game_time_et <- lift (getitem row "game_time_et") ;;
       print [Lit "  game_time_et: "; Val game_time_et; Lit " (type: ";
              TypeOf game_time_et; Lit ")"] ;;;
       ret None).

(** *** connect_to_database *)

Definition connect_to_database : M unit :=
  try_except
    (pymysql_connect ;;;
     print [Lit "✓ Connected to database: "; Lit "pools"])
    (fun e =>
       print ([Lit "❌ Database connection failed: "] ++ exn_str e) ;;;
       raise e).

(** *** upload_games_to_database *)

(** The local variables the loop updates. *)
Record counters := mkcounters {
  success_count : Z;
  error_count : Z;
  errors : list text
}.

(** The tuple [data] of a row, its fields evaluated in order. *)
Definition row_data (row : Series) (kickoff_timestamp : datetime)
  : outcome game_row :=
  obind (obind (getitem row "home_team_id") py_int) (fun home_team_id =>
  obind (obind (getitem row "away_team_id") py_int) (fun away_team_id =>
  obind (getitem row "nfl_game_id") (fun nfl_game_id =>
  obind (obind (getitem row "season_year") py_int) (fun season_year =>
  obind (obind (getitem row "week") py_int) (fun week =>
  obind (getitem row "game_type") (fun game_type =>
  obind (getitem row "game_date") (fun game_date =>
  obind (getitem row "game_time_et") (fun game_time_et =>
  Ok (mkgame nfl_game_id season_year week game_type
             home_team_id away_team_id game_date game_time_et
             kickoff_timestamp "scheduled"))))))))).

(** One turn of the loop: the inner [try] and its handler. *)
Definition upload_row (ir : Z * Series) (acc : counters) : M counters :=
  let (index, row) := ir in
  try_except
    (kickoff_timestamp <- calculate_kickoff_timestamp row ;;
     match kickoff_timestamp with
     | None =>
         ret (mkcounters (success_count acc) (error_count acc + 1)
                (errors acc ++
                 [[Lit "Row "; Num (index + 2);
                   Lit ": Could not calculate kickoff timestamp"]]))
     | Some ts =>
         data <- lift (row_data row ts) ;;
         execute_insert data ;;;
         ret (mkcounters (success_count acc + 1) (error_count acc)
                         (errors acc))
     end)
    (fun e =>
       nfl_game_id <- lift (getitem row "nfl_game_id") ;;
       ret (mkcounters (success_count acc) (error_count acc + 1)
              (errors acc ++
               [[Lit "Row "; Num (index + 2); Lit " ("; Val nfl_game_id;
                 Lit "): "] ++ exn_str e]))).

Fixpoint upload_rows (rows : list (Z * Series)) (acc : counters)
  : M counters :=
  match rows with
  | [] => ret acc
  | ir :: rows' => acc' <- upload_row ir acc ;; upload_rows rows' acc'
  end.

Definition print_results (acc : counters) : M unit :=
  print [Lit newline; Lit "📊 Upload Results:"] ;;;
  print [Lit "✅ Successfully uploaded: "; Num (success_count acc);
         Lit " games"] ;;;
  if 0 <? error_count acc then
    print [Lit "❌ Errors encountered: "; Num (error_count acc);
           Lit " games"] ;;;
    print [Lit newline; Lit "Error details:"] ;;;
    print_first_ten "  " "  • " (errors acc)
  else ret tt.

(** The body of the outer [try]: the loop, the commit and the report. *)
Definition upload_try (df : DataFrame) : M (Z * Z) :=
  acc <- upload_rows (iterrows df) (mkcounters 0 0 []) ;;
  commit ;;;
  print_results acc ;;;
  ret (success_count acc, error_count acc).

(** Its [except Exception as e] clause. *)
Definition upload_except (e : exn) : M (Z * Z) :=
  rollback ;;;
  print ([Lit "❌ Database transaction failed: "] ++ exn_str e) ;;;
  raise e.

Definition upload_games_to_database (df : DataFrame) : M (Z * Z) :=
  cursor_open ;;;
  try_finally (try_except (upload_try df) upload_except) cursor_close.

(** *** main *)

(** What the process sees of its surroundings: the command line, the file
    system, and what [pd.read_excel] makes of a file (a table, or an
    exception with its class and message). *)
Record environment := mkenv {
  argv : list string;
  path_exists : string -> bool;
  read_excel : string -> DataFrame + (string * text)
}.

(** [sys.exit(code)] *)
Definition sys_exit {A} (code : Z) : M A := raise (SystemExit code).

Definition pd_read_excel (env : environment) (path : string) : M DataFrame :=
  match read_excel env path with
  | inl df => ret df
  | inr (cls, msg) => raise (Exception cls msg)
  end.

(** The body of the [try] of [main]. *)
Definition main_try (env : environment) (excel_file_path : string) : M unit :=
  (if negb (path_exists env excel_file_path) then
     print [Lit "❌ File not found: "; Lit excel_file_path] ;;;
     sys_exit 1
   else ret tt) ;;;
  print [Lit "🏈 Starting NFL Games Upload"] ;;;
  print [Lit "📁 Reading file: "; Lit excel_file_path] ;;;
  df <- pd_read_excel env excel_file_path ;;
  print [Lit "📋 Found "; Num (len df); Lit " games in Excel file"] ;;;
  validate_excel_columns df ;;;
  validate_game_types df ;;;
  connect_to_database ;;;
  team_lookup <- get_team_lookup ;;
  validate_teams_exist df team_lookup ;;;
  counts <- upload_games_to_database df ;;
  let (success_count, error_count) := counts in
  close ;;;
  print [Lit "✓ Database connection closed"] ;;;
  print [Lit newline; Lit "🎯 Final Summary:"] ;;;
  print [Lit "   Total games processed: "; Num (len df)] ;;;
  print [Lit "   Successfully uploaded: "; Num success_count] ;;;
  print [Lit "   Errors: "; Num error_count] ;;;
  if error_count =? 0 then
    print [Lit "🎉 All games uploaded successfully!"]
  else
    print [Lit "⚠️  Upload completed with some errors. Please review the error details above."].

(** Its [except Exception as e] clause. *)
Definition main_except (e : exn) : M unit :=
  print ([Lit "❌ Upload failed: "] ++ exn_str e) ;;;
  sys_exit 1.

Definition main (env : environment) : M unit :=
  if negb (Z.of_nat (List.length (argv env)) =? 2) then
    print [Lit "Usage: python nfl_upload.py <path_to_excel_file>"] ;;;
    print [Lit "Example: python nfl_upload.py nfl_schedule_2025.xlsx"] ;;;
    sys_exit 1
  else
    let excel_file_path := nth 1 (argv env) "" in
    try_except (main_try env excel_file_path) main_except.

(** The exit status of the interpreter running [main]: 0 when it returns,
    the code of a [SystemExit], and 1 for any other exception. *)
Definition exit_status (r : outcome unit) : Z :=
  match r with
  | Ok _ => 0
  | Raise (SystemExit code) => code
  | Raise (Exception _ _) => 1
  end.

(** ** Vocabulary of the properties *)

(** *** States and printed lines *)

(** The state with the same output and the connection after a call. *)
Definition after_call {A} (f : call A) (s : state) : state :=
  mkstate (stdout s) (snd (f (db s))).

(** The state with more lines printed. *)
Definition printed (s : state) (lines : list text) : state :=
  mkstate (stdout s ++ lines) (db s).

(** The lines [print_first_ten] shows for a list of errors. *)
Definition shown_lines (indent bullet : string) (errors : list text)
  : list text :=
  map (app [Lit bullet]) (firstn 10 errors)
  ++ (if 10 <? Z.of_nat (List.length errors)
      then [[Lit indent; Lit "... and ";
             Num (Z.of_nat (List.length errors) - 10); Lit " more errors"]]
      else []).

(** The outcome of the [n]-th call to the server from now on. *)
Definition fault_at (s : state) (n : nat) : option db_error :=
  nth n (faults (db s)) None.

(** *** The loader *)

(** The three lines the [except] clause prints for a row. *)
Definition kickoff_report (nfl_game_id game_date game_time_et : cell)
           (e : exn) : list text :=
  [[Lit "Error calculating kickoff for game "; Val nfl_game_id; Lit ": "]
     ++ exn_str e;
   [Lit "  game_date: "; Val game_date; Lit " (type: "; TypeOf game_date;
    Lit ")"];
   [Lit "  game_time_et: "; Val game_time_et; Lit " (type: ";
    TypeOf game_time_et; Lit ")"]].

(** The counters after a row whose timestamp could not be derived. *)
Definition count_no_timestamp (index : Z) (acc : counters) : counters :=
  mkcounters (success_count acc) (error_count acc + 1)
    (errors acc ++
     [[Lit "Row "; Num (index + 2);
       Lit ": Could not calculate kickoff timestamp"]]).

(** The counters after a row whose INSERT returned. *)
Definition count_success (acc : counters) : counters :=
  mkcounters (success_count acc + 1) (error_count acc) (errors acc).

(** The counters after a row that raised [e] on its way to the table. *)
Definition count_row_error (index : Z) (nfl_game_id : cell) (e : exn)
           (acc : counters) : counters :=
  mkcounters (success_count acc) (error_count acc + 1)
    (errors acc ++
     [[Lit "Row "; Num (index + 2); Lit " ("; Val nfl_game_id; Lit "): "]
        ++ exn_str e]).

(** The report [print_results] prints after the commit. *)
Definition results_lines (acc : counters) : list text :=
  [[Lit newline; Lit "📊 Upload Results:"];
   [Lit "✅ Successfully uploaded: "; Num (success_count acc); Lit " games"]]
  ++ (if 0 <? error_count acc
      then [[Lit "❌ Errors encountered: "; Num (error_count acc);
             Lit " games"];
            [Lit newline; Lit "Error details:"]]
           ++ shown_lines "  " "  • " (errors acc)
      else []).

(** The line the [except] clause of [upload_games_to_database] prints. *)
Definition transaction_failed (e : exn) : text :=
  [Lit "❌ Database transaction failed: "] ++ exn_str e.

Definition is_insert (ev : db_event) : bool :=
  match ev with
  | EvInsert _ _ => true
  | _ => false
  end.

(** The rows of the INSERTs that returned, in the order they were sent. *)
Definition inserted (evs : list db_event) : list game_row :=
  flat_map (fun ev => match ev with
                      | EvInsert g true => [g]
                      | _ => []
                      end) evs.

(** The connection [c'] is [c] after the calls [evs], all of them INSERTs:
    those that returned added their row to the open transaction, and the
    durable rows, the teams and the status of the connection are as
    before. *)
Definition only_inserts (c c' : connection) (evs : list db_event) : Prop :=
  forallb is_insert evs = true
  /\ calls c' = calls c ++ evs
  /\ pending c' = pending c ++ inserted evs
  /\ games c' = games c
  /\ status c' = status c
  /\ teams c' = teams c.

Definition is_close (ev : db_event) : bool :=
  match ev with
  | EvClose => true
  | _ => false
  end.

(** *** Team references *)

(** The two team references of a row: numeric id and supplied code of the
    home side and of the away side. *)
Record row_teams := mkrow_teams {
  home_id : Z;
  home_abbr : cell;
  away_id : Z;
  away_abbr : cell
}.

(** Reading the team references of a row: the four cells, the ids passed
    through [int]. *)
Definition teams_of_row (row : Series) : outcome row_teams :=
  obind (obind (getitem row "home_team_id") py_int) (fun h =>
  obind (getitem row "home_team") (fun ha =>
  obind (obind (getitem row "away_team_id") py_int) (fun a =>
  obind (getitem row "away_team") (fun aa =>
  Ok (mkrow_teams h ha a aa))))).

Fixpoint teams_of_rows (rows : list (Z * Series))
  : outcome (list (Z * row_teams)) :=
  match rows with
  | [] => Ok []
  | (index, row) :: rows' =>
      obind (teams_of_row row) (fun t =>
      obind (teams_of_rows rows') (fun ts => Ok ((index, t) :: ts)))
  end.

(** A referential problem of one side of a row: the id is unknown to the
    directory, or it is known under another code than the one supplied. *)
Inductive problem :=
| NotFound (index : Z) (side : string) (id : Z)
| Mismatch (index : Z) (side : string) (id : Z) (supplied : cell)
           (expected : string).

Definition side_problems (team_id_lookup : Dict.dict Z string) (index : Z)
           (side : string) (id : Z) (abbr : cell) : list problem :=
  match Dict.get Z.eqb team_id_lookup id with
  | None => [NotFound index side id]
  | Some expected =>
      if str_eq_cell expected abbr then []
      else [Mismatch index side id abbr expected]
  end.

Definition row_problems (team_id_lookup : Dict.dict Z string)
           (it : Z * row_teams) : list problem :=
  side_problems team_id_lookup (fst it) "Home"
                (home_id (snd it)) (home_abbr (snd it))
  ++ side_problems team_id_lookup (fst it) "Away"
                   (away_id (snd it)) (away_abbr (snd it)).

(** Every problem of the table: row after row, home side before away. *)
Definition all_problems (team_id_lookup : Dict.dict Z string)
           (ts : list (Z * row_teams)) : list problem :=
  flat_map (row_problems team_id_lookup) ts.

(** The error entry that reports a problem. *)
Definition problem_entry (p : problem) : text :=
  match p with
  | NotFound index side id => not_found_error index side id
  | Mismatch index side id supplied expected =>
      mismatch_error index side id supplied expected
  end.

(** The error [validate_teams_exist] raises for [n] entries. *)
Definition team_validation_error (n : nat) : exn :=
  ValueError [Lit "Found "; Num (Z.of_nat n); Lit " team validation errors"].

(** The cell [c] is the first team id of the row that [int] rejects, with
    the exception [e]: the home id, or the away id of a row whose home side
    reads well. *)
Definition unconvertible_team_id (row : Series) (c : cell) (e : exn) : Prop :=
  (getitem row "home_team_id" = Ok c /\ py_int c = Raise e)
  \/ ((exists h ha,
          obind (getitem row "home_team_id") py_int = Ok h
          /\ getitem row "home_team" = Ok ha)
      /\ getitem row "away_team_id" = Ok c /\ py_int c = Raise e).

(** *** The run of main *)

(** The argument of the command line. *)
Definition excel_file_path (env : environment) : string :=
  nth 1 (argv env) "".

(** The line the [except] clause of [main] prints. *)
Definition upload_failed (e : exn) : text :=
  [Lit "❌ Upload failed: "] ++ exn_str e.

(** What [main] has printed when the table is read and its columns and
    game types are found valid. *)
Definition validated_lines (env : environment) (df : DataFrame) : list text :=
  [[Lit "🏈 Starting NFL Games Upload"];
   [Lit "📁 Reading file: "; Lit (excel_file_path env)];
   [Lit "📋 Found "; Num (len df); Lit " games in Excel file"];
   [Lit "✓ Excel file has all required columns"];
   [Lit "✓ All game types are valid"]].

(** The lookup [get_team_lookup] builds from the teams table. *)
Definition team_lookup_from (c : connection) : Dict.dict string Z :=
  team_lookup_of (map (fun t => (team_id t, abbreviation t))
                      (filter active (teams c))).

(** The state in which [main] calls [validate_teams_exist]: the table is
    valid, the connection is open and the lookup is loaded. *)
Definition looked_up (env : environment) (df : DataFrame) (s : state)
  : state :=
  printed
    (after_call cursor_close_call
       (after_call select_call
          (after_call cursor_call
             (printed (after_call connect_call
                         (printed s (validated_lines env df)))
                      [[Lit "✓ Connected to database: "; Lit "pools"]]))))
    [[Lit "✓ Loaded ";
      Num (Z.of_nat (List.length (team_lookup_from (db s))));
      Lit " teams for lookup"]].

(** The lines of the final summary. *)
Definition summary_lines (df : DataFrame) (sc ec : Z) : list text :=
  [[Lit "✓ Database connection closed"];
   [Lit newline; Lit "🎯 Final Summary:"];
   [Lit "   Total games processed: "; Num (len df)];
   [Lit "   Successfully uploaded: "; Num sc];
   [Lit "   Errors: "; Num ec];
   if ec =? 0 then [Lit "🎉 All games uploaded successfully!"]
   else [Lit "⚠️  Upload completed with some errors. Please review the error details above."]].

(** The run gets as far as the referential validation of the table [df]:
    one argument, naming a file that exists and reads as [df]; no required
    column is missing, no game type is invalid; the server accepts the
    connection and answers the query for the teams. *)
Record reaches_validation (env : environment) (s : state) (df : DataFrame)
  : Prop := {
  one_argument : Z.of_nat (List.length (argv env)) = 2;
  file_exists : path_exists env (excel_file_path env) = true;
  file_reads : read_excel env (excel_file_path env) = inl df;
  columns_present : missing_columns_of df = [];
  types_valid :
    exists game_type,
      column df "game_type" = Ok game_type
      /\ invalid_types_of game_type = [];
  connects : fault_at s 0 = None;
  teams_queried : fault_at s 1 = None
}.

(** The run completes the pipeline: it reaches the referential validation,
    which passes, and the load returns its two counters. *)
Definition completes (env : environment) (s : state) : Prop :=
  exists df s4 counts s5,
    reaches_validation env s df
    /\ validate_teams_exist df (team_lookup_from (db s)) (looked_up env df s)
       = (Ok true, s4)
    /\ upload_games_to_database df s4 = (Ok counts, s5).

(** *** Wall clock times around a transition *)

(** The [tzinfo] in force at the instant [u], for a zone given by its first
    [tzinfo] and the transitions after it. *)
Fixpoint in_force (first : tzinfo) (transitions : list (Z * tzinfo)) (u : Z)
  : tzinfo :=
  match transitions with
  | [] => first
  | (t, inf) :: rest => if t <=? u then in_force inf rest u else first
  end.

(** The widest span of instants [localize] looks at around a wall clock
    time: from a day and six hours before it to a day after it. *)
Definition window : Z := 108000 + 86400.

(** The changes of America/New_York since it keeps Eastern time: between
    standard and daylight saving time, and through war and peace time. *)
Definition eastern_steps : list (tzinfo * tzinfo) :=
  [(EST, EDT); (EDT, EST); (EST, EWT); (EWT, EPT); (EPT, EST)].

Definition new_york_steps : list (tzinfo * tzinfo) :=
  (LMT, EST) :: eastern_steps.

Definition is_step (steps : list (tzinfo * tzinfo)) (a b : tzinfo) : bool :=
  existsb (fun p => tzinfo_eqb a (fst p) && tzinfo_eqb b (snd p)) steps.

(** Every transition of the zone is one of [steps], and two transitions
    are further apart than [window]. *)
Fixpoint spaced (steps : list (tzinfo * tzinfo)) (t0 : Z) (first : tzinfo)
         (transitions : list (Z * tzinfo)) : bool :=
  match transitions with
  | [] => true
  | (t, inf) :: rest =>
      (t0 + window <? t) && is_step steps first inf && spaced steps t inf rest
  end.

(** Reading the wall clock time [dt] (in seconds) with the offset [off]
    gives an instant at which that offset is in force. *)
Definition valid_reading (tz : DstTzInfo) (dt off : Z) : Prop :=
  utcoffset (info_at tz (dt - off)) = off.

(** A wall clock time that happens twice, when the clocks are set back:
    once on daylight saving and once on standard time. *)
Definition ambiguous (tz : DstTzInfo) (dt : Z) : Prop :=
  valid_reading tz dt (utcoffset EST) /\ valid_reading tz dt (utcoffset EDT).

(** A wall clock time that never happens, skipped when the clocks are set
    forward. *)
Definition nonexistent (tz : DstTzInfo) (dt : Z) : Prop :=
  ~ valid_reading tz dt (utcoffset EST)
  /\ ~ valid_reading tz dt (utcoffset EDT).

(** The wall clock times of the years 1902 to 2037, the years in which
    the table of pytz is that of the tz database: its instants start on
    1901-12-13 and end in 2037. *)
Definition tabulated (dt : Z) : Prop :=
  seconds_of (mkdatetime (mkdate 1902 1 1) (mktime 0 0 0 0)) <= dt
  /\ dt <= seconds_of (mkdatetime (mkdate 2037 12 31) (mktime 23 59 59 0)).

(** The wall clock times from 0001-01-03 to 9999-12-30: around them
    [localize] finds a datetime a day and six hours earlier and a day
    later. *)
Definition away_from_ends (dt : Z) : Prop :=
  seconds_of (mkdatetime (mkdate 1 1 3) (mktime 0 0 0 0)) <= dt
  /\ dt <= seconds_of (mkdatetime (mkdate 9999 12 30) (mktime 23 59 59 0)).

(** *** Two stronger properties, which the program does not have *)

(** Whenever an exception leaves the [try] block of the load, the call
    raises that same exception, with no row durable and none left in the
    transaction. *)
Definition rolls_back_and_reraises (df : DataFrame) (s : state) : Prop :=
  forall e s1,
    upload_try df (after_call cursor_call s) = (Raise e, s1) ->
    exists s',
      upload_games_to_database df s = (Raise e, s')
      /\ games (db s') = games (db s)
      /\ pending (db s') = [].

(** A connection that [main] has opened is closed when [main] ends. *)
Definition closes_what_it_opened (env : environment) (s : state) : Prop :=
  let s' := snd (main env s) in
  In (EvConnect true) (calls (db s')) -> status (db s') = Closed.

(** ** A schedule, a directory and a server to run the program on *)

(** A pandas that parses no string and no number. *)
Definition no_parse (c : cell) : stamp + text :=
  inr [Lit "Unknown datetime string format, unable to parse: "; Val c].

Definition at_midnight (y m d : Z) : cell :=
  CTimestamp (mkdatetime (mkdate y m d) (mktime 0 0 0 0)).

Definition teams_2025 : list team_row :=
  [mkteam 1 "KC" true; mkteam 2 "BAL" true; mkteam 3 "PHI" true;
   mkteam 4 "DAL" true; mkteam 5 "STL" false].

Definition game_1 : list cell :=
  [CStr "2025_01_DAL_PHI"; CInt 2025; CInt 1; CStr "regular";
   CInt 3; CStr "PHI"; CInt 4; CStr "DAL";
   at_midnight 2025 9 4; CTime (mktime 20 20 0 0)].

(** The date of this game is not known yet. *)
Definition game_3 : list cell :=
  [CStr "2025_19_KC_PHI"; CInt 2025; CInt 19; CStr "wildcard";
   CInt 3; CStr "PHI"; CInt 1; CStr "KC";
   CStr "TBD"; CTime (mktime 13 0 0 0)].

Definition game_4 : list cell :=
  [CStr "2025_09_DAL_BAL"; CInt 2025; CInt 9; CStr "regular";
   CInt 2; CStr "BAL"; CInt 4; CStr "DAL";
   at_midnight 2025 11 2; CTime (mktime 1 30 0 0)].

Definition game_5 : list cell :=
  [CStr "2025_10_PHI_KC"; CInt 2025; CInt 10; CStr "regular";
   CInt 1; CStr "KC"; CInt 3; CStr "PHI";
   at_midnight 2025 11 9; CTime (mktime 16 25 0 0)].

Definition five_games : DataFrame :=
  mkDataFrame required_columns
    [game_1; game_4; game_3; game_5; game_1].

(** A row whose home team is unknown and whose away team goes by another
    code, and a row whose home id is no number. *)
Definition game_unknown_teams : list cell :=
  [CStr "2025_02_XXX_YYY"; CInt 2025; CInt 2; CStr "regular";
   CInt 9; CStr "LV"; CInt 4; CStr "DAK";
   at_midnight 2025 9 14; CTime (mktime 13 0 0 0)].

Definition game_bad_id : list cell :=
  [CStr "2025_02_PHI_KC"; CInt 2025; CInt 2; CStr "regular";
   CStr "KC"; CStr "KC"; CInt 3; CStr "PHI";
   at_midnight 2025 9 14; CTime (mktime 16 25 0 0)].

Definition lookup_2025 : Dict.dict string Z :=
  [("KC", 1); ("BAL", 2); ("PHI", 3); ("DAL", 4)].

(** A server with the directory, an empty table of games and the outcomes
    [faults] for the calls to come. *)
Definition server (st : conn_status) (faults : list (option db_error))
  : state :=
  mkstate [] (mkconn st teams_2025 [] [] faults []).

Definition duplicate_entry : db_error :=
  mkerr "IntegrityError" "(1062, 'Duplicate entry 2025_01_DAL_PHI')".

Definition lost_connection : db_error :=
  mkerr "OperationalError" "(2013, 'Lost connection to MySQL server during query')".

Definition no_socket_left : db_error := mkerr "InterfaceError" "(0, '')".

Definition command_line (df : DataFrame) : environment :=
  mkenv ["nfl_upload.py"; "nfl_five_games.xlsx"]
        (fun path => String.eqb path "nfl_five_games.xlsx")
        (fun _ => inl df).

(** The server accepts the connection, answers the query for the teams and
    takes the row; then the commit fails. *)
Definition commit_fails : state :=
  server NotConnected [None; None; None; Some lost_connection].

(** The last INSERT fails on a duplicate key; everything else goes well. *)
Definition last_insert_fails : state :=
  server NotConnected [None; None; None; None; None; Some duplicate_entry].

Definition one_game : DataFrame := mkDataFrame required_columns [game_1].

Definition no_games : DataFrame := mkDataFrame required_columns [].

Definition unknown_teams : DataFrame :=
  mkDataFrame required_columns [game_1; game_unknown_teams].

Definition bad_team_id : DataFrame :=
  mkDataFrame required_columns [game_unknown_teams; game_bad_id].

(** A table that lacks the column nfl_game_id. *)
Definition no_game_id : DataFrame :=
  mkDataFrame (tl required_columns) [tl game_1].


(** *** Extras of the vocabulary *)

(** The pair of a numeric id and a supplied code is an entry of the
    directory [rows], a list of (team_id, abbreviation). *)
Definition listed (rows : list (Z * string)) (id : Z) (code : cell) : Prop :=
  exists abbr, code = CStr abbr /\ In (id, abbr) rows.

(** The rows [SELECT team_id, abbreviation FROM teams WHERE active = TRUE]
    fetches from a connection. *)
Definition active_teams (c : connection) : list (Z * string) :=
  map (fun t => (team_id t, abbreviation t)) (filter active (teams c)).


(** The tuple a row sends with its INSERT, for a row whose timestamp
    derives and whose fields convert. *)
Definition insertable (row : Series) : option game_row :=
  match kickoff_utc row with
  | Ok ts =>
      match row_data row ts with
      | Ok g => Some g
      | Raise _ => None
      end
  | Raise _ => None
  end.

(** The tuples of the rows that have one, in the order of the rows. *)
Definition insertable_rows (rows : list (Z * Series)) : list game_row :=
  flat_map (fun ir => match insertable (snd ir) with
                      | Some g => [g]
                      | None => []
                      end) rows.

(** The rows of the INSERTs sent, whether they returned or raised. *)
Definition sent (evs : list db_event) : list game_row :=
  flat_map (fun ev => match ev with
                      | EvInsert g _ => [g]
                      | _ => []
                      end) evs.


(** What [main] checks before it connects: the command line names one
    file, which exists and reads as the table [df], with every required
    column and no invalid game type. *)
Definition table_accepted (env : environment) (df : DataFrame) : Prop :=
  Z.of_nat (List.length (argv env)) = 2
  /\ path_exists env (excel_file_path env) = true
  /\ read_excel env (excel_file_path env) = inl df
  /\ missing_columns_of df = []
  /\ exists game_type,
       column df "game_type" = Ok game_type
       /\ invalid_types_of game_type = [].

(** The calls that change or end a transaction. *)
Definition is_write (ev : db_event) : bool :=
  match ev with
  | EvInsert _ _ | EvCommit _ | EvRollback _ => true
  | _ => false
  end.

(** The run gets as far as the load: it reaches the referential
    validation, and that passes. *)
Definition ready_to_load (env : environment) (s : state) : Prop :=
  exists df s4,
    reaches_validation env s df
    /\ validate_teams_exist df (team_lookup_from (db s)) (looked_up env df s)
       = (Ok true, s4).


(** The time cell of this game is empty. *)
Definition game_no_time : list cell :=
  [CStr "2025_02_KC_BAL"; CInt 2025; CInt 2; CStr "regular";
   CInt 2; CStr "BAL"; CInt 1; CStr "KC";
   at_midnight 2025 9 14; nan].

(** The week of this game is spelled out. *)
Definition game_bad_week : list cell :=
  [CStr "2025_01_DAL_PHI"; CInt 2025; CStr "one"; CStr "regular";
   CInt 3; CStr "PHI"; CInt 4; CStr "DAL";
   at_midnight 2025 9 4; CTime (mktime 20 20 0 0)].

(** The home team of this game is not active. *)
Definition game_inactive_team : list cell :=
  [CStr "2025_03_STL_KC"; CInt 2025; CInt 3; CStr "regular";
   CInt 5; CStr "STL"; CInt 1; CStr "KC";
   at_midnight 2025 9 21; CTime (mktime 13 0 0 0)].

Definition inactive_team : DataFrame :=
  mkDataFrame required_columns [game_1; game_inactive_team].


(** * Properties *)

Unset Implicit Arguments.
Create HintDb exc.

(** ** Outcomes and exceptions *)

Lemma obind_Ok {A B} (o : outcome A) (k : A -> outcome B) (b : B) :
  obind o k = Ok b -> exists a, o = Ok a /\ k a = Ok b.
Proof. destruct o as [a|e]; simpl; [eauto | discriminate]. Qed.

Lemma obind_Raise {A B} (o : outcome A) (k : A -> outcome B) (e : exn) :
  obind o k = Raise e ->
  o = Raise e \/ exists a, o = Ok a /\ k a = Raise e.
Proof. destruct o as [a|e']; simpl; intros H; [eauto | left; congruence]. Qed.

Lemma getitem_Exception row k e :
  getitem row k = Raise e -> is_Exception e = true.
Proof.
  unfold getitem. destruct (index_of k (labels row)); intros H; inversion H.
  reflexivity.
Qed.

Lemma py_int_Exception c e : py_int c = Raise e -> is_Exception e = true.
Proof.
  destruct c as [n|f|str|t|d|]; simpl; try discriminate;
    try (intros H; inversion H; reflexivity).
  - destruct f; intros H; inversion H; reflexivity.
  - destruct (int_of_string str); intros H; inversion H; reflexivity.
Qed.

Lemma to_datetime_Exception c e :
  to_datetime c = Raise e -> is_Exception e = true.
Proof.
  destruct c; simpl; try discriminate;
    try (destruct (pandas_parse _)); intros H; inversion H; reflexivity.
Qed.

Lemma game_time_of_Exception c e :
  game_time_of c = Raise e -> is_Exception e = true.
Proof.
  destruct c as [n|f|str|t|d|]; try discriminate.
  unfold game_time_of. intros H.
  apply obind_Raise in H as [H | (a & _ & H)].
  - eapply to_datetime_Exception; eauto.
  - destruct a; inversion H. reflexivity.
Qed.

Lemma combine_Exception d t e :
  combine d t = Raise e -> is_Exception e = true.
Proof.
  destruct d, t; simpl; intros H; inversion H; reflexivity.
Qed.

Lemma add_timedelta_Exception dt delta e :
  add_timedelta dt delta = Raise e -> is_Exception e = true.
Proof.
  unfold add_timedelta. destruct (_ && _); intros H; inversion H.
  reflexivity.
Qed.

Ltac split_obind H :=
  repeat match type of H with
         | obind _ _ = Raise _ =>
             apply obind_Raise in H as [H | (? & ? & H)]
         end.

#[local] Hint Resolve getitem_Exception py_int_Exception to_datetime_Exception
  game_time_of_Exception combine_Exception add_timedelta_Exception : exc.

Lemma possible_loc_dt_Exception tz dt e :
  possible_loc_dt tz dt = Raise e -> is_Exception e = true.
Proof.
  unfold possible_loc_dt, candidate, normalize, fromutc. intros H.
  split_obind H; eauto with exc; discriminate.
Qed.

Lemma localize_rec_S fuel tz dt :
  localize_rec (S fuel) tz dt
  = obind (possible_loc_dt tz dt) (fun possible =>
    match possible with
    | [p] => Ok p
    | [] =>
        obind (add_timedelta dt (- (6 * 3600))) (fun earlier =>
        obind (localize_rec fuel tz earlier) (fun p =>
        obind (add_timedelta (wall p) (6 * 3600)) (fun w =>
        Ok (mkaware w (zone p)))))
    | p :: possible' =>
        match filter (fun q => dst (zone q) =? 0) (p :: possible') with
        | [q] => Ok q
        | [] => Ok (latest p possible')
        | q :: filtered => Ok (latest q filtered)
        end
    end).
Proof. reflexivity. Qed.

Lemma localize_rec_Exception fuel tz :
  forall dt e, localize_rec fuel tz dt = Raise e -> is_Exception e = true.
Proof.
  induction fuel as [|fuel IH]; intros dt e H.
  - inversion H. reflexivity.
  - rewrite localize_rec_S in H.
    apply obind_Raise in H as [H | (possible & _ & H)].
    { eapply possible_loc_dt_Exception; eauto. }
    destruct possible as [|p [|p' possible]].
    + split_obind H; eauto with exc. discriminate.
    + discriminate.
    + destruct (filter _ _) as [|q [|q' filtered]]; discriminate.
Qed.

Lemma localize_Exception tz dt e :
  localize tz dt = Raise e -> is_Exception e = true.
Proof. apply localize_rec_Exception. Qed.

Lemma astimezone_utc_Exception a e :
  astimezone_utc a = Raise e -> is_Exception e = true.
Proof.
  unfold astimezone_utc. intros H. split_obind H; eauto with exc.
  discriminate.
Qed.

#[local] Hint Resolve localize_Exception astimezone_utc_Exception : exc.

(** Whatever goes wrong in the [try] of [calculate_kickoff_timestamp] is an
    [Exception], hence caught by its [except] clause. *)
Lemma kickoff_utc_Exception row e :
  kickoff_utc row = Raise e -> is_Exception e = true.
Proof.
  unfold kickoff_utc. intros H.
  apply obind_Raise in H as [H | (s0 & _ & H)].
  { apply obind_Raise in H as [H | (c & _ & H)]; eauto with exc. }
  apply obind_Raise in H as [H | (c & _ & H)]; eauto with exc.
  apply obind_Raise in H as [H | (t & _ & H)]; eauto with exc.
  apply obind_Raise in H as [H | (n & _ & H)]; eauto with exc.
  apply obind_Raise in H as [H | (a & _ & H)]; eauto with exc.
  apply obind_Raise in H as [H | (u & _ & H)]; eauto with exc.
  discriminate.
Qed.

Lemma row_data_Exception row ts e :
  row_data row ts = Raise e -> is_Exception e = true.
Proof.
  unfold row_data. intros H. split_obind H; eauto with exc. discriminate.
Qed.

(** ** calculate_kickoff_timestamp *)

Lemma kickoff_success row ts s :
  kickoff_utc row = Ok ts ->
  calculate_kickoff_timestamp row s = (Ok (Some ts), s).
Proof.
  intros H. unfold calculate_kickoff_timestamp, try_except, bind, lift, ret.
  rewrite H. reflexivity.
Qed.

Lemma kickoff_failure row e id gd gt s :
  getitem row "nfl_game_id" = Ok id ->
  getitem row "game_date" = Ok gd ->
  getitem row "game_time_et" = Ok gt ->
  kickoff_utc row = Raise e ->
  calculate_kickoff_timestamp row s
  = (Ok None, mkstate (stdout s ++ kickoff_report id gd gt e) (db s)).
Proof.
  intros Hid Hgd Hgt H.
  unfold calculate_kickoff_timestamp, try_except, bind, lift, ret, print.
  rewrite H, (kickoff_utc_Exception _ _ H), Hid, Hgd, Hgt. simpl.
  unfold kickoff_report. rewrite <- !app_assoc. reflexivity.
Qed.

Lemma upload_rows_cons ir rows acc s :
  upload_rows (ir :: rows) acc s
  = match upload_row ir acc s with
    | (Ok acc', s') => upload_rows rows acc' s'
    | (Raise e, s') => (Raise e, s')
    end.
Proof. reflexivity. Qed.

(** The rows of a table carry the columns of the table. *)
Lemma iterrows_labels df index row :
  In (index, row) (iterrows df) -> labels row = columns df.
Proof.
  unfold iterrows. generalize 0.
  induction (data df) as [|vals rows IH]; intros i; simpl; [contradiction|].
  intros [H | H]; [inversion H; reflexivity | eauto].
Qed.

(** After [validate_excel_columns] every row has every required column. *)
Lemma validated_row_has_columns df index row k :
  missing_columns_of df = [] ->
  In (index, row) (iterrows df) ->
  In k required_columns ->
  exists c, getitem row k = Ok c.
Proof.
  intros Hcols Hrow Hk. unfold getitem.
  rewrite (iterrows_labels _ _ _ Hrow).
  destruct (index_of k (columns df)) as [j|] eqn:Hj; [eauto|].
  exfalso.
  assert (Hin : In k (missing_columns_of df)).
  { unfold missing_columns_of. apply filter_In. split; [exact Hk|].
    unfold has_column. rewrite Hj. reflexivity. }
  rewrite Hcols in Hin. contradiction.
Qed.

(** C5. For every row of a table with the required columns, when the date
    and time of the row cannot be parsed or combined, whatever the reason,
    [calculate_kickoff_timestamp] does not raise: it prints the external
    game id and the raw date and time with their types and returns [None];
    the loader then adds one to [error_count], records an entry for the
    row, sends nothing to the database and goes on with the next row. *)
Theorem kickoff_failure_skips_row :
  forall df index row acc rest s e,
    missing_columns_of df = [] ->
    In (index, row) (iterrows df) ->
    kickoff_utc row = Raise e ->
    exists id gd gt,
      getitem row "nfl_game_id" = Ok id
      /\ getitem row "game_date" = Ok gd
      /\ getitem row "game_time_et" = Ok gt
      /\ let s' := mkstate (stdout s ++ kickoff_report id gd gt e) (db s) in
         calculate_kickoff_timestamp row s = (Ok None, s')
         /\ upload_row (index, row) acc s
            = (Ok (count_no_timestamp index acc), s')
         /\ upload_rows ((index, row) :: rest) acc s
            = upload_rows rest (count_no_timestamp index acc) s'.
Proof.
  intros df index row acc rest s e Hcols Hrow H.
  destruct (validated_row_has_columns df index row "nfl_game_id" Hcols Hrow)
    as (id & Hid); [simpl; tauto|].
  destruct (validated_row_has_columns df index row "game_date" Hcols Hrow)
    as (gd & Hgd); [simpl; tauto|].
  destruct (validated_row_has_columns df index row "game_time_et" Hcols Hrow)
    as (gt & Hgt); [simpl; tauto|].
  exists id, gd, gt. repeat (split; [assumption|]). intros s'.
  pose proof (kickoff_failure _ _ _ _ _ s Hid Hgd Hgt H) as Hk. fold s' in Hk.
  assert (Hr : upload_row (index, row) acc s
               = (Ok (count_no_timestamp index acc), s')).
  { unfold upload_row, try_except, bind. rewrite Hk. reflexivity. }
  repeat split; auto.
  rewrite upload_rows_cons, Hr. reflexivity.
Qed.

(** ** The loop of upload_games_to_database *)

Lemma only_inserts_refl c : only_inserts c c [].
Proof.
  unfold only_inserts. simpl. rewrite !app_nil_r. repeat split; auto.
Qed.

Lemma only_inserts_trans c1 c2 c3 evs1 evs2 :
  only_inserts c1 c2 evs1 -> only_inserts c2 c3 evs2 ->
  only_inserts c1 c3 (evs1 ++ evs2).
Proof.
  unfold only_inserts, inserted.
  intros (F1 & C1 & P1 & G1 & S1 & T1) (F2 & C2 & P2 & G2 & S2 & T2).
  rewrite forallb_app, F1, F2, C2, C1, P2, P1, G2, G1, S2, S1, T2, T1.
  rewrite flat_map_app, !app_assoc. repeat split; auto.
Qed.

(** [calculate_kickoff_timestamp] only prints. *)
Lemma calculate_kickoff_timestamp_db row s r s' :
  calculate_kickoff_timestamp row s = (r, s') -> db s' = db s.
Proof.
  unfold calculate_kickoff_timestamp, try_except, bind, lift, ret, print.
  destruct (kickoff_utc row) as [ts|e] eqn:Hk; simpl.
  - intros H; inversion H; reflexivity.
  - rewrite (kickoff_utc_Exception _ _ Hk).
    destruct (getitem row "nfl_game_id"); simpl;
      [| intros H; inversion H; reflexivity].
    destruct (getitem row "game_date"); simpl;
      [| intros H; inversion H; reflexivity].
    destruct (getitem row "game_time_et"); simpl;
      intros H; inversion H; reflexivity.
Qed.

Lemma execute_insert_effect g s r s' :
  execute_insert g s = (r, s') ->
  stdout s' = stdout s
  /\ ((r = Ok tt /\ only_inserts (db s) (db s') [EvInsert g true])
      \/ ((exists e, r = Raise e /\ is_Exception e = true)
          /\ only_inserts (db s) (db s') [EvInsert g false])).
Proof.
  unfold execute_insert, on_db, insert_call, log_call, only_inserts.
  destruct (is_connected (db s)); [destruct (next_fault (db s))|];
    intros H; inversion H; subst; simpl; rewrite ?app_nil_r;
    split; auto; [right | left | right]; intuition eauto.
Qed.


Lemma calculate_kickoff_timestamp_Exception row s e s' :
  calculate_kickoff_timestamp row s = (Raise e, s') -> is_Exception e = true.
Proof.
  unfold calculate_kickoff_timestamp, try_except, bind, lift, ret, print.
  destruct (kickoff_utc row) as [ts|e0] eqn:Hk; simpl; [discriminate|].
  rewrite (kickoff_utc_Exception _ _ Hk).
  destruct (getitem row "nfl_game_id") eqn:H1; simpl;
    [| intros H; inversion H; subst; eauto with exc].
  destruct (getitem row "game_date") eqn:H2; simpl;
    [| intros H; inversion H; subst; eauto with exc].
  destruct (getitem row "game_time_et") eqn:H3; simpl;
    intros H; inversion H; subst; eauto with exc.
Qed.

(** The [except] clause of the loop: it counts the row as failed, unless
    the row has no column nfl_game_id to name it by. *)
Lemma upload_row_handler index row acc e s :
  (nfl_game_id <- lift (getitem row "nfl_game_id") ;;
   ret (mkcounters (success_count acc) (error_count acc + 1)
          (errors acc ++
           [[Lit "Row "; Num (index + 2); Lit " ("; Val nfl_game_id;
             Lit "): "] ++ exn_str e]))) s
  = match getitem row "nfl_game_id" with
    | Ok id =>
        (Ok (mkcounters (success_count acc) (error_count acc + 1)
               (errors acc ++
                [[Lit "Row "; Num (index + 2); Lit " ("; Val id;
                  Lit "): "] ++ exn_str e])), s)
    | Raise e' => (Raise e', s)
    end.
Proof.
  unfold bind, lift, ret. destruct (getitem row "nfl_game_id"); reflexivity.
Qed.

(** One turn of the loop sends at most one INSERT and, when it ends
    normally, counts its row once: as a success when the INSERT returned,
    as an error otherwise. *)
Lemma upload_row_effect ir acc s r s' :
  upload_row ir acc s = (r, s') ->
  exists evs,
    only_inserts (db s) (db s') evs
    /\ (List.length evs <= 1)%nat
    /\ match r with
       | Ok acc' =>
           ((exists g, evs = [EvInsert g true])
            /\ success_count acc' = success_count acc + 1
            /\ error_count acc' = error_count acc
            /\ errors acc' = errors acc)
           \/ (inserted evs = []
               /\ success_count acc' = success_count acc
               /\ error_count acc' = error_count acc + 1
               /\ exists entry, errors acc' = errors acc ++ [entry])
       | Raise e => inserted evs = [] /\ is_Exception e = true
       end.
Proof.
  destruct ir as [index row]. unfold upload_row, try_except.
  unfold bind at 1.
  destruct (calculate_kickoff_timestamp row s) as [[[ts|]|e] s1] eqn:Hk;
    pose proof (calculate_kickoff_timestamp_db _ _ _ _ Hk) as Hdb.
  - (* a timestamp: build the tuple and send it *)
    unfold bind at 1, lift at 1.
    destruct (row_data row ts) as [g|e] eqn:Hd.
    + unfold bind at 1.
      destruct (execute_insert g s1) as [[[]|e] s2] eqn:He;
        apply execute_insert_effect in He
          as (_ & [(Hr & Hi) | ((e' & Hr & Hx) & Hi)]);
        try discriminate; rewrite Hdb in Hi.
      * unfold ret. intros H; inversion H; subst. exists [EvInsert g true].
        split; auto. split; [simpl; lia|]. left. simpl. eauto.
      * inversion Hr; subst e'. rewrite Hx, upload_row_handler.
        destruct (getitem row "nfl_game_id") eqn:Hg;
          intros H; inversion H; subst; exists [EvInsert g false];
          (split; [auto | split; [simpl; lia|]]); simpl;
          [right; eauto 6 | eauto with exc].
    + rewrite (row_data_Exception _ _ _ Hd), upload_row_handler.
      destruct (getitem row "nfl_game_id") eqn:Hg;
        intros H; inversion H; subst; exists []; rewrite Hdb;
        (split; [apply only_inserts_refl | split; [simpl; lia|]]); simpl;
        [right; eauto 6 | eauto with exc].
  - (* no timestamp *)
    unfold ret. intros H; inversion H; subst. exists []. rewrite Hdb.
    split; [apply only_inserts_refl | split; [simpl; lia|]].
    right. simpl. eauto 6.
  - (* the report of the failure raised *)
    rewrite (calculate_kickoff_timestamp_Exception _ _ _ _ Hk),
      upload_row_handler.
    destruct (getitem row "nfl_game_id") eqn:Hg;
      intros H; inversion H; subst; exists []; rewrite Hdb;
      (split; [apply only_inserts_refl | split; [simpl; lia|]]); simpl;
      [right; eauto 6 | eauto with exc].
Qed.

Lemma inserted_length_le evs : (List.length (inserted evs) <= List.length evs)%nat.
Proof.
  induction evs as [|ev evs IH]; simpl; auto.
  destruct ev as [| | | g [] | | | |]; simpl; lia.
Qed.

(** The loop as a whole: only INSERTs reach the server, at most one for
    each row; when the loop ends normally every row has been counted once,
    [success_count] has grown by the number of INSERTs that returned, and
    [errors] has one entry more for each error counted. *)
Lemma upload_rows_effect rows :
  forall acc s r s',
    upload_rows rows acc s = (r, s') ->
    exists evs,
      only_inserts (db s) (db s') evs
      /\ (List.length evs <= List.length rows)%nat
      /\ match r with
         | Ok acc' =>
             success_count acc'
             = success_count acc + Z.of_nat (List.length (inserted evs))
             /\ success_count acc' + error_count acc'
                = success_count acc + error_count acc
                  + Z.of_nat (List.length rows)
             /\ Z.of_nat (List.length (errors acc')) - error_count acc'
                = Z.of_nat (List.length (errors acc)) - error_count acc
         | Raise e => is_Exception e = true
         end.
Proof.
  induction rows as [|ir rows IH]; intros acc s r s' H.
  - inversion H; subst. exists []. split; [apply only_inserts_refl|].
    simpl. split; [lia|]. repeat split; lia.
  - rewrite upload_rows_cons in H.
    destruct (upload_row ir acc s) as [[acc1|e] s1] eqn:Hrow;
      apply upload_row_effect in Hrow as (evs1 & Hi1 & Hlen1 & Hr1).
    + apply IH in H as (evs2 & Hi2 & Hlen2 & Hr2).
      exists (evs1 ++ evs2).
      split; [eapply only_inserts_trans; eauto|].
      split; [rewrite length_app; simpl; lia|].
      destruct r as [acc2|e]; auto.
      destruct Hr2 as (Hs2 & Hsum2 & Herr2).
      unfold inserted. rewrite flat_map_app, length_app. fold (inserted evs1).
      fold (inserted evs2).
      destruct Hr1 as [((g & ->) & Hs1 & He1 & Herr1)
                      | (Hn & Hs1 & He1 & (entry & Herr1))].
      * simpl. rewrite Herr1, Hs1, He1 in *. simpl List.length. lia.
      * rewrite Hn. rewrite Herr1, length_app in Herr2. simpl in *.
        rewrite Hs1, He1 in *. lia.
    + inversion H; subst. exists evs1. destruct Hr1 as (Hn & Hx).
      split; auto. split; [simpl; lia | auto].
Qed.


(** ** Printing *)

Lemma printed_nil s : printed s [] = s.
Proof. destruct s. unfold printed. simpl. rewrite app_nil_r. reflexivity. Qed.

Lemma printed_printed s l1 l2 : printed (printed s l1) l2 = printed s (l1 ++ l2).
Proof. unfold printed. simpl. rewrite app_assoc. reflexivity. Qed.

Lemma print_printed t s : print t s = (Ok tt, printed s [t]).
Proof. reflexivity. Qed.

Lemma print_each_printed prefix l :
  forall s, print_each prefix l s = (Ok tt, printed s (map (app prefix) l)).
Proof.
  induction l as [|x l IH]; intros s; simpl.
  - rewrite printed_nil. reflexivity.
  - unfold bind. rewrite print_printed, IH, printed_printed. reflexivity.
Qed.

Lemma print_first_ten_printed indent bullet errors s :
  print_first_ten indent bullet errors s
  = (Ok tt, printed s (shown_lines indent bullet errors)).
Proof.
  unfold print_first_ten, shown_lines, bind. rewrite print_each_printed.
  destruct (10 <? Z.of_nat (List.length errors)).
  - rewrite print_printed, printed_printed. reflexivity.
  - unfold ret. rewrite app_nil_r. reflexivity.
Qed.

Lemma print_results_printed acc s :
  print_results acc s = (Ok tt, printed s (results_lines acc)).
Proof.
  unfold print_results, results_lines, bind. rewrite !print_printed.
  destruct (0 <? error_count acc).
  - rewrite !print_printed, print_first_ten_printed, !printed_printed.
    reflexivity.
  - unfold ret. rewrite printed_printed. reflexivity.
Qed.

(** ** The three ways a turn of the loop ends *)

Lemma upload_row_success index row acc s ts g :
  kickoff_utc row = Ok ts ->
  row_data row ts = Ok g ->
  is_connected (db s) = true ->
  next_fault (db s) = None ->
  upload_row (index, row) acc s
  = (Ok (count_success acc), after_call (insert_call g) s).
Proof.
  intros Hk Hd Hc Hf. unfold upload_row, try_except, bind.
  rewrite (kickoff_success _ _ _ Hk). unfold lift. rewrite Hd.
  unfold execute_insert, on_db, after_call, insert_call. rewrite Hc, Hf.
  reflexivity.
Qed.

Lemma upload_row_insert_fails index row acc s ts g f id :
  kickoff_utc row = Ok ts ->
  row_data row ts = Ok g ->
  getitem row "nfl_game_id" = Ok id ->
  is_connected (db s) = true ->
  next_fault (db s) = Some f ->
  upload_row (index, row) acc s
  = (Ok (count_row_error index id (raise_db f) acc),
     after_call (insert_call g) s).
Proof.
  intros Hk Hd Hid Hc Hf. unfold upload_row, try_except, bind.
  rewrite (kickoff_success _ _ _ Hk). unfold lift. rewrite Hd.
  unfold execute_insert, on_db, after_call, insert_call. rewrite Hc, Hf.
  simpl. rewrite Hid. reflexivity.
Qed.

Lemma upload_row_no_timestamp index row acc s e id gd gt :
  getitem row "nfl_game_id" = Ok id ->
  getitem row "game_date" = Ok gd ->
  getitem row "game_time_et" = Ok gt ->
  kickoff_utc row = Raise e ->
  upload_row (index, row) acc s
  = (Ok (count_no_timestamp index acc),
     printed s (kickoff_report id gd gt e)).
Proof.
  intros Hid Hgd Hgt Hk. unfold upload_row, try_except, bind.
  rewrite (kickoff_failure _ _ _ _ _ _ Hid Hgd Hgt Hk). reflexivity.
Qed.


(** ** upload_games_to_database *)

Lemma enumerate_from_length {A} (l : list A) :
  forall i, List.length (enumerate_from i l) = List.length l.
Proof. induction l; intros i; simpl; auto. Qed.

Lemma iterrows_length df : List.length (iterrows df) = List.length (data df).
Proof. unfold iterrows. rewrite enumerate_from_length, length_map. auto. Qed.

Lemma commit_effect s r s' :
  commit s = (r, s') ->
  stdout s' = stdout s
  /\ status (db s') = status (db s)
  /\ ((r = Ok tt
       /\ games (db s') = games (db s) ++ pending (db s)
       /\ pending (db s') = []
       /\ calls (db s') = calls (db s) ++ [EvCommit true])
      \/ ((exists e, r = Raise e /\ is_Exception e = true)
          /\ games (db s') = games (db s)
          /\ pending (db s') = pending (db s)
          /\ calls (db s') = calls (db s) ++ [EvCommit false])).
Proof.
  unfold commit, on_db, commit_call, log_call.
  destruct (is_connected (db s)); [destruct (next_fault (db s))|];
    intros H; inversion H; subst; simpl;
    (split; [reflexivity | split; [reflexivity|]]);
    [right | left | right]; intuition eauto.
Qed.

(** The function, spelled out along its ways through [try], [except] and
    [finally]. *)
Lemma upload_games_to_database_eq df s :
  upload_games_to_database df s
  = match upload_try df (after_call cursor_call s) with
    | (Ok counts, s1) => (Ok counts, after_call cursor_close_call s1)
    | (Raise e, s1) =>
        if is_Exception e then
          match rollback_call (db s1) with
          | (Ok _, c2) =>
              (Raise e,
               after_call cursor_close_call
                 (mkstate (stdout s1 ++ [transaction_failed e]) c2))
          | (Raise e2, c2) =>
              (Raise e2, after_call cursor_close_call (mkstate (stdout s1) c2))
          end
        else (Raise e, after_call cursor_close_call s1)
    end.
Proof.
  unfold upload_games_to_database, bind at 1.
  change (cursor_open s) with (Ok tt, after_call cursor_call s).
  cbv beta iota. unfold try_finally, try_except.
  destruct (upload_try df (after_call cursor_call s)) as [[counts|e] s1];
    [reflexivity|].
  destruct (is_Exception e); [|reflexivity].
  unfold upload_except, bind, rollback, on_db at 1.
  destruct (rollback_call (db s1)) as [[[]|e2] c2]; reflexivity.
Qed.

(** The [try] block: the loop sends INSERTs only, and the commit follows
    it when the loop has ended normally. *)
Lemma upload_try_effect df s r s' :
  upload_try df s = (r, s') ->
  exists evs,
    forallb is_insert evs = true
    /\ (List.length evs <= List.length (data df))%nat
    /\ status (db s') = status (db s)
    /\ match r with
       | Ok (sc, ec) =>
           sc = Z.of_nat (List.length (inserted evs))
           /\ sc + ec = len df
           /\ calls (db s') = calls (db s) ++ evs ++ [EvCommit true]
           /\ games (db s') = games (db s) ++ pending (db s) ++ inserted evs
           /\ pending (db s') = []
       | Raise e =>
           is_Exception e = true
           /\ games (db s') = games (db s)
           /\ pending (db s') = pending (db s) ++ inserted evs
           /\ (calls (db s') = calls (db s) ++ evs
               \/ calls (db s') = calls (db s) ++ evs ++ [EvCommit false])
       end.
Proof.
  unfold upload_try, bind at 1.
  destruct (upload_rows (iterrows df) (mkcounters 0 0 []) s)
    as [[acc|e] s1] eqn:Hloop;
    apply upload_rows_effect in Hloop
      as (evs & (Hf & Hc & Hp & Hg & Hs & Ht) & Hlen & Hr);
    rewrite iterrows_length in *; intros H; exists evs;
    (split; [exact Hf | split; [exact Hlen|]]).
  - unfold bind at 1 in H.
    destruct (commit s1) as [[[]|e] s2] eqn:Hcommit;
      apply commit_effect in Hcommit
        as (_ & Hs2 & [(Hr2 & Hg2 & Hp2 & Hc2)
                      | ((e' & Hr2 & Hx) & Hg2 & Hp2 & Hc2)]);
      try discriminate.
    + unfold bind in H. rewrite print_results_printed in H. unfold ret in H.
      inversion H; subst. simpl.
      destruct Hr as (Hsc & Hsum & _). simpl in *.
      split; [congruence|].
      repeat split; try lia.
      * unfold len. lia.
      * rewrite Hc2, Hc, app_assoc. reflexivity.
      * rewrite Hg2, Hg, Hp. reflexivity.
      * exact Hp2.
    + inversion H; subst. inversion Hr2; subst e'.
      split; [congruence|].
      repeat split; auto; try congruence.
      right. rewrite Hc2, Hc, app_assoc. reflexivity.
  - inversion H; subst.
    split; [congruence|]. repeat split; auto.
Qed.


Lemma commit_call_ok c :
  is_connected c = true ->
  next_fault c = None ->
  commit_call c
  = (Ok tt, mkconn (status c) (teams c) (games c ++ pending c) []
                   (tl (faults c)) (calls c ++ [EvCommit true])).
Proof. intros Hc Hf. unfold commit_call. rewrite Hc, Hf. reflexivity. Qed.

(** After the loop: the commit that returns, the report and the counts. *)
Lemma upload_commits acc s :
  is_connected (db s) = true ->
  next_fault (db s) = None ->
  (commit ;;;
   print_results acc ;;;
   ret (success_count acc, error_count acc)) s
  = (Ok (success_count acc, error_count acc),
     printed (after_call commit_call s) (results_lines acc)).
Proof.
  intros Hc Hf. unfold bind, ret, commit, on_db, after_call, commit_call.
  rewrite Hc, Hf, print_results_printed. reflexivity.
Qed.

(** C8. Whenever [upload_games_to_database] returns, the two counters add
    up to the number of rows of the table and neither is negative: every
    row was counted once, as a success or as an error.  [success_count] is
    the number of INSERTs that returned, and these rows became durable at
    the one commit that follows the loop.  For a table without rows both
    counters are 0 and the commit is still sent. *)
Theorem upload_counts_every_row_once :
  forall df s sc ec s',
    upload_games_to_database df s = (Ok (sc, ec), s') ->
    (sc + ec = len df /\ 0 <= sc /\ 0 <= ec)
    /\ (exists evs,
           forallb is_insert evs = true
           /\ sc = Z.of_nat (List.length (inserted evs))
           /\ calls (db s')
              = calls (db s) ++ [EvCursor] ++ evs
                ++ [EvCommit true; EvCursorClose]
           /\ games (db s') = games (db s) ++ pending (db s) ++ inserted evs
           /\ pending (db s') = [])
    /\ (data df = [] ->
        sc = 0 /\ ec = 0
        /\ calls (db s')
           = calls (db s) ++ [EvCursor; EvCommit true; EvCursorClose]).
Proof.
  intros df s sc ec s' H. rewrite upload_games_to_database_eq in H.
  destruct (upload_try df (after_call cursor_call s)) as [[[sc1 ec1]|e] s1]
    eqn:Htry.
  - inversion H; subst.
    apply upload_try_effect in Htry
      as (evs & Hf & Hlen & _ & Hsc & Hsum & Hc & Hg & Hp).
    pose proof (inserted_length_le evs) as Hle.
    assert (Hcalls : calls (db (after_call cursor_close_call s1))
                     = calls (db s) ++ [EvCursor] ++ evs
                       ++ [EvCommit true; EvCursorClose]).
    { simpl. unfold log_call. rewrite Hc. simpl. unfold log_call.
      rewrite <- !app_assoc. reflexivity. }
    split; [unfold len in *; lia|].
    split.
    + exists evs. repeat split; auto.
    + intros Hempty. rewrite Hempty in Hlen. simpl in Hlen.
      assert (evs = []) as -> by (destruct evs; [auto | simpl in Hlen; lia]).
      unfold len in Hsum. rewrite Hempty in Hsum. simpl in *.
      repeat split; auto; lia.
  - destruct (is_Exception e); [|discriminate].
    destruct (rollback_call (db s1)) as [[[]|e2] c2]; discriminate.
Qed.

(** A table without rows on a connection in good order: nothing is
    inserted, the commit is sent, and (0, 0) is returned after a report
    without error lines. *)
Lemma upload_empty_table df s :
  data df = [] ->
  is_connected (db s) = true ->
  next_fault (db s) = None ->
  exists s',
    upload_games_to_database df s = (Ok (0, 0), s')
    /\ stdout s' = stdout s ++ results_lines (mkcounters 0 0 [])
    /\ games (db s') = games (db s) ++ pending (db s)
    /\ calls (db s')
       = calls (db s) ++ [EvCursor; EvCommit true; EvCursorClose].
Proof.
  intros Hempty Hc Hf. rewrite upload_games_to_database_eq.
  unfold upload_try, iterrows. rewrite Hempty. simpl map. simpl enumerate_from.
  unfold upload_rows, bind at 1, ret at 1. cbv beta iota.
  rewrite upload_commits by assumption.
  eexists. split; [reflexivity|].
  unfold after_call, printed. simpl db.
  rewrite commit_call_ok; [| exact Hc | exact Hf]. simpl.
  unfold log_call. simpl. rewrite <- !app_assoc. auto.
Qed.


(** C1. A table of five rows where the timestamp of row 3 cannot be
    derived and the INSERT of row 5 raises: each failing row is recorded
    and the loop goes on past it, the transaction is committed once, after
    the loop, (3, 2) is returned, and the three rows inserted are durable
    after the call. *)
Theorem partial_failure_commits_successes :
  forall cols r1 r2 r3 r4 r5 ts1 ts2 ts4 ts5 g1 g2 g4 g5
         e3 id3 gd3 gt3 id5 f fl s,
    let row := mkSeries cols in
    kickoff_utc (row r1) = Ok ts1 -> row_data (row r1) ts1 = Ok g1 ->
    kickoff_utc (row r2) = Ok ts2 -> row_data (row r2) ts2 = Ok g2 ->
    kickoff_utc (row r3) = Raise e3 ->
    getitem (row r3) "nfl_game_id" = Ok id3 ->
    getitem (row r3) "game_date" = Ok gd3 ->
    getitem (row r3) "game_time_et" = Ok gt3 ->
    kickoff_utc (row r4) = Ok ts4 -> row_data (row r4) ts4 = Ok g4 ->
    kickoff_utc (row r5) = Ok ts5 -> row_data (row r5) ts5 = Ok g5 ->
    getitem (row r5) "nfl_game_id" = Ok id5 ->
    status (db s) = Connected ->
    faults (db s) = [None; None; None; Some f] ++ fl ->
    hd None fl = None ->
    let recorded :=
      [[Lit "Row "; Num 4; Lit ": Could not calculate kickoff timestamp"];
       [Lit "Row "; Num 6; Lit " ("; Val id5; Lit "): "; Lit (err_text f)]] in
    upload_games_to_database (mkDataFrame cols [r1; r2; r3; r4; r5]) s
    = (Ok (3, 2),
       mkstate
         (stdout s ++ kickoff_report id3 gd3 gt3 e3
          ++ results_lines (mkcounters 3 2 recorded))
         (mkconn Connected (teams (db s))
            (games (db s) ++ pending (db s) ++ [g1; g2; g4]) []
            (tl fl)
            (calls (db s)
             ++ [EvCursor; EvInsert g1 true; EvInsert g2 true;
                 EvInsert g4 true; EvInsert g5 false;
                 EvCommit true; EvCursorClose]))).
Proof.
  intros cols r1 r2 r3 r4 r5 ts1 ts2 ts4 ts5 g1 g2 g4 g5 e3 id3 gd3 gt3 id5
         f fl [out [st tm gm pd fs cl]] row
         K1 D1 K2 D2 K3 I3 GD3 GT3 K4 D4 K5 D5 I5 Hst Hfs Hfl recorded.
  simpl in Hst, Hfs. subst st fs.
  rewrite upload_games_to_database_eq.
  unfold upload_try, iterrows. simpl map. simpl enumerate_from.
  fold row. unfold bind at 1.
  rewrite upload_rows_cons.
  rewrite (upload_row_success _ (row r1) _ _ _ _ K1 D1) by reflexivity.
  rewrite upload_rows_cons.
  rewrite (upload_row_success _ (row r2) _ _ _ _ K2 D2) by reflexivity.
  rewrite upload_rows_cons.
  rewrite (upload_row_no_timestamp _ (row r3) _ _ _ _ _ _ I3 GD3 GT3 K3).
  rewrite upload_rows_cons.
  rewrite (upload_row_success _ (row r4) _ _ _ _ K4 D4) by reflexivity.
  rewrite upload_rows_cons.
  rewrite (upload_row_insert_fails _ (row r5) _ _ _ _ _ _ K5 D5 I5)
    by reflexivity.
  unfold upload_rows, ret. cbv beta iota.
  rewrite upload_commits; [| reflexivity | exact Hfl].
  unfold after_call, printed, count_success, count_row_error,
    count_no_timestamp, commit_call, next_fault, is_connected.
  simpl. rewrite Hfl. repeat (unfold log_call; simpl).
  rewrite <- !app_assoc. reflexivity.
Qed.


Lemma rollback_call_effect c r c' :
  rollback_call c = (r, c') ->
  games c' = games c
  /\ status c' = status c
  /\ ((r = Ok tt /\ is_connected c = true /\ next_fault c = None
       /\ pending c' = [] /\ calls c' = calls c ++ [EvRollback true])
      \/ ((exists e, r = Raise e /\ is_Exception e = true)
          /\ pending c' = pending c
          /\ calls c' = calls c ++ [EvRollback false])).
Proof.
  unfold rollback_call, log_call.
  destruct (is_connected c) eqn:Hc; [destruct (next_fault c) eqn:Hf|];
    intros H; inversion H; subst; simpl;
    (split; [reflexivity | split; [reflexivity|]]);
    [right | left | right]; intuition eauto.
Qed.

(** C2, as the code has it. When an exception leaves the [try] block of
    [upload_games_to_database] (it comes from the loop or from the commit),
    no row of this call is durable afterwards, the rows inserted before
    included, and the call raises.  The handler sends a rollback: when
    that returns, the transaction holds no row any more and the exception
    that left the block is the one raised to the caller; when the rollback
    raises itself, its exception is raised instead and the transaction is
    left as it was. *)
Theorem failed_upload_persists_nothing :
  forall df s e s1,
    upload_try df (after_call cursor_call s) = (Raise e, s1) ->
    exists r s',
      upload_games_to_database df s = (r, s')
      /\ games (db s') = games (db s)
      /\ (exists e', r = Raise e')
      /\ (is_connected (db s1) = true -> next_fault (db s1) = None ->
          r = Raise e
          /\ pending (db s') = []
          /\ calls (db s') = calls (db s1) ++ [EvRollback true; EvCursorClose]
          /\ stdout s' = stdout s1 ++ [transaction_failed e])
      /\ (forall e2, fst (rollback_call (db s1)) = Raise e2 ->
          r = Raise e2
          /\ pending (db s') = pending (db s1)
          /\ calls (db s') = calls (db s1) ++ [EvRollback false; EvCursorClose]
          /\ stdout s' = stdout s1).
Proof.
  intros df s e s1 Htry. rewrite upload_games_to_database_eq, Htry.
  apply upload_try_effect in Htry as (evs & _ & _ & _ & Hx & Hg & _).
  rewrite Hx. simpl in Hg. unfold rollback_call, log_call.
  destruct (is_connected (db s1)) eqn:Hc;
    [destruct (next_fault (db s1)) eqn:Hf|];
    eexists _, _; (split; [reflexivity|]); simpl;
    (split; [exact Hg|]); (split; [eauto|]); unfold log_call; simpl;
    rewrite <- ?app_assoc; simpl; split;
    try (intros; discriminate);
    try (intros e2 He2; inversion He2; subst; auto);
    auto.
Qed.

(** ** validate_teams_exist *)

Lemma check_side_problems lk index side id abbr errors :
  check_side lk index side id abbr errors
  = errors ++ map problem_entry (side_problems lk index side id abbr).
Proof.
  unfold check_side, side_problems.
  destruct (Dict.get Z.eqb lk id) as [expected|];
    [destruct (str_eq_cell expected abbr)|];
    simpl; rewrite ?app_nil_r; reflexivity.
Qed.

Lemma check_row_problems lk index row t errors :
  teams_of_row row = Ok t ->
  check_row lk (index, row) errors
  = Ok (errors ++ map problem_entry (row_problems lk (index, t))).
Proof.
  unfold teams_of_row, check_row, row_problems. intros H.
  destruct (obind (getitem row "home_team_id") py_int) as [h|]; [|discriminate].
  simpl in *.
  destruct (getitem row "home_team") as [ha|]; [|discriminate]. simpl in *.
  destruct (obind (getitem row "away_team_id") py_int) as [a|]; [|discriminate].
  simpl in *.
  destruct (getitem row "away_team") as [aa|]; [|discriminate]. simpl in *.
  inversion H; subst; simpl.
  rewrite !check_side_problems, map_app, app_assoc. reflexivity.
Qed.

Lemma check_row_raises lk index row e errors :
  teams_of_row row = Raise e ->
  check_row lk (index, row) errors = Raise e.
Proof.
  unfold teams_of_row, check_row. intros H.
  destruct (obind (getitem row "home_team_id") py_int) as [h|];
    simpl in *; [|congruence].
  destruct (getitem row "home_team") as [ha|]; simpl in *; [|congruence].
  destruct (obind (getitem row "away_team_id") py_int) as [a|];
    simpl in *; [|congruence].
  destruct (getitem row "away_team") as [aa|]; simpl in *;
    [discriminate | congruence].
Qed.

Lemma check_rows_cons lk ir rows errors :
  check_rows lk (ir :: rows) errors
  = obind (check_row lk ir errors) (check_rows lk rows).
Proof. reflexivity. Qed.

(** The loop accumulates exactly the entries of the problems. *)
Lemma check_rows_problems lk rows :
  forall ts errors,
    teams_of_rows rows = Ok ts ->
    check_rows lk rows errors
    = Ok (errors ++ map problem_entry (all_problems lk ts)).
Proof.
  induction rows as [|[index row] rows IH]; intros ts errors H; simpl in H.
  - inversion H. simpl. rewrite app_nil_r. reflexivity.
  - destruct (teams_of_row row) as [t|] eqn:Ht; [|discriminate]. simpl in H.
    destruct (teams_of_rows rows) as [ts'|] eqn:Hts; [|discriminate].
    inversion H; subst.
    rewrite check_rows_cons, (check_row_problems _ _ _ _ _ Ht). simpl obind.
    rewrite (IH ts' _ eq_refl). unfold all_problems. simpl flat_map.
    rewrite map_app, app_assoc. reflexivity.
Qed.

(** The loop stops at the first row whose references cannot be read. *)
Lemma check_rows_raises lk pre :
  forall ts index row post e errors,
    teams_of_rows pre = Ok ts ->
    teams_of_row row = Raise e ->
    check_rows lk (pre ++ (index, row) :: post) errors = Raise e.
Proof.
  induction pre as [|[i r] pre IH]; intros ts index row post e errors H He;
    simpl in H; simpl app.
  - rewrite check_rows_cons, (check_row_raises _ _ _ _ _ He). reflexivity.
  - destruct (teams_of_row r) as [t|] eqn:Ht; [|discriminate]. simpl in H.
    destruct (teams_of_rows pre) as [ts'|] eqn:Hts; [|discriminate].
    rewrite check_rows_cons, (check_row_problems _ _ _ _ _ Ht). simpl obind.
    eapply IH; eauto.
Qed.

Lemma problem_entry_injective p q :
  problem_entry p = problem_entry q -> p = q.
Proof.
  destruct p, q; unfold problem_entry, not_found_error, mismatch_error;
    intros H; inversion H; subst; try discriminate;
    f_equal; lia.
Qed.


Lemma validate_teams_exist_eq df team_lookup s :
  validate_teams_exist df team_lookup s
  = match check_rows (team_id_lookup_of team_lookup) (iterrows df) [] with
    | Ok [] =>
        (Ok true, printed s [[Lit "✓ All team IDs and abbreviations are valid"]])
    | Ok errors =>
        (Raise (team_validation_error (List.length errors)),
         printed s ([Lit "❌ Team validation errors:"]
                    :: shown_lines "   " "   " errors))
    | Raise e => (Raise e, s)
    end.
Proof.
  unfold validate_teams_exist, bind at 1, lift.
  destruct (check_rows _ _ _) as [[|e errors]|e]; try reflexivity.
  unfold bind. rewrite print_printed, print_first_ten_printed, printed_printed.
  reflexivity.
Qed.

(** A table all of whose rows read well reads well. *)
Lemma teams_of_rows_readable rows :
  (forall index row, In (index, row) rows ->
                     exists t, teams_of_row row = Ok t) ->
  exists ts, teams_of_rows rows = Ok ts.
Proof.
  induction rows as [|[index row] rows IH]; intros H; simpl; [eauto|].
  destruct (H index row (or_introl eq_refl)) as (t & ->).
  destruct IH as (ts & ->); [intros; eapply H; right; eauto|].
  simpl. eauto.
Qed.

(** A row with its four columns reads well when [int] accepts both ids. *)
Lemma teams_of_row_readable row ch h ha ca a aa :
  getitem row "home_team_id" = Ok ch -> py_int ch = Ok h ->
  getitem row "home_team" = Ok ha ->
  getitem row "away_team_id" = Ok ca -> py_int ca = Ok a ->
  getitem row "away_team" = Ok aa ->
  teams_of_row row = Ok (mkrow_teams h ha a aa).
Proof.
  intros Hch Hh Hha Hca Ha Haa. unfold teams_of_row.
  rewrite Hch. simpl. rewrite Hh. simpl. rewrite Hha. simpl.
  rewrite Hca. simpl. rewrite Ha. simpl. rewrite Haa. reflexivity.
Qed.

(** C3. Referential validation is exhaustive. On a table whose team ids
    all convert to integers, both sides of every row are checked: an id
    missing from the id-to-code mapping and an id whose canonical code is
    not the supplied one each add their own entry (that of a mismatch
    names the supplied code and the expected one), and different problems
    have different entries.  When there is any entry the function raises,
    the error carries the number of all entries, and the lines shown are
    the first ten entries at most, followed by the count of the others. *)
Theorem referential_validation_exhaustive :
  forall df team_lookup s ts,
    teams_of_rows (iterrows df) = Ok ts ->
    let lk := team_id_lookup_of team_lookup in
    let problems := all_problems lk ts in
    let errors := map problem_entry problems in
    (forall index t,
        In (index, t) ts ->
        (Dict.get Z.eqb lk (home_id t) = None ->
         In (NotFound index "Home" (home_id t)) problems)
        /\ (forall code,
               Dict.get Z.eqb lk (home_id t) = Some code ->
               str_eq_cell code (home_abbr t) = false ->
               In (Mismatch index "Home" (home_id t) (home_abbr t) code)
                  problems)
        /\ (Dict.get Z.eqb lk (away_id t) = None ->
            In (NotFound index "Away" (away_id t)) problems)
        /\ (forall code,
               Dict.get Z.eqb lk (away_id t) = Some code ->
               str_eq_cell code (away_abbr t) = false ->
               In (Mismatch index "Away" (away_id t) (away_abbr t) code)
                  problems))
    /\ (forall p q, problem_entry p = problem_entry q -> p = q)
    /\ (problems = [] ->
        validate_teams_exist df team_lookup s
        = (Ok true,
           printed s [[Lit "✓ All team IDs and abbreviations are valid"]]))
    /\ (problems <> [] ->
        validate_teams_exist df team_lookup s
        = (Raise (ValueError [Lit "Found ";
                              Num (Z.of_nat (List.length problems));
                              Lit " team validation errors"]),
           printed s ([Lit "❌ Team validation errors:"]
                      :: map (app [Lit "   "]) (firstn 10 errors)
                      ++ (if 10 <? Z.of_nat (List.length problems)
                          then [[Lit "   "; Lit "... and ";
                                 Num (Z.of_nat (List.length problems) - 10);
                                 Lit " more errors"]]
                          else [])))).
Proof.
  intros df team_lookup s ts Hts lk problems errors.
  assert (Hin : forall index t, In (index, t) ts ->
                forall p, In p (row_problems lk (index, t)) -> In p problems).
  { intros index t Hit p Hp. unfold problems, all_problems.
    apply in_flat_map. eauto. }
  split.
  { intros index t Hit. specialize (Hin index t Hit).
    unfold row_problems, side_problems in Hin. simpl in Hin.
    repeat split.
    - intros Hg. apply Hin. rewrite Hg. simpl. auto.
    - intros code Hg Hne. apply Hin. rewrite Hg, Hne. simpl. auto.
    - intros Hg. apply Hin. rewrite Hg. apply in_or_app. right. simpl. auto.
    - intros code Hg Hne. apply Hin. rewrite Hg, Hne.
      apply in_or_app. right. simpl. auto. }
  split; [exact problem_entry_injective|].
  pose proof (check_rows_problems lk _ _ [] Hts) as Hcheck. simpl in Hcheck.
  fold problems in Hcheck. fold errors in Hcheck.
  split; intros Hp; rewrite validate_teams_exist_eq; fold lk; rewrite Hcheck.
  - unfold errors. rewrite Hp. reflexivity.
  - unfold errors. destruct problems as [|p problems']; [congruence|].
    simpl map. unfold team_validation_error, shown_lines.
    rewrite !length_cons, !length_map. reflexivity.
Qed.


(** ** The phases of main *)

Lemma validate_excel_columns_eq df s :
  validate_excel_columns df s
  = match missing_columns_of df with
    | [] => (Ok true, printed s [[Lit "✓ Excel file has all required columns"]])
    | missing =>
        (Raise (ValueError [Lit "Missing required columns: "; Strs missing]), s)
    end.
Proof.
  unfold validate_excel_columns. destruct (missing_columns_of df); reflexivity.
Qed.

Lemma validate_game_types_eq df s :
  validate_game_types df s
  = match column df "game_type" with
    | Raise e => (Raise e, s)
    | Ok game_type =>
        match invalid_types_of game_type with
        | [] => (Ok true, printed s [[Lit "✓ All game types are valid"]])
        | invalid =>
            (Raise (ValueError
                      [Lit "Invalid game_type values: "; Vals invalid;
                       Lit ". Must be one of: "; Strs valid_types]), s)
        end
    end.
Proof.
  unfold validate_game_types, bind, lift.
  destruct (column df "game_type") as [game_type|e]; [|reflexivity].
  destruct (invalid_types_of game_type); reflexivity.
Qed.

Lemma connect_to_database_eq s :
  connect_to_database s
  = match next_fault (db s) with
    | None =>
        (Ok tt, printed (after_call connect_call s)
                        [[Lit "✓ Connected to database: "; Lit "pools"]])
    | Some f =>
        (Raise (raise_db f),
         printed (after_call connect_call s)
                 [[Lit "❌ Database connection failed: "; Lit (err_text f)]])
    end.
Proof.
  unfold connect_to_database, try_except, bind, pymysql_connect, on_db,
    after_call, connect_call.
  destruct (next_fault (db s)); reflexivity.
Qed.

Lemma get_team_lookup_eq s :
  get_team_lookup s
  = match select_call (snd (cursor_call (db s))) with
    | (Ok rows, c) =>
        (Ok (team_lookup_of rows),
         printed (after_call cursor_close_call (mkstate (stdout s) c))
                 [[Lit "✓ Loaded ";
                   Num (Z.of_nat (List.length (team_lookup_of rows)));
                   Lit " teams for lookup"]])
    | (Raise e, c) => (Raise e, mkstate (stdout s) c)
    end.
Proof.
  unfold get_team_lookup, bind, cursor_open, select_active_teams, on_db,
    select_call, cursor_call, is_connected, next_fault.
  simpl.
  destruct (status (db s)); try reflexivity.
  destruct (faults (db s)) as [|[f|] fl]; reflexivity.
Qed.

(** Nothing but [Exception]s leaves the phases. *)
Lemma check_row_Exception lk ir errors e :
  check_row lk ir errors = Raise e -> is_Exception e = true.
Proof.
  destruct ir as [index row]. unfold check_row. intros H.
  apply obind_Raise in H as [H | (h & _ & H)].
  { apply obind_Raise in H as [H | (c & _ & H)]; eauto with exc. }
  apply obind_Raise in H as [H | (ha & _ & H)]; eauto with exc.
  apply obind_Raise in H as [H | (a & _ & H)].
  { apply obind_Raise in H as [H | (c & _ & H)]; eauto with exc. }
  apply obind_Raise in H as [H | (aa & _ & H)]; eauto with exc.
  discriminate.
Qed.

Lemma check_rows_Exception lk rows :
  forall errors e, check_rows lk rows errors = Raise e -> is_Exception e = true.
Proof.
  induction rows as [|ir rows IH]; intros errors e H; [discriminate|].
  rewrite check_rows_cons in H.
  apply obind_Raise in H as [H | (errors' & _ & H)]; eauto.
  eapply check_row_Exception; eauto.
Qed.

Lemma validate_teams_exist_effect df team_lookup s r s' :
  validate_teams_exist df team_lookup s = (r, s') ->
  db s' = db s
  /\ match r with
     | Ok b => b = true
     | Raise e => is_Exception e = true
     end.
Proof.
  rewrite validate_teams_exist_eq.
  destruct (check_rows _ _ _) as [[|x errors]|e] eqn:Hc;
    intros H; inversion H; subst; simpl; split; auto.
  eapply check_rows_Exception; eauto.
Qed.

(** The load leaves the connection open or closed as it found it, sends no
    goodbye, and raises [Exception]s only. *)
Lemma upload_games_to_database_effect df s r s' :
  upload_games_to_database df s = (r, s') ->
  status (db s') = status (db s)
  /\ match r with
     | Ok _ => True
     | Raise e => is_Exception e = true
     end.
Proof.
  rewrite upload_games_to_database_eq.
  destruct (upload_try df (after_call cursor_call s)) as [[counts|e] s1]
    eqn:Htry;
    apply upload_try_effect in Htry as (evs & _ & _ & Hs & Hr).
  - intros H; inversion H; subst. simpl. auto.
  - destruct Hr as (Hx & _). rewrite Hx.
    destruct (rollback_call (db s1)) as [r2 c2] eqn:Hrb.
    apply rollback_call_effect in Hrb as (_ & Hs2 & Hcases).
    destruct Hcases as [(-> & _) | ((e2 & -> & Hx2) & _)];
      intros H; inversion H; subst; simpl in *; (split; auto);
      rewrite Hs2; exact Hs.
Qed.


Lemma db_printed s lines : db (printed s lines) = db s.
Proof. reflexivity. Qed.

Lemma next_fault_at s : next_fault (db s) = fault_at s 0.
Proof.
  unfold next_fault, fault_at. destruct (faults (db s)); reflexivity.
Qed.

Lemma select_call_ok c :
  is_connected c = true ->
  next_fault c = None ->
  select_call c
  = (Ok (map (fun t => (team_id t, abbreviation t)) (filter active (teams c))),
     mkconn (status c) (teams c) (games c) (pending c) (tl (faults c))
            (calls c ++ [EvSelectTeams true])).
Proof. intros Hc Hf. unfold select_call. rewrite Hc, Hf. reflexivity. Qed.

Lemma connect_call_ok c :
  next_fault c = None ->
  connect_call c
  = (Ok tt, mkconn Connected (teams c) (games c) [] (tl (faults c))
                   (calls c ++ [EvConnect true])).
Proof. intros Hf. unfold connect_call. rewrite Hf. reflexivity. Qed.

(** The end of [main]: the goodbye and the summary. *)
Lemma main_finish df sc ec s :
  is_connected (db s) = true ->
  (close ;;;
   print [Lit "✓ Database connection closed"] ;;;
   print [Lit newline; Lit "🎯 Final Summary:"] ;;;
   print [Lit "   Total games processed: "; Num (len df)] ;;;
   print [Lit "   Successfully uploaded: "; Num sc] ;;;
   print [Lit "   Errors: "; Num ec] ;;;
   if ec =? 0 then
     print [Lit "🎉 All games uploaded successfully!"]
   else
     print [Lit "⚠️  Upload completed with some errors. Please review the error details above."]) s
  = (Ok tt, printed (after_call close_call s) (summary_lines df sc ec)).
Proof.
  intros Hc. unfold bind, close, on_db, after_call, close_call.
  rewrite Hc. unfold print, printed, summary_lines.
  destruct (ec =? 0); simpl; rewrite <- !app_assoc; reflexivity.
Qed.

(** The query for the teams, on a server that accepts the connection and
    answers. *)
Lemma select_after_connect s lines :
  fault_at s 0 = None ->
  fault_at s 1 = None ->
  select_call
    (snd (cursor_call (db (after_call connect_call (printed s lines)))))
  = (Ok (map (fun t => (team_id t, abbreviation t))
             (filter active (teams (db s)))),
     snd (select_call
            (snd (cursor_call
                    (db (after_call connect_call (printed s lines))))))).
Proof.
  unfold fault_at, after_call, printed, connect_call, cursor_call,
    select_call, next_fault, is_connected. simpl.
  destruct (faults (db s)) as [|[f0|] [|[f1|] fl]]; simpl;
    intros H0 H1; try discriminate; reflexivity.
Qed.

Lemma select_after_connect_fails s lines f :
  fault_at s 0 = None ->
  fault_at s 1 = Some f ->
  fst (select_call
         (snd (cursor_call (db (after_call connect_call (printed s lines))))))
  = Raise (raise_db f).
Proof.
  unfold fault_at, after_call, printed, connect_call, cursor_call,
    select_call, next_fault, is_connected. simpl.
  destruct (faults (db s)) as [|[f0|] [|[f1|] fl]]; simpl;
    intros H0 H1; try discriminate; inversion H1; reflexivity.
Qed.

Lemma looked_up_connected env df s :
  fault_at s 0 = None ->
  fault_at s 1 = None ->
  status (db (looked_up env df s)) = Connected.
Proof.
  unfold fault_at, looked_up, after_call, printed, connect_call, cursor_call,
    select_call, cursor_close_call, next_fault, is_connected. simpl.
  destruct (faults (db s)) as [|[f0|] [|[f1|] fl]]; simpl;
    intros H0 H1; try discriminate; reflexivity.
Qed.

(** The [try] of [main] from the referential validation on. *)
Lemma main_try_after_validation env s df :
  reaches_validation env s df ->
  main_try env (excel_file_path env) s
  = match validate_teams_exist df (team_lookup_from (db s))
                               (looked_up env df s) with
    | (Raise e, s4) => (Raise e, s4)
    | (Ok _, s4) =>
        match upload_games_to_database df s4 with
        | (Raise e, s5) => (Raise e, s5)
        | (Ok (sc, ec), s5) =>
            (close ;;;
             print [Lit "✓ Database connection closed"] ;;;
             print [Lit newline; Lit "🎯 Final Summary:"] ;;;
             print [Lit "   Total games processed: "; Num (len df)] ;;;
             print [Lit "   Successfully uploaded: "; Num sc] ;;;
             print [Lit "   Errors: "; Num ec] ;;;
             if ec =? 0 then
               print [Lit "🎉 All games uploaded successfully!"]
             else
               print [Lit "⚠️  Upload completed with some errors. Please review the error details above."]) s5
        end
    end.
Proof.
  intros [Hargc Hfile Hread Hcols (game_type & Hcol & Htypes) Hc Hq].
  unfold main_try. rewrite Hfile. simpl negb. cbv iota.
  unfold bind at 1, ret at 1. cbv beta iota.
  unfold bind at 1. rewrite print_printed. cbv beta iota.
  unfold bind at 1. rewrite print_printed, printed_printed. cbv beta iota.
  unfold bind at 1, pd_read_excel. rewrite Hread. unfold ret at 1.
  cbv beta iota.
  unfold bind at 1. rewrite print_printed, printed_printed. cbv beta iota.
  unfold bind at 1. rewrite validate_excel_columns_eq, Hcols, printed_printed.
  cbv beta iota.
  unfold bind at 1. rewrite validate_game_types_eq, Hcol, Htypes,
    printed_printed.
  cbv beta iota. simpl app. fold (validated_lines env df).
  unfold bind at 1. rewrite connect_to_database_eq, db_printed.
  rewrite (next_fault_at s), Hc. cbv beta iota.
  unfold bind at 1. rewrite get_team_lookup_eq, db_printed.
  rewrite (select_after_connect _ _ Hc Hq). cbv beta iota.
  fold (team_lookup_from (db s)).
  unfold bind at 1.
  change (printed (after_call cursor_close_call _) _)
    with (looked_up env df s).
  destruct (validate_teams_exist df (team_lookup_from (db s))
                                 (looked_up env df s)) as [[b|e] s4];
    [|reflexivity].
  unfold bind at 1.
  destruct (upload_games_to_database df s4) as [[[sc ec]|e] s5]; reflexivity.
Qed.


(** [main] from the referential validation on. *)
Lemma main_after_validation env s df :
  reaches_validation env s df ->
  main env s
  = match validate_teams_exist df (team_lookup_from (db s))
                               (looked_up env df s) with
    | (Raise e, s4) => (Raise (SystemExit 1), printed s4 [upload_failed e])
    | (Ok _, s4) =>
        match upload_games_to_database df s4 with
        | (Raise e, s5) => (Raise (SystemExit 1), printed s5 [upload_failed e])
        | (Ok (sc, ec), s5) =>
            (Ok tt, printed (after_call close_call s5) (summary_lines df sc ec))
        end
    end.
Proof.
  intros Hready. pose proof Hready as [Hargc _ _ _ _ Hc Hq].
  unfold main. rewrite Hargc.
  change (negb (2 =? 2)) with false. cbv iota zeta.
  fold (excel_file_path env). unfold try_except.
  rewrite (main_try_after_validation _ _ _ Hready).
  destruct (validate_teams_exist df (team_lookup_from (db s))
                                 (looked_up env df s)) as [[b|e] s4] eqn:Hv;
    apply validate_teams_exist_effect in Hv as (Hdb & Hr).
  - destruct (upload_games_to_database df s4) as [[[sc ec]|e] s5] eqn:Hu;
      apply upload_games_to_database_effect in Hu as (Hst & Hx).
    + rewrite main_finish; [reflexivity|].
      unfold is_connected. rewrite Hst, Hdb, looked_up_connected; auto.
    + rewrite Hx. reflexivity.
  - rewrite Hr. reflexivity.
Qed.


(** A run that does not get as far as the referential validation ends
    with [SystemExit(1)]. *)
Lemma main_stops_early env s :
  (forall df, ~ reaches_validation env s df) ->
  exists s', main env s = (Raise (SystemExit 1), s').
Proof.
  intros Hnot. unfold main.
  destruct (Z.eqb_spec (Z.of_nat (List.length (argv env))) 2) as [Hargc|Hargc];
    cbv [negb]; [|eexists; reflexivity].
  fold (excel_file_path env). unfold try_except, main_try.
  destruct (path_exists env (excel_file_path env)) eqn:Hfile;
    cbv [negb]; [|eexists; reflexivity].
  unfold bind at 1, ret at 1. cbv beta iota.
  unfold bind at 1. rewrite print_printed. cbv beta iota.
  unfold bind at 1. rewrite print_printed, printed_printed. cbv beta iota.
  unfold bind at 1, pd_read_excel.
  destruct (read_excel env (excel_file_path env)) as [df|[cls msg]] eqn:Hread;
    [|eexists; reflexivity].
  unfold ret at 1. cbv beta iota.
  unfold bind at 1. rewrite print_printed, printed_printed. cbv beta iota.
  unfold bind at 1. rewrite validate_excel_columns_eq.
  destruct (missing_columns_of df) as [|col missing] eqn:Hcols;
    [|eexists; reflexivity].
  rewrite printed_printed. cbv beta iota.
  unfold bind at 1. rewrite validate_game_types_eq.
  destruct (column df "game_type") as [game_type|e] eqn:Hcol.
  2: { cbv beta iota.
      assert (Hx : is_Exception e = true).
      { unfold column in Hcol. destruct (index_of _ _); inversion Hcol.
        reflexivity. }
      rewrite Hx. eexists; reflexivity. }
  destruct (invalid_types_of game_type) as [|c invalid] eqn:Htypes;
    [|eexists; reflexivity].
  rewrite printed_printed. cbv beta iota.
  unfold bind at 1. rewrite connect_to_database_eq, db_printed.
  rewrite (next_fault_at s).
  destruct (fault_at s 0) as [f0|] eqn:Hc; [eexists; reflexivity|].
  cbv beta iota.
  unfold bind at 1. rewrite get_team_lookup_eq, db_printed.
  destruct (fault_at s 1) as [f1|] eqn:Hq.
  - (* the query for the teams raises *)
    match goal with
    | |- context [select_call (snd (cursor_call
                    (db (after_call connect_call (printed s ?l)))))] =>
        pose proof (select_after_connect_fails s l f1 Hc Hq) as Hsel;
        destruct (select_call (snd (cursor_call
                    (db (after_call connect_call (printed s l))))))
          as [r c]
    end.
    simpl in Hsel. subst r. eexists; reflexivity.
  - exfalso. apply (Hnot df). constructor; eauto.
Qed.


Lemma reaches_validation_decided env s :
  (exists df, reaches_validation env s df)
  \/ (forall df, ~ reaches_validation env s df).
Proof.
  destruct (Z.eq_dec (Z.of_nat (List.length (argv env))) 2) as [Hargc|Hargc];
    [|right; intros df []; contradiction].
  destruct (path_exists env (excel_file_path env)) eqn:Hfile;
    [|right; intros df []; congruence].
  destruct (read_excel env (excel_file_path env)) as [df|x] eqn:Hread;
    [|right; intros df []; congruence].
  assert (Hdf : forall df', reaches_validation env s df' -> df' = df)
    by (intros df' []; congruence).
  destruct (missing_columns_of df) as [|col missing] eqn:Hcols;
    [|right; intros df' H; pose proof (Hdf _ H); subst df'; destruct H;
      congruence].
  destruct (column df "game_type") as [game_type|e] eqn:Hcol;
    [|right; intros df' H; pose proof (Hdf _ H); subst df';
      destruct H as [_ _ _ _ (g & Hg & _) _ _]; congruence].
  destruct (invalid_types_of game_type) as [|c invalid] eqn:Htypes;
    [|right; intros df' H; pose proof (Hdf _ H); subst df';
      destruct H as [_ _ _ _ (g & Hg & Hi) _ _]; congruence].
  destruct (fault_at s 0) as [f0|] eqn:Hc;
    [right; intros df' []; congruence|].
  destruct (fault_at s 1) as [f1|] eqn:Hq;
    [right; intros df' []; congruence|].
  left. exists df. constructor; eauto.
Qed.

Lemma reaches_validation_table env s df df' :
  reaches_validation env s df -> reaches_validation env s df' -> df' = df.
Proof. intros [] []. congruence. Qed.

(** The two ways [main] ends. *)
Lemma main_exit_status env s :
  (completes env s /\ exit_status (fst (main env s)) = 0)
  \/ (~ completes env s /\ exit_status (fst (main env s)) = 1).
Proof.
  destruct (reaches_validation_decided env s) as [(df & Hready) | Hnot].
  - rewrite (main_after_validation _ _ _ Hready).
    destruct (validate_teams_exist df (team_lookup_from (db s))
                                   (looked_up env df s)) as [[b|e] s4] eqn:Hv.
    + pose proof (validate_teams_exist_effect _ _ _ _ _ Hv) as (_ & ->).
      destruct (upload_games_to_database df s4) as [[[sc ec]|e] s5] eqn:Hu.
      * left. split; [|reflexivity]. exists df, s4, (sc, ec), s5. auto.
      * right. split; [|reflexivity].
        intros (df' & s4' & counts & s5' & Hready' & Hv' & Hu').
        pose proof (reaches_validation_table _ _ _ _ Hready Hready'); subst.
        congruence.
    + right. split; [|reflexivity].
      intros (df' & s4' & counts & s5' & Hready' & Hv' & Hu').
      pose proof (reaches_validation_table _ _ _ _ Hready Hready'); subst.
      congruence.
  - right. destruct (main_stops_early _ _ Hnot) as (s' & ->).
    split; [|reflexivity].
    intros (df & _ & _ & _ & Hready & _). exact (Hnot df Hready).
Qed.

(** C7. The exit status is 0 exactly when the run completes the pipeline,
    whatever the number of rows that failed in the load, and it is 1
    otherwise: when the command line has not exactly one argument, when
    the file does not exist or cannot be read, when a validation raises
    (missing columns, invalid game types, team references), and when the
    connection, the query for the teams or the load raises. *)
Theorem exit_status_zero_iff_completes :
  forall env s,
    let status := exit_status (fst (main env s)) in
    (status = 0 <-> completes env s)
    /\ (status = 1 <-> ~ completes env s)
    /\ (Z.of_nat (List.length (argv env)) <> 2 -> status = 1)
    /\ (path_exists env (excel_file_path env) = false -> status = 1)
    /\ (forall x, read_excel env (excel_file_path env) = inr x -> status = 1)
    /\ (forall df,
           read_excel env (excel_file_path env) = inl df ->
           missing_columns_of df <> [] -> status = 1)
    /\ (forall df game_type,
           read_excel env (excel_file_path env) = inl df ->
           column df "game_type" = Ok game_type ->
           invalid_types_of game_type <> [] -> status = 1)
    /\ (forall f, fault_at s 0 = Some f -> status = 1)
    /\ (forall f, fault_at s 1 = Some f -> status = 1)
    /\ (forall df e s4,
           reaches_validation env s df ->
           validate_teams_exist df (team_lookup_from (db s))
                                (looked_up env df s) = (Raise e, s4) ->
           status = 1)
    /\ (forall df s4 e s5,
           reaches_validation env s df ->
           validate_teams_exist df (team_lookup_from (db s))
                                (looked_up env df s) = (Ok true, s4) ->
           upload_games_to_database df s4 = (Raise e, s5) ->
           status = 1)
    /\ (forall df s4 sc ec s5,
           reaches_validation env s df ->
           validate_teams_exist df (team_lookup_from (db s))
                                (looked_up env df s) = (Ok true, s4) ->
           upload_games_to_database df s4 = (Ok (sc, ec), s5) ->
           status = 0).
Proof.
  intros env s status.
  assert (Hzero : status = 0 <-> completes env s).
  { unfold status.
    destruct (main_exit_status env s) as [(Hc & ->) | (Hc & ->)];
      split; intros H; try reflexivity; try assumption;
      [discriminate | contradiction]. }
  assert (Hone : status = 1 <-> ~ completes env s).
  { unfold status.
    destruct (main_exit_status env s) as [(Hc & ->) | (Hc & ->)];
      split; intros H; try reflexivity; try assumption;
      [discriminate | contradiction]. }
  assert (Hfail : forall P : Prop,
             (forall df, reaches_validation env s df -> P -> False) ->
             P -> status = 1).
  { intros P HP p. apply Hone.
    intros (df & _ & _ & _ & Hready & _). exact (HP df Hready p). }
  split; [exact Hzero|]. split; [exact Hone|].
  split. { apply Hfail. intros df []. congruence. }
  split. { apply Hfail. intros df []. congruence. }
  split. { intros x. apply Hfail. intros df []. congruence. }
  split.
  { intros df Hread Hcols. apply Hone.
    intros (df' & _ & _ & _ & [] & _). congruence. }
  split.
  { intros df game_type Hread Hcol Htypes. apply Hone.
    intros (df' & _ & _ & _ & [_ _ Hr _ (g & Hg & Hi) _ _] & _).
    congruence. }
  split. { intros f. apply Hfail. intros df []. congruence. }
  split. { intros f. apply Hfail. intros df []. congruence. }
  split.
  { intros df e s4 Hready Hv. apply Hone.
    intros (df' & s4' & counts & s5' & Hready' & Hv' & Hu').
    pose proof (reaches_validation_table _ _ _ _ Hready Hready'); subst.
    congruence. }
  split.
  { intros df s4 e s5 Hready Hv Hu. apply Hone.
    intros (df' & s4' & counts & s5' & Hready' & Hv' & Hu').
    pose proof (reaches_validation_table _ _ _ _ Hready Hready'); subst.
    congruence. }
  intros df s4 sc ec s5 Hready Hv Hu. apply Hzero.
  exists df, s4, (sc, ec), s5. auto.
Qed.


(** ** Conversion failures in validate_teams_exist *)

Lemma unconvertible_teams_of_row row c e :
  unconvertible_team_id row c e -> teams_of_row row = Raise e.
Proof.
  unfold teams_of_row.
  intros [(Hg & Hi) | ((h & ha & Hh & Hha) & Hg & Hi)].
  - rewrite Hg. simpl. rewrite Hi. reflexivity.
  - rewrite Hh. simpl. rewrite Hha. simpl. rewrite Hg. simpl. rewrite Hi.
    reflexivity.
Qed.

Lemma py_int_not_aggregate c e n :
  py_int c = Raise e -> e <> team_validation_error n.
Proof.
  unfold team_validation_error, ValueError.
  destruct c as [z|[| |]|str|t|d|]; simpl; try discriminate;
    try (intros H; inversion H; discriminate).
  destruct (int_of_string str); intros H; inversion H; discriminate.
Qed.

Lemma teams_of_row_not_aggregate row e n :
  teams_of_row row = Raise e ->
  is_Exception e = true /\ e <> team_validation_error n.
Proof.
  assert (Hkey : forall k e0, getitem row k = Raise e0 ->
                 is_Exception e0 = true /\ e0 <> team_validation_error n).
  { unfold getitem. intros k e0. destruct (index_of k (labels row));
      intros H; inversion H. split; [reflexivity | discriminate]. }
  assert (Hint : forall c e0, py_int c = Raise e0 ->
                 is_Exception e0 = true /\ e0 <> team_validation_error n).
  { intros c e0 H. split; [eapply py_int_Exception | eapply py_int_not_aggregate];
      eauto. }
  unfold teams_of_row. intros H.
  apply obind_Raise in H as [H | (h & _ & H)].
  { apply obind_Raise in H as [H | (c & _ & H)]; eauto. }
  apply obind_Raise in H as [H | (ha & _ & H)]; eauto.
  apply obind_Raise in H as [H | (a & _ & H)].
  { apply obind_Raise in H as [H | (c & _ & H)]; eauto. }
  apply obind_Raise in H as [H | (aa & _ & H)]; eauto.
  discriminate.
Qed.

(** A row with a team id that [int] rejects cannot be read. *)
Lemma rejected_id_unreadable row c e :
  getitem row "home_team_id" = Ok c \/ getitem row "away_team_id" = Ok c ->
  py_int c = Raise e ->
  exists e', teams_of_row row = Raise e'.
Proof.
  unfold teams_of_row. intros Hc Hi.
  destruct (getitem row "home_team_id") as [ch|e0] eqn:Hh; simpl; [|eauto].
  destruct (py_int ch) as [h|e0] eqn:Hih; simpl; [|eauto].
  destruct (getitem row "home_team") as [ha|e0]; simpl; [|eauto].
  destruct Hc as [Hc | Hc]; [inversion Hc; subst; congruence|].
  rewrite Hc. simpl. rewrite Hi. simpl. eauto.
Qed.

(** Among rows that cannot all be read there is a first one. *)
Lemma first_unreadable_row rows :
  forall index row e,
    In (index, row) rows ->
    teams_of_row row = Raise e ->
    exists pre i r post ts e',
      rows = pre ++ (i, r) :: post
      /\ teams_of_rows pre = Ok ts
      /\ teams_of_row r = Raise e'.
Proof.
  induction rows as [|[i0 r0] rows IH]; intros index row e Hin He;
    [contradiction|].
  destruct (teams_of_row r0) as [t0|e0] eqn:H0.
  - destruct Hin as [Heq | Hin]; [inversion Heq; subst; congruence|].
    destruct (IH _ _ _ Hin He) as (pre & i & r & post & ts & e' & -> & Hpre & Hr).
    exists ((i0, r0) :: pre), i, r, post, ((i0, t0) :: ts), e'.
    repeat split; auto. simpl. rewrite H0, Hpre. reflexivity.
  - exists [], i0, r0, rows, [], e0. auto.
Qed.

(** C9. When the id of the home or away team of some row does not convert
    to an integer, [validate_teams_exist] raises instead of reporting: the
    exception comes from reading a row, nothing is printed, no entry of any
    row is reported, and the exception is not the aggregated error.  When
    the rows before that row read well, the exception is the one of the
    conversion.  In a run of [main] this ends the run with the report of a
    failed upload and exit status 1. *)
Theorem unconvertible_team_id_aborts_validation :
  forall df team_lookup s index row c e,
    In (index, row) (iterrows df) ->
    getitem row "home_team_id" = Ok c \/ getitem row "away_team_id" = Ok c ->
    py_int c = Raise e ->
    exists e',
      validate_teams_exist df team_lookup s = (Raise e', s)
      /\ is_Exception e' = true
      /\ (forall n, e' <> team_validation_error n)
      /\ (forall pre post ts,
             iterrows df = pre ++ (index, row) :: post ->
             teams_of_rows pre = Ok ts ->
             unconvertible_team_id row c e ->
             e' = e)
      /\ (forall env s0,
             reaches_validation env s0 df ->
             main env s0
             = (Raise (SystemExit 1),
                printed (looked_up env df s0) [upload_failed e'])
             /\ exit_status (fst (main env s0)) = 1).
Proof.
  intros df team_lookup s index row c e Hin Hc Hi.
  destruct (rejected_id_unreadable _ _ _ Hc Hi) as (e0 & He0).
  destruct (first_unreadable_row _ _ _ _ Hin He0)
    as (pre & i & r & post & ts & e' & Hrows & Hpre & Hr).
  assert (Hv : forall tl s1, validate_teams_exist df tl s1 = (Raise e', s1)).
  { intros tl s1. rewrite validate_teams_exist_eq, Hrows.
    rewrite (check_rows_raises _ _ _ _ _ _ _ _ Hpre Hr). reflexivity. }
  exists e'. split; [apply Hv|].
  split; [eapply (teams_of_row_not_aggregate _ _ 0%nat); eauto|].
  split; [intros n; eapply teams_of_row_not_aggregate; eauto|].
  split.
  - intros pre' post' ts' Hrows' Hpre' Hun.
    pose proof (unconvertible_teams_of_row _ _ _ Hun) as Hrow.
    pose proof (Hv team_lookup s) as Hv1.
    rewrite validate_teams_exist_eq, Hrows' in Hv1.
    rewrite (check_rows_raises _ _ _ _ _ _ _ _ Hpre' Hrow) in Hv1.
    congruence.
  - intros env s0 Hready.
    rewrite (main_after_validation _ _ _ Hready), Hv. auto.
Qed.

(** ** The connection at the end of main *)

Lemma upload_games_to_database_calls df s r s' :
  upload_games_to_database df s = (r, s') ->
  exists evs,
    calls (db s') = calls (db s) ++ evs
    /\ forallb (fun ev => negb (is_close ev)) evs = true.
Proof.
  assert (Hins : forall evs, forallb is_insert evs = true ->
                 forallb (fun ev => negb (is_close ev)) evs = true).
  { induction evs as [|ev evs IH]; simpl; auto.
    intros H. apply andb_prop in H as (H1 & H2).
    rewrite (IH H2). destruct ev; simpl in *; auto; discriminate. }
  rewrite upload_games_to_database_eq.
  destruct (upload_try df (after_call cursor_call s)) as [[counts|e] s1]
    eqn:Htry;
    apply upload_try_effect in Htry as (evs & Hf & _ & _ & Hr).
  - destruct counts as [sc ec]. destruct Hr as (_ & _ & Hc & _).
    intros H; inversion H; subst. simpl. unfold log_call. rewrite Hc. simpl.
    unfold log_call.
    exists ([EvCursor] ++ evs ++ [EvCommit true; EvCursorClose]).
    split; [rewrite <- !app_assoc; reflexivity|].
    rewrite !forallb_app, (Hins _ Hf). reflexivity.
  - destruct Hr as (Hx & _ & _ & Hc). rewrite Hx.
    destruct (rollback_call (db s1)) as [r2 c2] eqn:Hrb.
    apply rollback_call_effect in Hrb as (_ & _ & Hcases).
    assert (Hc2 : exists b, calls c2 = calls (db s1) ++ [EvRollback b]).
    { destruct Hcases as [(_ & _ & _ & _ & H) | (_ & _ & H)]; eauto. }
    destruct Hc2 as (b & Hc2).
    assert (Hc1 : exists tail,
               calls (db s1) = calls (db s) ++ [EvCursor] ++ evs ++ tail
               /\ forallb (fun ev => negb (is_close ev)) tail = true).
    { destruct Hc as [Hc | Hc]; rewrite Hc; simpl; unfold log_call.
      - exists []. rewrite app_nil_r, <- app_assoc. auto.
      - exists [EvCommit false]. rewrite <- !app_assoc. auto. }
    destruct Hc1 as (tail & Hc1 & Htail). intros H.
    exists ([EvCursor] ++ evs ++ tail ++ [EvRollback b; EvCursorClose]).
    split.
    + destruct r2 as [[]|e2]; inversion H; subst; simpl; unfold log_call;
        rewrite Hc2, Hc1; rewrite <- !app_assoc; reflexivity.
    + rewrite !forallb_app, (Hins _ Hf), Htail. reflexivity.
Qed.


Lemma looked_up_calls env df s :
  fault_at s 0 = None ->
  fault_at s 1 = None ->
  calls (db (looked_up env df s))
  = calls (db s)
    ++ [EvConnect true; EvCursor; EvSelectTeams true; EvCursorClose].
Proof.
  unfold fault_at, looked_up, after_call, printed, connect_call, cursor_call,
    select_call, cursor_close_call, next_fault, is_connected. simpl.
  destruct (faults (db s)) as [|[f0|] [|[f1|] fl]]; simpl;
    intros H0 H1; try discriminate; unfold log_call; simpl;
    rewrite <- !app_assoc; reflexivity.
Qed.

(** When the referential validation raises, [main] exits with the
    connection still open as well. *)
Lemma validation_failure_leaves_connection_open env s df e s4 :
  reaches_validation env s df ->
  validate_teams_exist df (team_lookup_from (db s)) (looked_up env df s)
  = (Raise e, s4) ->
  main env s = (Raise (SystemExit 1), printed s4 [upload_failed e])
  /\ status (db s4) = Connected
  /\ calls (db s4)
     = calls (db s)
       ++ [EvConnect true; EvCursor; EvSelectTeams true; EvCursorClose].
Proof.
  intros Hready Hv. pose proof Hready as [_ _ _ _ _ Hc Hq].
  rewrite (main_after_validation _ _ _ Hready), Hv.
  apply validate_teams_exist_effect in Hv as (Hdb & _).
  rewrite Hdb, looked_up_connected, looked_up_calls by assumption. auto.
Qed.

(** C6, as the code has it. [main] closes the connection when the load
    returns, whatever the number of rows that failed in it: the goodbye is
    the last call on the connection, which is closed when [main] ends.
    When the load raises, the exception has passed the rollback of the
    load, [main] reports the failed upload and exits with status 1, and
    the connection is left open: no goodbye is sent. *)
Theorem connection_closed_when_load_returns :
  forall env s df s4,
    reaches_validation env s df ->
    validate_teams_exist df (team_lookup_from (db s)) (looked_up env df s)
    = (Ok true, s4) ->
    (forall sc ec s5,
        upload_games_to_database df s4 = (Ok (sc, ec), s5) ->
        exists s',
          main env s = (Ok tt, s')
          /\ status (db s') = Closed
          /\ calls (db s') = calls (db s5) ++ [EvClose]
          /\ pending (db s') = [])
    /\ (forall e s5,
           upload_games_to_database df s4 = (Raise e, s5) ->
           exists s' evs,
             main env s = (Raise (SystemExit 1), s')
             /\ stdout s' = stdout s5 ++ [upload_failed e]
             /\ status (db s') = Connected
             /\ calls (db s') = calls (db s) ++ evs
             /\ forallb (fun ev => negb (is_close ev)) evs = true).
Proof.
  intros env s df s4 Hready Hv.
  pose proof Hready as [_ _ _ _ _ Hc Hq].
  pose proof (validate_teams_exist_effect _ _ _ _ _ Hv) as (Hdb & _).
  split.
  - intros sc ec s5 Hu.
    rewrite (main_after_validation _ _ _ Hready), Hv, Hu.
    apply upload_games_to_database_effect in Hu as (Hst & _).
    assert (Hconn : is_connected (db s5) = true).
    { unfold is_connected. rewrite Hst, Hdb, looked_up_connected; auto. }
    eexists. split; [reflexivity|].
    unfold after_call, printed, close_call. simpl. rewrite Hconn. simpl.
    auto.
  - intros e s5 Hu.
    rewrite (main_after_validation _ _ _ Hready), Hv, Hu.
    pose proof (upload_games_to_database_effect _ _ _ _ Hu) as (Hst & _).
    apply upload_games_to_database_calls in Hu as (evs & Hcalls & Hevs).
    eexists _, _. split; [reflexivity|]. simpl.
    split; [reflexivity|].
    split; [rewrite Hst, Hdb; apply looked_up_connected; auto|].
    split.
    + rewrite Hcalls, Hdb, looked_up_calls by auto.
      rewrite <- app_assoc. reflexivity.
    + simpl. exact Hevs.
Qed.


(** ** Time zone transitions *)

Lemma tzinfo_eqb_eq a b : tzinfo_eqb a b = true -> a = b.
Proof.
  destruct a as [oa da na], b as [ob db nb]. unfold tzinfo_eqb. simpl.
  intros H. apply andb_prop in H as (H & Hn). apply andb_prop in H as (Ho & Hd).
  apply Z.eqb_eq in Ho, Hd. apply String.eqb_eq in Hn. congruence.
Qed.

Lemma nth_bisect_in_force ts :
  forall infos first u,
    List.length infos = List.length ts ->
    nth (bisect_right ts u) (first :: infos) UTC
    = in_force first (List.combine ts infos) u.
Proof.
  induction ts as [|t ts IH]; intros infos first u Hlen.
  - reflexivity.
  - destruct infos as [|inf infos]; [discriminate|]. simpl in Hlen.
    simpl. destruct (t <=? u); [|reflexivity].
    apply IH. lia.
Qed.

Lemma in_force_before first transitions u :
  match transitions with
  | [] => True
  | (t, _) :: _ => u < t
  end ->
  in_force first transitions u = first.
Proof.
  destruct transitions as [|[t inf] rest]; simpl; auto.
  intros H. destruct (Z.leb_spec t u); [lia | reflexivity].
Qed.

(** With a table that is [spaced], [info_at] is [in_force]. *)
Lemma info_at_in_force steps t0 first transitions u :
  spaced steps t0 first transitions = true ->
  info_at (mkzone (t0 :: map fst transitions) (first :: map snd transitions)) u
  = in_force first transitions u.
Proof.
  intros Hwf. unfold info_at. simpl.
  destruct (Z.leb_spec t0 u) as [Hle|Hlt].
  - rewrite Nat.pred_succ.
    change (nth (bisect_right (map fst transitions) u)
                (first :: map snd transitions) UTC
            = in_force first transitions u).
    rewrite nth_bisect_in_force by (rewrite !length_map; reflexivity).
    f_equal. clear. induction transitions as [|[t inf] rest IH]; simpl; congruence.
  - simpl. symmetry. apply in_force_before.
    destruct transitions as [|[t inf] rest]; auto.
    simpl in Hwf. apply andb_prop in Hwf as (Hwf & _).
    apply andb_prop in Hwf as (Hwf & _). apply Z.ltb_lt in Hwf.
    unfold window in Hwf. lia.
Qed.

Lemma is_step_In steps a b : is_step steps a b = true -> In (a, b) steps.
Proof.
  unfold is_step. intros H. apply existsb_exists in H as ([a' b'] & Hin & H).
  apply andb_prop in H as (Ha & Hb). apply tzinfo_eqb_eq in Ha, Hb.
  simpl in Ha, Hb. subst. exact Hin.
Qed.

(** Within a [window] the zone changes once at most. *)
Lemma in_force_window steps transitions :
  forall t0 first lo,
    transitions <> [] ->
    spaced steps t0 first transitions = true ->
    exists t a b,
      In (a, b) steps
      /\ forall u, lo <= u <= lo + window ->
                   in_force first transitions u = if u <? t then a else b.
Proof.
  induction transitions as [|[t1 i1] rest IH]; intros t0 first lo Hne Hwf;
    [congruence|].
  simpl in Hwf. apply andb_prop in Hwf as (Hwf & Hrest).
  apply andb_prop in Hwf as (Hgap & Hstep). apply Z.ltb_lt in Hgap.
  apply is_step_In in Hstep.
  destruct (Z_le_gt_dec t1 lo) as [Hpast | Hnext].
  - (* the transition is before the window *)
    destruct rest as [|[t2 i2] rest'].
    + exists t1, first, i1. split; [exact Hstep|]. intros u Hu. simpl.
      destruct (Z.leb_spec t1 u); destruct (Z.ltb_spec u t1); auto; lia.
    + destruct (IH t1 i1 lo) as (t & a & b & Hab & Hu');
        [discriminate | exact Hrest |].
      exists t, a, b. split; [exact Hab|]. intros u Hu.
      rewrite <- (Hu' u Hu). cbn [in_force].
      destruct (Z.leb_spec t1 u); [reflexivity | lia].
  - (* the transition is the next one *)
    exists t1, first, i1. split; [exact Hstep|]. intros u Hu. cbn [in_force].
    destruct (Z.leb_spec t1 u); destruct (Z.ltb_spec u t1); try lia; auto.
    apply in_force_before. destruct rest as [|[t2 i2] rest']; auto.
    simpl in Hrest. apply andb_prop in Hrest as (Hrest & _).
    apply andb_prop in Hrest as (Hgap2 & _). apply Z.ltb_lt in Hgap2. lia.
Qed.

Lemma new_york_spaced :
  spaced new_york_steps datetime_min LMT new_york_transitions = true.
Proof. vm_compute. reflexivity. Qed.

Lemma eastern_spaced :
  spaced eastern_steps (-2147483648) EST eastern_transitions = true.
Proof. vm_compute. reflexivity. Qed.

Lemma new_york_in_force u :
  info_at America_New_York u = in_force LMT new_york_transitions u.
Proof. exact (info_at_in_force _ _ _ _ u new_york_spaced). Qed.

(** Around any wall clock time America/New_York changes once at most. *)
Lemma new_york_window lo :
  exists t a b,
    In (a, b) new_york_steps
    /\ forall u, lo <= u <= lo + window ->
                 info_at America_New_York u = if u <? t then a else b.
Proof.
  destruct (in_force_window new_york_steps new_york_transitions
              datetime_min LMT lo) as (t & a & b & Hab & Hu);
    [discriminate | exact new_york_spaced |].
  exists t, a, b. split; [exact Hab|]. intros u Hrange.
  rewrite new_york_in_force. auto.
Qed.

(** From the first instant of the table on, the change is one of those
    of Eastern time. *)
Lemma eastern_window lo :
  -2147483648 <= lo ->
  exists t a b,
    In (a, b) eastern_steps
    /\ forall u, lo <= u <= lo + window ->
                 info_at America_New_York u = if u <? t then a else b.
Proof.
  intros Hlo.
  destruct (in_force_window eastern_steps eastern_transitions
              (-2147483648) EST lo) as (t & a & b & Hab & Hu);
    [discriminate | exact eastern_spaced |].
  exists t, a, b. split; [exact Hab|]. intros u Hrange.
  rewrite new_york_in_force, <- (Hu u Hrange).
  unfold new_york_transitions. cbn [in_force].
  unfold window in Hrange.
  destruct (Z.leb_spec (-2147483648) u); [reflexivity | lia].
Qed.


(** ** localize around a transition *)

Lemma add_timedelta_in_range dt delta :
  datetime_min <= dt + delta <= datetime_max ->
  add_timedelta dt delta = Ok (dt + delta).
Proof.
  intros (Hlo & Hhi). unfold add_timedelta.
  destruct (Z.leb_spec datetime_min (dt + delta)); [|lia].
  destruct (Z.leb_spec (dt + delta) datetime_max); [reflexivity | lia].
Qed.

(** Runs [localize] within the range of [datetime]: the sums are in range,
    the lookups [f x] are resolved, innermost first, by the one transition
    [t] of the window, and the tests on instants after them. *)
Ltac run_localize f tz Hwin t :=
  repeat match goal with
         | |- context [f ?x] =>
             lazymatch x with
             | context [f _] => fail
             | _ =>
                 rewrite (Hwin x) by (unfold window; lia);
                 destruct (Z.ltb_spec x t); try (exfalso; lia);
                 cbv [utcoffset dst zone wall utc_of LMT EST EDT EWT EPT];
                 cbn [obind]
             end
         | |- context [add_timedelta ?x ?y] =>
             rewrite (add_timedelta_in_range x y)
               by (unfold datetime_min, datetime_max in *; lia);
             cbn [obind]
         | |- context [?x =? ?y] =>
             destruct (Z.eqb_spec x y); try (exfalso; lia);
             cbv [utcoffset dst zone wall utc_of LMT EST EDT EWT EPT
                  existsb orb app fold_left filter negb latest];
             cbn [obind]
         | |- context [?x <? ?y] =>
             destruct (Z.ltb_spec x y); try (exfalso; lia)
         | |- context [localize_rec (S ?n) tz ?x] =>
             rewrite (localize_rec_S n tz x);
             unfold possible_loc_dt, py_set, candidate, normalize, fromutc,
               set_add;
             change (info_at tz) with f;
             cbn [utcoffset dst zone wall utc_of obind]
         end.

(** [localize] around one transition, away from the ends of the range of
    [datetime]: the wall clock time is kept.  Where the zone keeps Eastern
    time, a wall clock time that happens twice or never is read as standard
    time, and any other one by the offset in force. *)
Lemma localize_around (tz : DstTzInfo) dt t a b n :
  In (a, b) new_york_steps ->
  (forall u, dt - 108000 <= u <= dt - 108000 + window ->
             info_at tz u = if u <? t then a else b) ->
  datetime_min + 108000 <= dt <= datetime_max - 86400 ->
  exists inf,
    localize_rec (S (S n)) tz dt = Ok (mkaware dt inf)
    /\ (a <> LMT ->
        (ambiguous tz dt \/ nonexistent tz dt -> inf = EST)
        /\ (valid_reading tz dt (utcoffset EDT)
            /\ ~ valid_reading tz dt (utcoffset EST) ->
            utcoffset inf = utcoffset EDT)
        /\ (~ (valid_reading tz dt (utcoffset EDT)
               /\ ~ valid_reading tz dt (utcoffset EST)) ->
            utcoffset inf = utcoffset EST)).
Proof.
  intros Hab Hwin Hrange.
  unfold ambiguous, nonexistent, valid_reading.
  set (f := info_at tz) in *.
  cbv [utcoffset EST EDT].
  simpl in Hab.
  destruct Hab as [Hab | [Hab | [Hab | [Hab | [Hab | [Hab | []]]]]]];
    inversion Hab; subst a b; clear Hab;
    run_localize f tz Hwin t;
    (eexists; split;
     [ apply f_equal; f_equal; first [lia | reflexivity]
     | intros Hne; try (exfalso; apply Hne; reflexivity);
       repeat split; intros Hr; cbn; first [reflexivity | exfalso; lia] ]).
Qed.


(** ** Kickoff timestamps *)

(** [kickoff_utc] on a row whose date and time are read. *)
Lemma kickoff_utc_eq row cd d ct t :
  getitem row "game_date" = Ok cd ->
  to_datetime cd = Ok (Stamp d) ->
  getitem row "game_time_et" = Ok ct ->
  game_time_of ct = Ok (ATime t) ->
  kickoff_utc row
  = obind (localize America_New_York
                    (seconds_of (mkdatetime (dt_date d) t)))
          (fun localized =>
           obind (astimezone_utc localized) (fun utc =>
           Ok (datetime_of (wall utc) (microsecond t)))).
Proof.
  intros Hcd Hd Hct Ht. unfold kickoff_utc.
  rewrite Hcd. simpl obind at 2. rewrite Hd. simpl obind at 1.
  rewrite Hct. simpl obind at 1. rewrite Ht. reflexivity.
Qed.

Lemma tabulated_range dt :
  tabulated dt -> -2145916800 <= dt <= 2145916799.
Proof. intros H. exact H. Qed.

Lemma away_from_ends_range dt :
  away_from_ends dt ->
  datetime_min + 2 * 86400 <= dt <= datetime_max - 86400.
Proof. intros H. exact H. Qed.

(** [localize] returns for every wall clock time away from the ends of
    the range of [datetime], and keeps the wall clock time. *)
Lemma localize_new_york_returns dt :
  away_from_ends dt ->
  exists inf, localize America_New_York dt = Ok (mkaware dt inf).
Proof.
  intros Hdt. apply away_from_ends_range in Hdt.
  destruct (new_york_window (dt - 108000)) as (t & a & b & Hab & Hwin).
  destruct (localize_around America_New_York dt t a b 998 Hab Hwin)
    as (inf & Hloc & _); [lia|].
  exists inf. exact Hloc.
Qed.

(** In the years of the table, a wall clock time of America/New_York that
    happens twice or never is read as standard time; one that is valid
    under daylight saving time only is read four hours behind UTC, and any
    other one five hours behind UTC. *)
Lemma localize_new_york_reading dt :
  tabulated dt ->
  exists inf,
    localize America_New_York dt = Ok (mkaware dt inf)
    /\ (ambiguous America_New_York dt \/ nonexistent America_New_York dt ->
        inf = EST)
    /\ (valid_reading America_New_York dt (utcoffset EDT)
        /\ ~ valid_reading America_New_York dt (utcoffset EST) ->
        utcoffset inf = utcoffset EDT)
    /\ (~ (valid_reading America_New_York dt (utcoffset EDT)
           /\ ~ valid_reading America_New_York dt (utcoffset EST)) ->
        utcoffset inf = utcoffset EST).
Proof.
  intros Hdt. apply tabulated_range in Hdt.
  destruct (eastern_window (dt - 108000)) as (t & a & b & Hab & Hwin);
    [lia|].
  assert (Ha : a <> LMT).
  { intros Heq. subst a. cbv [eastern_steps In LMT EST EDT EWT EPT] in Hab.
    intuition discriminate. }
  destruct (localize_around America_New_York dt t a b 998
              (or_intror Hab) Hwin) as (inf & Hloc & Hinf).
  { unfold datetime_min, datetime_max. lia. }
  exists inf. split; [exact Hloc | exact (Hinf Ha)].
Qed.

(** Within the range of [datetime], [astimezone] subtracts the offset. *)
Lemma astimezone_utc_in_range a :
  datetime_min <= utc_of a <= datetime_max ->
  astimezone_utc a = Ok (mkaware (utc_of a) UTC).
Proof.
  intros H. unfold astimezone_utc, utc_of in *.
  rewrite add_timedelta_in_range by lia. reflexivity.
Qed.

(** C4. A row dated 2025-09-04 with the local time 20:20:00: the naive
    datetime is read as Eastern wall clock time under daylight saving, four
    hours behind UTC, and the function returns 2025-09-05T00:20:00 UTC. *)
Theorem kickoff_2025_09_04_is_00_20_utc :
  forall row cd d ct s,
    getitem row "game_date" = Ok cd ->
    to_datetime cd = Ok (Stamp d) ->
    dt_date d = mkdate 2025 9 4 ->
    getitem row "game_time_et" = Ok ct ->
    game_time_of ct = Ok (ATime (mktime 20 20 0 0)) ->
    let naive := mkdatetime (mkdate 2025 9 4) (mktime 20 20 0 0) in
    localize America_New_York (seconds_of naive)
    = Ok (mkaware (seconds_of naive) EDT)
    /\ utcoffset EDT = - (4 * 3600)
    /\ calculate_kickoff_timestamp row s
       = (Ok (Some (mkdatetime (mkdate 2025 9 5) (mktime 0 20 0 0))), s).
Proof.
  intros row cd d ct s Hcd Hd Hdate Hct Ht naive.
  assert (Hloc : localize America_New_York (seconds_of naive)
                 = Ok (mkaware (seconds_of naive) EDT))
    by (vm_compute; reflexivity).
  split; [exact Hloc|]. split; [reflexivity|].
  apply kickoff_success.
  rewrite (kickoff_utc_eq _ _ _ _ _ Hcd Hd Hct Ht), Hdate.
  fold naive. rewrite Hloc. vm_compute. reflexivity.
Qed.


(** C10. A naive local datetime of the years 1902 to 2037 that happens
    twice or never because of a daylight saving transition: [localize] is
    called without [is_dst], so the reading with [is_dst=False] is taken; it
    attaches standard time, five hours behind UTC, to the wall clock time as
    it is, and nothing is raised: the function returns that instant in UTC.
    [localize] returns for every wall clock time from 0001-01-03 to
    9999-12-30. *)
Theorem dst_transition_reads_standard_time :
  forall row cd d ct t s,
    getitem row "game_date" = Ok cd ->
    to_datetime cd = Ok (Stamp d) ->
    getitem row "game_time_et" = Ok ct ->
    game_time_of ct = Ok (ATime t) ->
    let naive := mkdatetime (dt_date d) t in
    tabulated (seconds_of naive) ->
    ambiguous America_New_York (seconds_of naive)
    \/ nonexistent America_New_York (seconds_of naive) ->
    localize America_New_York (seconds_of naive)
    = Ok (mkaware (seconds_of naive) EST)
    /\ dst EST = 0
    /\ calculate_kickoff_timestamp row s
       = (Ok (Some (datetime_of (seconds_of naive + 5 * 3600)
                                (microsecond t))), s)
    /\ (forall dt, away_from_ends dt ->
                   exists inf,
                     localize America_New_York dt = Ok (mkaware dt inf)).
Proof.
  intros row cd d ct t s Hcd Hd Hct Ht naive Hrange Hdst.
  destruct (localize_new_york_reading _ Hrange) as (inf & Hloc & Hstd & _).
  rewrite (Hstd Hdst) in Hloc.
  split; [exact Hloc|]. split; [reflexivity|]. split.
  - apply kickoff_success.
    rewrite (kickoff_utc_eq _ _ _ _ _ Hcd Hd Hct Ht). fold naive.
    rewrite Hloc. cbn [obind].
    apply tabulated_range in Hrange.
    rewrite astimezone_utc_in_range
      by (unfold utc_of, datetime_min, datetime_max; simpl; lia).
    cbn [obind wall]. unfold utc_of. cbn [wall zone]. do 2 f_equal.
  - exact localize_new_york_returns.
Qed.


(** ** validate_excel_columns and validate_game_types *)

Lemma index_of_In k l : index_of k l <> None <-> In k l.
Proof.
  induction l as [|x l IH]; simpl; [tauto|].
  destruct (String.eqb_spec k x) as [->|Hne].
  - split; [auto | discriminate].
  - destruct (index_of k l) as [j|]; simpl.
    + split; [intros _; right; apply IH; discriminate | discriminate].
    + split; [congruence|]. intros [Hx | Hin]; [congruence | tauto].
Qed.

Lemma has_column_In l k : has_column l k = true <-> In k l.
Proof.
  unfold has_column. rewrite <- index_of_In.
  destruct (index_of k l); split; congruence.
Qed.

Lemma required_columns_NoDup : NoDup required_columns.
Proof.
  unfold required_columns.
  repeat (constructor; [simpl; intuition discriminate|]). constructor.
Qed.

Lemma filter_nil_iff {A} (p : A -> bool) l :
  filter p l = [] <-> forall x, In x l -> p x = false.
Proof.
  induction l as [|x l IH]; simpl; [tauto|].
  destruct (p x) eqn:Hp.
  - split; [discriminate|]. intros H. rewrite (H x) in Hp; [discriminate | auto].
  - rewrite IH. split; [intros H y [<- | Hy]; auto | auto].
Qed.

(** X1. [validate_excel_columns] passes exactly when every required column
    is among the columns of the table, whatever their order and whatever
    other columns there are; it then prints one line and returns [True].
    Otherwise it raises a [ValueError] without printing, and the list in
    its message holds every required column that is absent, each once, in
    the order of [required_columns]: not only the first one. *)
Theorem validate_excel_columns_names_every_missing_column :
  forall df s,
    let missing := missing_columns_of df in
    (forall col,
        In col missing <-> In col required_columns /\ ~ In col (columns df))
    /\ NoDup missing
    /\ (missing = []
        <-> forall col, In col required_columns -> In col (columns df))
    /\ (missing = [] ->
        validate_excel_columns df s
        = (Ok true, printed s [[Lit "✓ Excel file has all required columns"]]))
    /\ (missing <> [] ->
        validate_excel_columns df s
        = (Raise (ValueError [Lit "Missing required columns: "; Strs missing]),
           s)).
Proof.
  intros df s missing.
  assert (Hin : forall col, In col missing
                <-> In col required_columns /\ ~ In col (columns df)).
  { intros col. unfold missing, missing_columns_of. rewrite filter_In.
    rewrite <- (has_column_In (columns df) col).
    destruct (has_column (columns df) col); simpl; intuition congruence. }
  split; [exact Hin|].
  split; [apply NoDup_filter, required_columns_NoDup|].
  split.
  { unfold missing, missing_columns_of. rewrite filter_nil_iff.
    split; intros H col Hcol; specialize (H col Hcol).
    - apply has_column_In. destruct (has_column (columns df) col);
        [reflexivity | discriminate].
    - apply has_column_In in H. rewrite H. reflexivity. }
  split; intros Hm; unfold validate_excel_columns; fold missing.
  - rewrite Hm. reflexivity.
  - destruct missing; [congruence | reflexivity].
Qed.

Lemma cell_eqb_eq a b : cell_eqb a b = true <-> a = b.
Proof.
  unfold cell_eqb. destruct (cell_eq_dec a b); split; congruence.
Qed.

Lemma existsb_cell_eqb c seen : existsb (cell_eqb c) seen = true <-> In c seen.
Proof.
  rewrite existsb_exists. split.
  - intros (x & Hx & Heq). apply cell_eqb_eq in Heq. congruence.
  - intros H. exists c. split; [exact H | apply cell_eqb_eq; reflexivity].
Qed.

Lemma unique_In l :
  forall seen c, In c (unique seen l) <-> In c l /\ ~ In c seen.
Proof.
  induction l as [|x l IH]; intros seen c; simpl; [tauto|].
  destruct (existsb (cell_eqb x) seen) eqn:Hx.
  - apply existsb_cell_eqb in Hx. rewrite IH.
    split; [tauto|]. intros ([<- | Hc] & Hn); tauto.
  - assert (Hnx : ~ In x seen).
    { intros H. apply existsb_cell_eqb in H. congruence. }
    simpl. rewrite IH. simpl.
    destruct (cell_eq_dec x c) as [<- | Hne]; tauto.
Qed.

Lemma unique_NoDup l : forall seen, NoDup (unique seen l).
Proof.
  induction l as [|x l IH]; intros seen; simpl; [constructor|].
  destruct (existsb (cell_eqb x) seen); [apply IH|].
  constructor; [|apply IH].
  rewrite unique_In. simpl. tauto.
Qed.

Lemma isin_valid v c :
  isin v c = true <-> exists x, In x v /\ c = CStr x.
Proof.
  unfold isin. rewrite existsb_exists. split.
  - intros (x & Hx & Heq). exists x. split; [exact Hx|].
    destruct c; simpl in Heq; try discriminate.
    apply String.eqb_eq in Heq. congruence.
  - intros (x & Hx & ->). exists x. split; [exact Hx|].
    simpl. apply String.eqb_refl.
Qed.

(** X2. [validate_game_types] passes exactly when every cell of the column
    game_type is a string that is one of the five game types (an empty
    cell, which reads as NaN, is not); it then prints one line and returns
    [True], which is what happens for a table without rows.  Otherwise it
    raises a [ValueError] without printing, whose message lists offending
    values of the column without repeating any; every offending string
    and the NaN of an empty cell are among them.  On a table without the
    column it raises the [KeyError] of the column. *)
Theorem validate_game_types_lists_distinct_invalid_values :
  forall df s,
    match column df "game_type" with
    | Raise e =>
        ~ In "game_type" (columns df)
        /\ e = KeyError "game_type"
        /\ validate_game_types df s = (Raise e, s)
    | Ok game_type =>
        let invalid := invalid_types_of game_type in
        NoDup invalid
        /\ (forall c, In c invalid ->
                      In c game_type /\ isin valid_types c = false)
        /\ (forall v, In (CStr v) game_type -> ~ In v valid_types ->
                      In (CStr v) invalid)
        /\ (In nan game_type -> In nan invalid)
        /\ (invalid = []
            <-> forall c, In c game_type ->
                          exists v, In v valid_types /\ c = CStr v)
        /\ (data df = [] -> invalid = [])
        /\ (invalid = [] ->
            validate_game_types df s
            = (Ok true, printed s [[Lit "✓ All game types are valid"]]))
        /\ (invalid <> [] ->
            validate_game_types df s
            = (Raise (ValueError
                        [Lit "Invalid game_type values: "; Vals invalid;
                         Lit ". Must be one of: "; Strs valid_types]), s))
    end.
Proof.
  intros df s. rewrite validate_game_types_eq.
  destruct (column df "game_type") as [game_type|e] eqn:Hcol.
  - intros invalid.
    assert (Hin : forall c, In c invalid
                  <-> In c game_type /\ isin valid_types c = false).
    { intros c. unfold invalid, invalid_types_of.
      rewrite unique_In, filter_In.
      destruct (isin valid_types c); simpl; intuition congruence. }
    split; [apply unique_NoDup|].
    split; [intros c Hc; apply Hin; exact Hc|].
    split.
    { intros v Hv Hnot. apply Hin. split; [exact Hv|].
      destruct (isin valid_types (CStr v)) eqn:Hi; [|reflexivity].
      apply isin_valid in Hi as (x & Hx & Heq). inversion Heq; subst.
      contradiction. }
    split; [intros Hnan; apply Hin; split; [exact Hnan | reflexivity]|].
    split.
    { split.
      - intros Hnil c Hc. apply isin_valid.
        destruct (isin valid_types c) eqn:Hi; [reflexivity|].
        assert (Hbad : In c invalid) by (apply Hin; auto).
        rewrite Hnil in Hbad. contradiction.
      - intros Hall. destruct invalid as [|c invalid'] eqn:Hinv; [reflexivity|].
        destruct (proj1 (Hin c) (or_introl eq_refl)) as (Hc & Hi).
        apply Hall, isin_valid in Hc. congruence. }
    split.
    { intros Hempty. unfold column in Hcol.
      destruct (index_of "game_type" (columns df)); inversion Hcol as [Hg].
      unfold invalid. rewrite <- Hg, Hempty. reflexivity. }
    split; intros Hinv; fold invalid.
    + rewrite Hinv. reflexivity.
    + destruct invalid; [congruence | reflexivity].
  - unfold column in Hcol.
    destruct (index_of "game_type" (columns df)) as [j|] eqn:Hj;
      inversion Hcol.
    split; [|auto]. intros Hin. apply index_of_In in Hin. congruence.
Qed.


(** ** Dictionaries built by comprehension *)

Section DictFacts.
Variables K V : Type.
Variable eqb : K -> K -> bool.
Hypothesis eqb_eq : forall a b, eqb a b = true <-> a = b.

Lemma dict_get_set (d : Dict.dict K V) k v q :
  Dict.get eqb (Dict.set eqb d k v) q
  = if eqb q k then Some v else Dict.get eqb d q.
Proof.
  induction d as [|[k' v'] d IH]; simpl; [reflexivity|].
  destruct (eqb k k') eqn:Hk; simpl.
  - apply eqb_eq in Hk. subst k'. destruct (eqb q k); reflexivity.
  - rewrite IH. destruct (eqb q k') eqn:Hq; [|reflexivity].
    apply eqb_eq in Hq. subst k'.
    destruct (eqb q k) eqn:Hqk; [|reflexivity].
    apply eqb_eq in Hqk. subst q.
    assert (eqb k k = true) by (apply eqb_eq; reflexivity). congruence.
Qed.

Lemma dict_set_fresh (d : Dict.dict K V) k v :
  ~ In k (map fst d) -> Dict.set eqb d k v = d ++ [(k, v)].
Proof.
  induction d as [|[k' v'] d IH]; simpl; [reflexivity|].
  intros Hn. destruct (eqb k k') eqn:Hk.
  - apply eqb_eq in Hk. subst k'. tauto.
  - rewrite IH by tauto. reflexivity.
Qed.

Lemma dict_set_keys (d : Dict.dict K V) k v q :
  In q (map fst (Dict.set eqb d k v)) <-> q = k \/ In q (map fst d).
Proof.
  induction d as [|[k' v'] d IH]; simpl; [intuition congruence|].
  destruct (eqb k k') eqn:Hk; simpl.
  - apply eqb_eq in Hk. subst k'. intuition congruence.
  - rewrite IH. tauto.
Qed.

Lemma dict_set_keys_NoDup (d : Dict.dict K V) k v :
  NoDup (map fst d) -> NoDup (map fst (Dict.set eqb d k v)).
Proof.
  induction d as [|[k' v'] d IH]; simpl; intros Hnd.
  - constructor; [simpl; tauto | constructor].
  - inversion Hnd as [|x l Hx Hl]; subst.
    destruct (eqb k k') eqn:Hk; simpl; [constructor; assumption|].
    constructor; [|auto].
    rewrite dict_set_keys. intros [-> | Hin]; [|contradiction].
    assert (eqb k k = true) by (apply eqb_eq; reflexivity). congruence.
Qed.

Lemma dict_set_In (d : Dict.dict K V) k v q w :
  In (q, w) (Dict.set eqb d k v) -> (q, w) = (k, v) \/ In (q, w) d.
Proof.
  induction d as [|[k' v'] d IH]; simpl; [intuition congruence|].
  destruct (eqb k k') eqn:Hk; simpl.
  - apply eqb_eq in Hk. subst k'. intuition congruence.
  - intuition.
Qed.

Lemma dict_get_Some_In (d : Dict.dict K V) q v :
  Dict.get eqb d q = Some v -> In (q, v) d.
Proof.
  induction d as [|[k' v'] d IH]; simpl; [discriminate|].
  destruct (eqb q k') eqn:Hq; [|auto].
  apply eqb_eq in Hq. subst k'. intros H. inversion H. auto.
Qed.

Lemma dict_In_get (d : Dict.dict K V) q v :
  NoDup (map fst d) -> In (q, v) d -> Dict.get eqb d q = Some v.
Proof.
  induction d as [|[k' v'] d IH]; simpl; [tauto|].
  intros Hnd. inversion Hnd as [|x l Hx Hl]; subst.
  intros [Heq | Hin].
  - inversion Heq; subst.
    assert (H : eqb q q = true) by (apply eqb_eq; reflexivity).
    rewrite H. reflexivity.
  - destruct (eqb q k') eqn:Hq; [|auto].
    apply eqb_eq in Hq. subst k'. exfalso. apply Hx.
    change q with (fst (q, v)). apply in_map. exact Hin.
Qed.

Lemma dict_get_None (d : Dict.dict K V) q :
  Dict.get eqb d q = None <-> ~ In q (map fst d).
Proof.
  induction d as [|[k' v'] d IH]; simpl; [tauto|].
  destruct (eqb q k') eqn:Hq.
  - apply eqb_eq in Hq. subst k'. split; [discriminate | tauto].
  - rewrite IH. split; [|tauto]. intros Hn [Heq | Hin]; [|tauto].
    subst k'. assert (eqb q q = true) by (apply eqb_eq; reflexivity).
    congruence.
Qed.

(** [{key(r): val(r) for r in l}] *)
Variable R : Type.
Variable key : R -> K.
Variable val : R -> V.

Lemma comprehension_snoc (l : list R) r :
  fold_left (fun d x => Dict.set eqb d (key x) (val x)) (l ++ [r]) []
  = Dict.set eqb
      (fold_left (fun d x => Dict.set eqb d (key x) (val x)) l [])
      (key r) (val r).
Proof. rewrite fold_left_app. reflexivity. Qed.

(** The value found under a key is that of the last element with the
    key. *)
Lemma comprehension_get (l : list R) q :
  Dict.get eqb (fold_left (fun d x => Dict.set eqb d (key x) (val x)) l []) q
  = option_map val (find (fun x => eqb q (key x)) (rev l)).
Proof.
  induction l as [|r l IH] using rev_ind; [reflexivity|].
  rewrite comprehension_snoc, dict_get_set, rev_unit. simpl.
  destruct (eqb q (key r)); [reflexivity | exact IH].
Qed.

Lemma comprehension_keys (l : list R) q :
  In q (map fst (fold_left (fun d x => Dict.set eqb d (key x) (val x)) l []))
  <-> In q (map key l).
Proof.
  induction l as [|r l IH] using rev_ind; [simpl; tauto|].
  rewrite comprehension_snoc, dict_set_keys, IH, map_app, in_app_iff.
  simpl. intuition congruence.
Qed.

Lemma comprehension_keys_NoDup (l : list R) :
  NoDup (map fst
           (fold_left (fun d x => Dict.set eqb d (key x) (val x)) l [])).
Proof.
  induction l as [|r l IH] using rev_ind; [constructor|].
  rewrite comprehension_snoc. apply dict_set_keys_NoDup, IH.
Qed.

(** Every entry comes from an element of the list. *)
Lemma comprehension_In (l : list R) q v :
  In (q, v) (fold_left (fun d x => Dict.set eqb d (key x) (val x)) l []) ->
  exists r, In r l /\ key r = q /\ val r = v.
Proof.
  induction l as [|r l IH] using rev_ind; [simpl; tauto|].
  rewrite comprehension_snoc. intros H.
  apply dict_set_In in H as [Heq | Hin].
  - inversion Heq; subst. exists r. split; [apply in_or_app; simpl|]; auto.
  - destruct (IH Hin) as (r' & Hr' & Hk & Hv). exists r'.
    split; [apply in_or_app|]; auto.
Qed.

(** With distinct keys nothing is replaced. *)
Lemma comprehension_distinct_keys (l : list R) :
  NoDup (map key l) ->
  fold_left (fun d x => Dict.set eqb d (key x) (val x)) l []
  = map (fun r => (key r, val r)) l.
Proof.
  induction l as [|r l IH] using rev_ind; [reflexivity|].
  rewrite map_app. simpl. intros Hnd.
  pose proof (NoDup_remove_1 _ _ _ Hnd) as Hl.
  pose proof (NoDup_remove_2 _ _ _ Hnd) as Hr.
  rewrite app_nil_r in Hl, Hr.
  rewrite comprehension_snoc, (IH Hl), map_app. simpl.
  apply dict_set_fresh. rewrite map_map. simpl. exact Hr.
Qed.

End DictFacts.

Arguments dict_get_Some_In {K V eqb} eqb_eq d q v.
Arguments dict_In_get {K V eqb} eqb_eq d q v.
Arguments dict_get_None {K V eqb} eqb_eq d q.
Arguments comprehension_get {K V eqb} eqb_eq {R} key val l q.
Arguments comprehension_keys {K V eqb} eqb_eq {R} key val l q.
Arguments comprehension_keys_NoDup {K V eqb} eqb_eq {R} key val l.
Arguments comprehension_In {K V eqb} eqb_eq {R} key val l q v.
Arguments comprehension_distinct_keys {K V eqb} eqb_eq {R} key val l.

Lemma string_eqb_eq a b : String.eqb a b = true <-> a = b.
Proof. apply String.eqb_eq. Qed.

Lemma Z_eqb_eq a b : Z.eqb a b = true <-> a = b.
Proof. apply Z.eqb_eq. Qed.

(** ** get_team_lookup *)

Lemma find_last {A} (p : A -> bool) pre x post :
  p x = true -> (forall y, In y post -> p y = false) ->
  find p (rev (pre ++ x :: post)) = Some x.
Proof.
  intros Hx Hpost. rewrite rev_app_distr. simpl. rewrite <- app_assoc.
  simpl.
  assert (Hfind : forall l tail, (forall y, In y l -> p y = false) ->
                  find p (l ++ tail) = find p tail).
  { induction l as [|y l IH]; intros tail Hl; simpl; [reflexivity|].
    rewrite (Hl y) by (simpl; auto). apply IH. intros z Hz. apply Hl.
    simpl. auto. }
  rewrite Hfind; [simpl; rewrite Hx; reflexivity|].
  intros y Hy. apply Hpost, in_rev. exact Hy.
Qed.

(** X3. The dictionary [get_team_lookup] builds from the fetched rows has
    one key for each distinct abbreviation, and under an abbreviation it
    holds the team_id of the last fetched row with that abbreviation: when
    two rows share an abbreviation, the later one replaces the earlier.  So
    the number of teams it reports is the number of distinct abbreviations,
    which is the number of rows only when no abbreviation repeats. *)
Theorem team_lookup_last_row_wins :
  forall rows abbr,
    let team_lookup := team_lookup_of rows in
    Dict.get String.eqb team_lookup abbr
    = option_map fst (find (fun r => String.eqb abbr (snd r)) (rev rows))
    /\ (forall pre id post,
           rows = pre ++ (id, abbr) :: post ->
           ~ In abbr (map snd post) ->
           Dict.get String.eqb team_lookup abbr = Some id)
    /\ (~ In abbr (map snd rows) ->
        Dict.get String.eqb team_lookup abbr = None)
    /\ NoDup (map fst team_lookup)
    /\ (forall k, In k (map fst team_lookup) <-> In k (map snd rows))
    /\ (List.length team_lookup <= List.length rows)%nat
    /\ (NoDup (map snd rows) -> List.length team_lookup = List.length rows).
Proof.
  intros rows abbr team_lookup.
  assert (Hget : Dict.get String.eqb team_lookup abbr
                 = option_map fst (find (fun r => String.eqb abbr (snd r))
                                        (rev rows)))
    by exact (comprehension_get string_eqb_eq snd fst rows abbr).
  assert (Hkeys : forall k, In k (map fst team_lookup)
                            <-> In k (map snd rows))
    by exact (comprehension_keys string_eqb_eq snd fst rows).
  assert (Hnd : NoDup (map fst team_lookup))
    by exact (comprehension_keys_NoDup string_eqb_eq snd fst rows).
  split; [exact Hget|].
  split.
  { intros pre id post Hrows Hpost. rewrite Hget, Hrows.
    rewrite (find_last _ pre (id, abbr) post); [reflexivity | |].
    - simpl. apply String.eqb_refl.
    - intros [id' abbr'] Hy. simpl.
      destruct (String.eqb_spec abbr abbr') as [->|]; [|reflexivity].
      exfalso. apply Hpost. change abbr' with (snd (id', abbr')).
      apply in_map. exact Hy. }
  split.
  { intros Hnot. apply (dict_get_None string_eqb_eq). rewrite Hkeys.
    exact Hnot. }
  split; [exact Hnd|].
  split; [exact Hkeys|].
  assert (Hlen : (List.length (map fst team_lookup)
                  <= List.length (map snd rows))%nat).
  { apply NoDup_incl_length; [exact Hnd|]. intros k. apply Hkeys. }
  rewrite !length_map in Hlen.
  split; [exact Hlen|].
  intros Hrows.
  assert (Hge : (List.length (map snd rows)
                 <= List.length (map fst team_lookup))%nat).
  { apply NoDup_incl_length; [exact Hrows|]. intros k. apply Hkeys. }
  rewrite !length_map in Hge. lia.
Qed.

Lemma active_teams_In c id abbr :
  In (id, abbr) (active_teams c)
  <-> exists t, In t (teams c) /\ active t = true
                /\ team_id t = id /\ abbreviation t = abbr.
Proof.
  unfold active_teams. rewrite in_map_iff. split.
  - intros (t & Heq & Hin). apply filter_In in Hin as (Hin & Hact).
    inversion Heq; subst. eauto.
  - intros (t & Hin & Hact & <- & <-). exists t.
    split; [reflexivity | apply filter_In; auto].
Qed.

(** X4. On a connection that is open and whose server answers,
    [get_team_lookup] makes three calls (cursor, the SELECT, cursor close),
    changes nothing on the server, returns the lookup of the active teams
    and prints the number of its keys.  Every key is the abbreviation of an
    active team and maps to the id of an active team with that
    abbreviation; every active team's abbreviation is a key; a team that is
    not active is in the lookup only if an active one shares its
    abbreviation. *)
Theorem get_team_lookup_loads_active_teams :
  forall s,
    is_connected (db s) = true ->
    next_fault (db s) = None ->
    let team_lookup := team_lookup_of (active_teams (db s)) in
    exists s',
      get_team_lookup s = (Ok team_lookup, s')
      /\ stdout s'
         = stdout s ++ [[Lit "✓ Loaded ";
                         Num (Z.of_nat (List.length team_lookup));
                         Lit " teams for lookup"]]
      /\ calls (db s')
         = calls (db s) ++ [EvCursor; EvSelectTeams true; EvCursorClose]
      /\ teams (db s') = teams (db s)
      /\ games (db s') = games (db s)
      /\ pending (db s') = pending (db s)
      /\ status (db s') = status (db s)
      /\ (forall abbr id,
             Dict.get String.eqb team_lookup abbr = Some id ->
             exists t, In t (teams (db s)) /\ active t = true
                       /\ team_id t = id /\ abbreviation t = abbr)
      /\ (forall t, In t (teams (db s)) -> active t = true ->
                    exists id,
                      Dict.get String.eqb team_lookup (abbreviation t)
                      = Some id)
      /\ (forall abbr,
             (forall t, In t (teams (db s)) -> abbreviation t = abbr ->
                        active t = false) ->
             Dict.get String.eqb team_lookup abbr = None).
Proof.
  intros s Hc Hf team_lookup. rewrite get_team_lookup_eq.
  assert (Hsel : select_call (snd (cursor_call (db s)))
                 = (Ok (active_teams (db s)),
                    mkconn (status (db s)) (teams (db s)) (games (db s))
                           (pending (db s)) (tl (faults (db s)))
                           (calls (db s) ++ [EvCursor; EvSelectTeams true]))).
  { rewrite select_call_ok; [| exact Hc | exact Hf].
    simpl. unfold log_call. rewrite <- app_assoc. reflexivity. }
  rewrite Hsel. fold team_lookup. eexists. split; [reflexivity|].
  simpl. unfold log_call. simpl. rewrite <- app_assoc. simpl.
  repeat (split; [reflexivity|]).
  assert (Hkeys : forall abbr, In abbr (map fst team_lookup)
                  <-> In abbr (map snd (active_teams (db s)))).
  { apply (comprehension_keys string_eqb_eq snd fst). }
  split.
  { intros abbr id Hget. apply (dict_get_Some_In string_eqb_eq) in Hget.
    apply (comprehension_In string_eqb_eq snd fst) in Hget
      as ([id' abbr'] & Hin & Hk & Hv). simpl in Hk, Hv. subst.
    apply active_teams_In. exact Hin. }
  split.
  { intros t Hin Hact.
    destruct (Dict.get String.eqb team_lookup (abbreviation t)) as [id|]
      eqn:Hget; [eauto|].
    exfalso. apply (dict_get_None string_eqb_eq) in Hget. apply Hget.
    apply Hkeys.
    change (abbreviation t) with (snd (team_id t, abbreviation t)).
    apply in_map. apply active_teams_In. eauto. }
  intros abbr Hnone. apply (dict_get_None string_eqb_eq). rewrite Hkeys.
  intros Hin. apply in_map_iff in Hin as ([id abbr'] & Heq & Hin).
  simpl in Heq. subst abbr'.
  apply active_teams_In in Hin as (t & Ht & Hact & _ & Habbr).
  rewrite (Hnone t Ht Habbr) in Hact. discriminate.
Qed.

(** X5. When the SELECT of [get_team_lookup] raises (the connection is not
    open, or the server refuses the query), the exception goes to the
    caller as it is: nothing is printed, no lookup is returned, and
    [cursor.close()] is not reached: the SELECT is the last call made on
    the connection. *)
Theorem get_team_lookup_failure_leaves_cursor_open :
  forall s e s',
    get_team_lookup s = (Raise e, s') ->
    stdout s' = stdout s
    /\ calls (db s') = calls (db s) ++ [EvCursor; EvSelectTeams false]
    /\ is_Exception e = true
    /\ status (db s') = status (db s)
    /\ games (db s') = games (db s)
    /\ pending (db s') = pending (db s)
    /\ (is_connected (db s) = false /\ e = no_socket
        \/ is_connected (db s) = true
           /\ exists f, next_fault (db s) = Some f /\ e = raise_db f).
Proof.
  intros s e s'. rewrite get_team_lookup_eq.
  unfold select_call, cursor_call, log_call, is_connected, next_fault.
  simpl.
  destruct (status (db s)) eqn:Hst;
    try (intros H; inversion H; subst; simpl; rewrite <- app_assoc;
         repeat (split; [reflexivity|]); left; auto).
  destruct (faults (db s)) as [|[f|] fl] eqn:Hfl; simpl;
    intros H; inversion H; subst; simpl; rewrite <- app_assoc.
  repeat (split; [reflexivity|]). right. eauto.
Qed.

(** ** The directory and the referential validation *)

(** What the inverted lookup holds comes from a fetched row. *)
Lemma inverted_lookup_sound rows id abbr :
  Dict.get Z.eqb (team_id_lookup_of (team_lookup_of rows)) id = Some abbr ->
  In (id, abbr) rows.
Proof.
  intros Hget. apply (dict_get_Some_In Z_eqb_eq) in Hget.
  apply (comprehension_In Z_eqb_eq snd fst) in Hget
    as ([abbr' id'] & Hin & Hk & Hv). simpl in Hk, Hv. subst.
  apply (comprehension_In string_eqb_eq snd fst) in Hin
    as ([id' abbr'] & Hin & Hk & Hv). simpl in Hk, Hv. subst.
  exact Hin.
Qed.

(** Round trip: for a directory with distinct ids and distinct
    abbreviations, inverting the lookup gives the directory back. *)
Lemma inverted_lookup_round_trip rows :
  NoDup (map fst rows) -> NoDup (map snd rows) ->
  team_id_lookup_of (team_lookup_of rows) = rows.
Proof.
  intros Hids Habbrs. unfold team_id_lookup_of, team_lookup_of.
  rewrite (comprehension_distinct_keys string_eqb_eq snd fst rows Habbrs).
  rewrite (comprehension_distinct_keys Z_eqb_eq snd fst).
  - rewrite map_map. simpl. rewrite <- (map_id rows) at 2.
    apply map_ext. intros [id abbr]. reflexivity.
  - rewrite map_map. simpl. exact Hids.
Qed.

Lemma str_eq_cell_true expected c :
  str_eq_cell expected c = true <-> c = CStr expected.
Proof.
  destruct c; simpl; try (split; [discriminate | intros H; inversion H]).
  rewrite String.eqb_eq. split; [congruence | intros H; inversion H; auto].
Qed.

Lemma side_problems_nil lk index side id code :
  side_problems lk index side id code = []
  <-> exists abbr, Dict.get Z.eqb lk id = Some abbr /\ code = CStr abbr.
Proof.
  unfold side_problems. destruct (Dict.get Z.eqb lk id) as [expected|].
  - destruct (str_eq_cell expected code) eqn:Heq.
    + apply str_eq_cell_true in Heq. split; eauto.
    + split; [discriminate|]. intros (abbr & Hget & Hc). inversion Hget; subst.
      assert (str_eq_cell abbr (CStr abbr) = true)
        by (apply str_eq_cell_true; reflexivity).
      congruence.
  - split; [discriminate|]. intros (abbr & Hget & _). discriminate.
Qed.

Lemma all_problems_nil lk ts :
  all_problems lk ts = []
  <-> forall index t,
        In (index, t) ts ->
        (exists abbr, Dict.get Z.eqb lk (home_id t) = Some abbr
                      /\ home_abbr t = CStr abbr)
        /\ (exists abbr, Dict.get Z.eqb lk (away_id t) = Some abbr
                         /\ away_abbr t = CStr abbr).
Proof.
  unfold all_problems. induction ts as [|[i t0] ts IH]; simpl.
  - split; [intros _ index t [] | reflexivity].
  - split.
    + intros H. apply app_eq_nil in H as (Hrow & Hrest).
      unfold row_problems in Hrow. simpl in Hrow.
      apply app_eq_nil in Hrow as (Hh & Ha).
      apply side_problems_nil in Hh, Ha.
      intros index t [Heq | Hin]; [inversion Heq; subst; auto|].
      exact (proj1 IH Hrest index t Hin).
    + intros H. destruct (H i t0 (or_introl eq_refl)) as (Hh & Ha).
      unfold row_problems. simpl.
      rewrite (proj2 (side_problems_nil lk i "Home" _ _) Hh).
      rewrite (proj2 (side_problems_nil lk i "Away" _ _) Ha).
      simpl. apply (proj2 IH). intros index t Hin. apply (H index t). auto.
Qed.

(** X6. The referential validation against the lookup built from the
    fetched rows, on a table whose team ids all convert.  It never accepts
    a reference that is not in the directory: when it passes, the id and
    the supplied code of both sides of every row are a fetched row, and
    the code is a string.  For a directory with distinct ids and distinct
    abbreviations the converse holds: inverting the lookup gives the
    directory back, and the validation passes exactly when every reference
    of the table is a fetched row. *)
Theorem team_validation_matches_directory :
  forall df rows ts s,
    teams_of_rows (iterrows df) = Ok ts ->
    let passes :=
      validate_teams_exist df (team_lookup_of rows) s
      = (Ok true, printed s [[Lit "✓ All team IDs and abbreviations are valid"]])
    in
    let all_listed :=
      forall index t,
        In (index, t) ts ->
        listed rows (home_id t) (home_abbr t)
        /\ listed rows (away_id t) (away_abbr t) in
    (passes -> all_listed)
    /\ (NoDup (map fst rows) -> NoDup (map snd rows) ->
        team_id_lookup_of (team_lookup_of rows) = rows
        /\ (all_listed -> passes)).
Proof.
  intros df rows ts s Hts passes all_listed.
  set (lk := team_id_lookup_of (team_lookup_of rows)).
  assert (Hpass : passes <-> all_problems lk ts = []).
  { unfold passes. rewrite validate_teams_exist_eq. fold lk.
    rewrite (check_rows_problems lk _ _ [] Hts). simpl app.
    destruct (all_problems lk ts) as [|p ps]; simpl.
    - tauto.
    - split; discriminate. }
  split.
  - intros Hp index t Hin.
    destruct (proj1 (all_problems_nil lk ts) (proj1 Hpass Hp) index t Hin)
      as ((ha & Hgh & Hh) & (aa & Hga & Ha)).
    split; [exists ha | exists aa];
      (split; [assumption | apply inverted_lookup_sound; assumption]).
  - intros Hids Habbrs.
    pose proof (inverted_lookup_round_trip rows Hids Habbrs) as Hround.
    split; [exact Hround|].
    intros Hall. apply Hpass, all_problems_nil. intros index t Hin.
    destruct (Hall index t Hin) as ((ha & Hh & Hhin) & (aa & Ha & Hain)).
    unfold lk. rewrite Hround.
    split; [exists ha | exists aa];
      (split; [apply (dict_In_get Z_eqb_eq); assumption | assumption]).
Qed.


(** ** The calendar *)

Lemma year_of_era doe :
  0 <= doe < 146097 ->
  let yoe := (doe - doe / 1460 + doe / 36524 - doe / 146096) / 365 in
  0 <= yoe < 400 /\ 0 <= doe - (365 * yoe + yoe / 4 - yoe / 100) < 366.
Proof.
  intros H yoe. unfold yoe. clear yoe. Z.div_mod_to_equations. lia.
Qed.

(** The date of a day number is a date of the calendar. *)
Lemma civil_from_days_valid z :
  1 <= month (civil_from_days z) <= 12 /\ 1 <= day (civil_from_days z) <= 31.
Proof.
  unfold civil_from_days.
  set (z1 := z + 719468).
  set (era := z1 / 146097).
  set (doe := z1 - era * 146097).
  assert (Hdoe : 0 <= doe < 146097).
  { unfold doe, era. Z.div_mod_to_equations. lia. }
  destruct (year_of_era doe Hdoe) as (Hyoe & Hdoy).
  cbv zeta in Hyoe, Hdoy.
  set (yoe := (doe - doe / 1460 + doe / 36524 - doe / 146096) / 365) in *.
  set (doy := doe - (365 * yoe + yoe / 4 - yoe / 100)) in *.
  cbv zeta. cbn [month day].
  set (mp := (5 * doy + 2) / 153).
  assert (Hmp : 0 <= mp < 12 /\ 1 <= doy - (153 * mp + 2) / 5 + 1 <= 31).
  { unfold mp. Z.div_mod_to_equations. lia. }
  split; [|tauto].
  destruct (Z.ltb_spec mp 10); lia.
Qed.

(** Round trip: the day number of the date of a day number. *)
Lemma days_from_civil_from_days z : days_from_civil (civil_from_days z) = z.
Proof.
  unfold civil_from_days.
  set (z1 := z + 719468).
  set (era := z1 / 146097).
  set (doe := z1 - era * 146097).
  assert (Hdoe : 0 <= doe < 146097).
  { unfold doe, era. Z.div_mod_to_equations. lia. }
  destruct (year_of_era doe Hdoe) as (Hyoe & Hdoy).
  cbv zeta in Hyoe, Hdoy.
  set (yoe := (doe - doe / 1460 + doe / 36524 - doe / 146096) / 365) in *.
  set (doy := doe - (365 * yoe + yoe / 4 - yoe / 100)) in *.
  set (mp := (5 * doy + 2) / 153).
  assert (Hmp : 0 <= mp < 12).
  { unfold mp. Z.div_mod_to_equations. lia. }
  unfold days_from_civil. cbn [year month day]. cbv zeta.
  assert (Hy : (if (if mp <? 10 then mp + 3 else mp - 9) <=? 2
                then (if (if mp <? 10 then mp + 3 else mp - 9) <=? 2
                      then yoe + era * 400 + 1 else yoe + era * 400) - 1
                else (if (if mp <? 10 then mp + 3 else mp - 9) <=? 2
                      then yoe + era * 400 + 1 else yoe + era * 400))
               = yoe + era * 400).
  { destruct ((if mp <? 10 then mp + 3 else mp - 9) <=? 2); lia. }
  rewrite Hy.
  assert (Hera : (yoe + era * 400) / 400 = era).
  { Z.div_mod_to_equations. lia. }
  rewrite Hera.
  assert (Hm : (if 2 <? (if mp <? 10 then mp + 3 else mp - 9)
                then (if mp <? 10 then mp + 3 else mp - 9) - 3
                else (if mp <? 10 then mp + 3 else mp - 9) + 9) = mp).
  { destruct (Z.ltb_spec mp 10).
    - destruct (Z.ltb_spec 2 (mp + 3)); lia.
    - destruct (Z.ltb_spec 2 (mp - 9)); lia. }
  rewrite Hm.
  replace (yoe + era * 400 - era * 400) with yoe by lia.
  set (q := (153 * mp + 2) / 5).
  unfold doy, doe, z1. lia.
Qed.

(** Round trip: the seconds of the datetime of a number of seconds. *)
Lemma seconds_of_datetime_of secs us :
  seconds_of (datetime_of secs us) = secs.
Proof.
  unfold seconds_of, datetime_of. cbv zeta.
  cbn [dt_date dt_time hour minute second].
  rewrite days_from_civil_from_days. Z.div_mod_to_equations. lia.
Qed.

Lemma datetime_of_time secs us :
  let t := dt_time (datetime_of secs us) in
  0 <= hour t < 24 /\ 0 <= minute t < 60 /\ 0 <= second t < 60
  /\ microsecond t = us.
Proof.
  unfold datetime_of. cbv zeta. cbn [dt_time hour minute second microsecond].
  repeat split; try reflexivity; Z.div_mod_to_equations; lia.
Qed.

(** ** Every reading of a wall clock time *)

(** X7. For every row whose date is read as a timestamp and whose time is
    a time of day, giving a wall clock time of the years 1902 to 2037,
    [calculate_kickoff_timestamp] returns a timestamp and prints nothing.
    The time of day of the date cell is dropped.  The timestamp is the
    instant four hours after the wall clock time when daylight saving time
    is the only valid reading of it, and five hours after it in every other
    case; its microseconds are those of the time of day, and its fields are
    those of a datetime of the calendar. *)
Theorem kickoff_is_wall_clock_plus_offset :
  forall row cd d ct t s,
    getitem row "game_date" = Ok cd ->
    to_datetime cd = Ok (Stamp d) ->
    getitem row "game_time_et" = Ok ct ->
    game_time_of ct = Ok (ATime t) ->
    let naive := mkdatetime (dt_date d) t in
    tabulated (seconds_of naive) ->
    let daylight :=
      valid_reading America_New_York (seconds_of naive) (utcoffset EDT)
      /\ ~ valid_reading America_New_York (seconds_of naive) (utcoffset EST) in
    exists utc,
      calculate_kickoff_timestamp row s = (Ok (Some utc), s)
      /\ (daylight -> seconds_of utc = seconds_of naive + 4 * 3600)
      /\ (~ daylight -> seconds_of utc = seconds_of naive + 5 * 3600)
      /\ microsecond (dt_time utc) = microsecond t
      /\ 1 <= month (dt_date utc) <= 12
      /\ 1 <= day (dt_date utc) <= 31
      /\ 0 <= hour (dt_time utc) < 24
      /\ 0 <= minute (dt_time utc) < 60
      /\ 0 <= second (dt_time utc) < 60.
Proof.
  intros row cd d ct t s Hcd Hd Hct Ht naive Hrange daylight.
  destruct (localize_new_york_reading _ Hrange)
    as (inf & Hloc & _ & Hday & Hstd).
  fold daylight in Hday, Hstd.
  apply tabulated_range in Hrange.
  assert (Hinf : utcoffset inf = utcoffset EDT \/ utcoffset inf = utcoffset EST).
  { destruct (Z.eq_dec (utcoffset inf) (utcoffset EST)) as [Heq | Hne];
      [right; exact Heq | left].
    apply Hday. unfold daylight.
    destruct (Z.eq_dec (utcoffset (info_at America_New_York
                                     (seconds_of naive - utcoffset EDT)))
                       (utcoffset EDT)) as [Hd1 | Hd1];
      destruct (Z.eq_dec (utcoffset (info_at America_New_York
                                       (seconds_of naive - utcoffset EST)))
                         (utcoffset EST)) as [Hs1 | Hs1];
      unfold valid_reading; try tauto;
      exfalso; apply Hne, Hstd; unfold daylight, valid_reading; tauto. }
  assert (Hk : kickoff_utc row
               = Ok (datetime_of (seconds_of naive - utcoffset inf)
                                 (microsecond t))).
  { rewrite (kickoff_utc_eq _ _ _ _ _ Hcd Hd Hct Ht). fold naive.
    rewrite Hloc. cbn [obind].
    rewrite astimezone_utc_in_range
      by (unfold utc_of, datetime_min, datetime_max; cbn [wall zone];
          destruct Hinf as [-> | ->]; cbn [utcoffset EDT EST]; lia).
    reflexivity. }
  exists (datetime_of (seconds_of naive - utcoffset inf) (microsecond t)).
  split; [apply kickoff_success; exact Hk|].
  rewrite seconds_of_datetime_of.
  split.
  { intros Hdl. rewrite (Hday Hdl). reflexivity. }
  split.
  { intros Hdl. rewrite (Hstd Hdl). reflexivity. }
  pose proof (datetime_of_time (seconds_of naive - utcoffset inf)
                               (microsecond t)) as (Hh & Hm & Hs & Hus).
  pose proof (civil_from_days_valid
                ((seconds_of naive - utcoffset inf) / 86400)) as (Hmo & Hda).
  split; [exact Hus|].
  repeat split; first [apply Hmo | apply Hda | apply Hh | apply Hm | apply Hs].
Qed.

(** X8. A row whose date is read as a timestamp but whose time cell is
    neither a string nor a time of day (a number, the NaN of an empty
    cell, a timestamp): [datetime.combine] refuses it, and
    [calculate_kickoff_timestamp] prints its three lines, the first with
    the [TypeError] naming the type of the cell, and returns [None]. *)
Theorem kickoff_needs_a_time_of_day :
  forall row id cd d ct s,
    getitem row "nfl_game_id" = Ok id ->
    getitem row "game_date" = Ok cd ->
    to_datetime cd = Ok (Stamp d) ->
    getitem row "game_time_et" = Ok ct ->
    (forall str, ct <> CStr str) ->
    (forall t, ct <> CTime t) ->
    let e := TypeError [Lit "combine() argument 2 must be datetime.time, not ";
                        TypeOf ct] in
    kickoff_utc row = Raise e
    /\ calculate_kickoff_timestamp row s
       = (Ok None, printed s (kickoff_report id cd ct e)).
Proof.
  intros row id cd d ct s Hid Hcd Hd Hct Hstr Htime e.
  assert (Hk : kickoff_utc row = Raise e).
  { unfold kickoff_utc. rewrite Hcd. simpl obind at 2. rewrite Hd.
    simpl obind at 1. rewrite Hct. simpl obind at 1.
    destruct ct as [n|f|str|t|dt|];
      try (exfalso; eapply Hstr; reflexivity);
      try (exfalso; eapply Htime; reflexivity); reflexivity. }
  split; [exact Hk|].
  exact (kickoff_failure _ _ _ _ _ s Hid Hcd Hct Hk).
Qed.


(** ** The INSERTs of the load *)

Lemma calculate_kickoff_timestamp_failure row e0 s r s1 :
  kickoff_utc row = Raise e0 ->
  calculate_kickoff_timestamp row s = (r, s1) ->
  db s1 = db s
  /\ (r = Ok None \/ exists e, r = Raise e /\ is_Exception e = true).
Proof.
  intros Hk Hc. split; [eapply calculate_kickoff_timestamp_db; eauto|].
  revert Hc.
  unfold calculate_kickoff_timestamp, try_except, bind, lift, ret, print.
  rewrite Hk, (kickoff_utc_Exception _ _ Hk).
  destruct (getitem row "nfl_game_id") eqn:H1; simpl;
    [| intros H; inversion H; subst; eauto with exc].
  destruct (getitem row "game_date") eqn:H2; simpl;
    [| intros H; inversion H; subst; eauto with exc].
  destruct (getitem row "game_time_et") eqn:H3; simpl;
    intros H; inversion H; subst; eauto with exc.
Qed.

(** One turn of the loop sends the INSERT of its row when the row has a
    tuple, and nothing otherwise, however the turn ends. *)
Lemma upload_row_sent ir acc s r s' :
  upload_row ir acc s = (r, s') ->
  exists evs,
    calls (db s') = calls (db s) ++ evs
    /\ sent evs = match insertable (snd ir) with
                  | Some g => [g]
                  | None => []
                  end.
Proof.
  destruct ir as [index row]. unfold upload_row, try_except, insertable.
  simpl snd. unfold bind at 1.
  destruct (kickoff_utc row) as [ts|e0] eqn:Hk.
  - rewrite (kickoff_success _ _ s Hk). unfold bind at 1, lift at 1.
    destruct (row_data row ts) as [g|e] eqn:Hd.
    + unfold bind at 1.
      destruct (execute_insert g s) as [[[]|e] s2] eqn:He;
        apply execute_insert_effect in He
          as (_ & [(Hr & Hi) | ((e' & Hr & Hx) & Hi)]);
        try discriminate; destruct Hi as (_ & Hc & _).
      * unfold ret. intros H; inversion H; subst.
        exists [EvInsert g true]. auto.
      * inversion Hr; subst e'. rewrite Hx, upload_row_handler.
        destruct (getitem row "nfl_game_id");
          intros H; inversion H; subst; exists [EvInsert g false]; auto.
    + rewrite (row_data_Exception _ _ _ Hd), upload_row_handler.
      destruct (getitem row "nfl_game_id");
        intros H; inversion H; subst; exists []; rewrite app_nil_r; auto.
  - destruct (calculate_kickoff_timestamp row s) as [r1 s1] eqn:Hc.
    destruct (calculate_kickoff_timestamp_failure _ _ _ _ _ Hk Hc)
      as (Hdb & [-> | (e & -> & Hx)]).
    + unfold ret. intros H; inversion H; subst. exists [].
      rewrite Hdb, app_nil_r. auto.
    + rewrite Hx, upload_row_handler.
      destruct (getitem row "nfl_game_id");
        intros H; inversion H; subst; exists []; rewrite Hdb, app_nil_r; auto.
Qed.

Lemma sent_app evs1 evs2 : sent (evs1 ++ evs2) = sent evs1 ++ sent evs2.
Proof. apply flat_map_app. Qed.

Lemma insertable_rows_cons ir rows :
  insertable_rows (ir :: rows)
  = match insertable (snd ir) with
    | Some g => [g]
    | None => []
    end ++ insertable_rows rows.
Proof. reflexivity. Qed.

(** The loop sends the INSERTs of the rows that have a tuple, in the order
    of the rows; when it is left by an exception, those of the rows it got
    to. *)
Lemma upload_rows_sent rows :
  forall acc s r s',
    upload_rows rows acc s = (r, s') ->
    exists evs,
      calls (db s') = calls (db s) ++ evs
      /\ match r with
         | Ok _ => sent evs = insertable_rows rows
         | Raise _ =>
             exists pre post,
               rows = pre ++ post /\ sent evs = insertable_rows pre
         end.
Proof.
  induction rows as [|ir rows IH]; intros acc s r s' H.
  - inversion H; subst. exists []. rewrite app_nil_r. auto.
  - rewrite upload_rows_cons in H.
    destruct (upload_row ir acc s) as [[acc1|e] s1] eqn:Hrow;
      apply upload_row_sent in Hrow as (evs1 & Hc1 & Hs1).
    + apply IH in H as (evs2 & Hc2 & Hs2).
      exists (evs1 ++ evs2). rewrite Hc2, Hc1, app_assoc.
      split; [reflexivity|]. rewrite sent_app, Hs1.
      destruct r as [acc2|e].
      * rewrite Hs2. reflexivity.
      * destruct Hs2 as (pre & post & -> & Hs2). exists (ir :: pre), post.
        rewrite insertable_rows_cons, Hs2. auto.
    + inversion H; subst. exists evs1. split; [exact Hc1|].
      exists [ir], rows. rewrite insertable_rows_cons, Hs1.
      simpl. rewrite app_nil_r. auto.
Qed.

Lemma row_data_fields row ts g :
  row_data row ts = Ok g ->
  g_status g = "scheduled" /\ g_kickoff_timestamp g = ts.
Proof.
  unfold row_data. intros H.
  repeat (apply obind_Ok in H as (? & _ & H)).
  inversion H; subst. auto.
Qed.

Lemma insertable_rows_In rows g :
  In g (insertable_rows rows)
  <-> exists index row ts,
        In (index, row) rows
        /\ kickoff_utc row = Ok ts /\ row_data row ts = Ok g.
Proof.
  unfold insertable_rows. rewrite in_flat_map. split.
  - intros ([index row] & Hin & Hg). simpl in Hg. unfold insertable in Hg.
    destruct (kickoff_utc row) as [ts|] eqn:Hk; [|contradiction].
    destruct (row_data row ts) as [g'|] eqn:Hd; [|contradiction].
    destruct Hg as [<- | []]. eauto 6.
  - intros (index & row & ts & Hin & Hk & Hd). exists (index, row).
    split; [exact Hin|]. simpl. unfold insertable. rewrite Hk, Hd.
    simpl. auto.
Qed.

Lemma insertable_rows_length rows :
  (List.length (insertable_rows rows) <= List.length rows)%nat.
Proof.
  induction rows as [|ir rows IH]; [simpl; lia|].
  rewrite insertable_rows_cons, length_app.
  destruct (insertable (snd ir)); simpl; lia.
Qed.

(** X9. Whenever [upload_games_to_database] returns, the INSERTs it has
    sent are those of the rows whose timestamp derives and whose fields
    convert: one for each such row, in the order of the table, whether
    the server took the row or refused it, and none for any other row.
    Each carries the timestamp derived for its row and the status
    scheduled.  The rows that are durable afterwards are among them. *)
Theorem upload_sends_every_insertable_row :
  forall df s sc ec s',
    upload_games_to_database df s = (Ok (sc, ec), s') ->
    exists evs,
      calls (db s')
      = calls (db s) ++ [EvCursor] ++ evs ++ [EvCommit true; EvCursorClose]
      /\ forallb is_insert evs = true
      /\ sent evs = insertable_rows (iterrows df)
      /\ games (db s') = games (db s) ++ pending (db s) ++ inserted evs
      /\ (forall g, In g (inserted evs) -> In g (sent evs))
      /\ (forall g,
             In g (sent evs) ->
             g_status g = "scheduled"
             /\ exists index row,
                  In (index, row) (iterrows df)
                  /\ kickoff_utc row = Ok (g_kickoff_timestamp g)
                  /\ row_data row (g_kickoff_timestamp g) = Ok g).
Proof.
  intros df s sc ec s' H. rewrite upload_games_to_database_eq in H.
  destruct (upload_try df (after_call cursor_call s)) as [[[sc1 ec1]|e] s1]
    eqn:Htry.
  2: { destruct (is_Exception e); [|discriminate].
       destruct (rollback_call (db s1)) as [[[]|e2] c2]; discriminate. }
  inversion H; subst. clear H.
  pose proof (upload_try_effect _ _ _ _ Htry)
    as (evs & Hf & _ & _ & _ & _ & Hc & Hg & _).
  assert (Hsent : sent evs = insertable_rows (iterrows df)).
  { unfold upload_try in Htry. unfold bind at 1 in Htry.
    destruct (upload_rows (iterrows df) (mkcounters 0 0 [])
                          (after_call cursor_call s))
      as [[acc|e] s2] eqn:Hloop; [|discriminate].
    apply upload_rows_sent in Hloop as (evs' & Hc' & Hs').
    unfold bind at 1 in Htry.
    destruct (commit s2) as [[[]|e] s3] eqn:Hcommit; [|discriminate].
    apply commit_effect in Hcommit
      as (_ & _ & [(_ & _ & _ & Hc3) | ((e' & Hr & _) & _)]);
      [|discriminate].
    unfold bind in Htry. rewrite print_results_printed in Htry.
    unfold ret in Htry. inversion Htry; subst.
    rewrite db_printed, Hc3, Hc', <- app_assoc in Hc.
    apply app_inv_head, app_inv_tail in Hc. subst evs'. exact Hs'. }
  exists evs.
  split.
  { simpl. unfold log_call. rewrite Hc. simpl. unfold log_call.
    rewrite <- !app_assoc. reflexivity. }
  split; [exact Hf|]. split; [exact Hsent|].
  split; [simpl; exact Hg|].
  split.
  { intros g. unfold inserted, sent. rewrite !in_flat_map.
    intros (ev & Hev & Hin). exists ev. split; [exact Hev|].
    destruct ev as [| | | g' [] | | | |]; simpl in *; tauto. }
  intros g Hin. rewrite Hsent in Hin.
  apply insertable_rows_In in Hin as (index & row & ts & Hrow & Hk & Hd).
  destruct (row_data_fields _ _ _ Hd) as (Hst & Hts). subst ts.
  split; [exact Hst|]. eauto.
Qed.

(** ** The load on a connection in good order *)

Lemma upload_row_data_fails index row acc s ts e id :
  kickoff_utc row = Ok ts ->
  row_data row ts = Raise e ->
  getitem row "nfl_game_id" = Ok id ->
  upload_row (index, row) acc s = (Ok (count_row_error index id e acc), s).
Proof.
  intros Hk Hd Hid. unfold upload_row, try_except, bind.
  rewrite (kickoff_success _ _ _ Hk). unfold lift. rewrite Hd.
  rewrite (row_data_Exception _ _ _ Hd), Hid. reflexivity.
Qed.

Lemma no_fault_next c : Forall (eq None) (faults c) -> next_fault c = None.
Proof.
  unfold next_fault. destruct (faults c); simpl; [reflexivity|].
  intros H. inversion H; subst; auto.
Qed.

Lemma no_fault_tl (l : list (option db_error)) :
  Forall (eq None) l -> Forall (eq None) (tl l).
Proof. destruct l; simpl; [auto|]. intros H. inversion H; auto. Qed.

(** The loop on a connection that is open and whose server refuses
    nothing: every row that has a tuple is inserted, every other row is
    counted as an error. *)
Lemma upload_rows_in_good_order rows :
  forall acc s,
    (forall index row,
        In (index, row) rows ->
        exists id gd gt,
          getitem row "nfl_game_id" = Ok id
          /\ getitem row "game_date" = Ok gd
          /\ getitem row "game_time_et" = Ok gt) ->
    is_connected (db s) = true ->
    Forall (eq None) (faults (db s)) ->
    let gs := insertable_rows rows in
    exists acc' s',
      upload_rows rows acc s = (Ok acc', s')
      /\ success_count acc' = success_count acc + Z.of_nat (List.length gs)
      /\ error_count acc'
         = error_count acc + Z.of_nat (List.length rows)
           - Z.of_nat (List.length gs)
      /\ (List.length gs = List.length rows ->
          errors acc' = errors acc /\ stdout s' = stdout s)
      /\ status (db s') = status (db s)
      /\ games (db s') = games (db s)
      /\ pending (db s') = pending (db s) ++ gs
      /\ calls (db s')
         = calls (db s) ++ map (fun g => EvInsert g true) gs
      /\ Forall (eq None) (faults (db s')).
Proof.
  induction rows as [|[index row] rows IH]; intros acc s Hcols Hc Hf gs.
  - exists acc, s. unfold gs. simpl. rewrite !app_nil_r.
    repeat split; auto; lia.
  - destruct (Hcols index row (or_introl eq_refl))
      as (id & gd & gt & Hid & Hgd & Hgt).
    assert (Hcols' : forall i r, In (i, r) rows ->
                     exists id gd gt,
                       getitem r "nfl_game_id" = Ok id
                       /\ getitem r "game_date" = Ok gd
                       /\ getitem r "game_time_et" = Ok gt)
      by (intros i r Hin; apply (Hcols i r); right; exact Hin).
    pose proof (insertable_rows_length rows) as Hle.
    unfold gs. rewrite insertable_rows_cons, upload_rows_cons.
    simpl snd. unfold insertable.
    destruct (kickoff_utc row) as [ts|e] eqn:Hk;
      [destruct (row_data row ts) as [g|e] eqn:Hd|].
    + (* the row is inserted *)
      rewrite (upload_row_success _ _ _ _ _ _ Hk Hd Hc (no_fault_next _ Hf)).
      set (s1 := after_call (insert_call g) s).
      assert (Hdb1 : db s1
                     = mkconn (status (db s)) (teams (db s)) (games (db s))
                              (pending (db s) ++ [g]) (tl (faults (db s)))
                              (calls (db s) ++ [EvInsert g true])).
      { unfold s1, after_call, insert_call.
        rewrite Hc, (no_fault_next _ Hf). reflexivity. }
      assert (Hc1 : is_connected (db s1) = true)
        by (rewrite Hdb1; exact Hc).
      assert (Hf1 : Forall (eq None) (faults (db s1)))
        by (rewrite Hdb1; apply no_fault_tl; exact Hf).
      destruct (IH (count_success acc) s1 Hcols' Hc1 Hf1)
        as (acc' & s' & Hrun & Hsc & Hec & Hall & Hst & Hg & Hp & Hcl & Hf').
      exists acc', s'. split; [exact Hrun|].
      rewrite Hdb1 in Hst, Hg, Hp, Hcl. simpl in *.
      rewrite Hp, Hcl, <- !app_assoc. simpl.
      repeat split; auto; try lia.
      * apply Hall. lia.
      * apply Hall. lia.
    + (* a field does not convert *)
      rewrite (upload_row_data_fails _ _ _ _ _ _ _ Hk Hd Hid).
      destruct (IH (count_row_error index id e acc) s Hcols' Hc Hf)
        as (acc' & s' & Hrun & Hsc & Hec & Hall & Hst & Hg & Hp & Hcl & Hf').
      exists acc', s'. split; [exact Hrun|]. simpl in *.
      repeat split; auto; try lia.
    + (* no timestamp *)
      rewrite (upload_row_no_timestamp _ _ _ _ _ _ _ _ Hid Hgd Hgt Hk).
      destruct (IH (count_no_timestamp index acc)
                   (printed s (kickoff_report id gd gt e)) Hcols' Hc Hf)
        as (acc' & s' & Hrun & Hsc & Hec & Hall & Hst & Hg & Hp & Hcl & Hf').
      exists acc', s'. split; [exact Hrun|]. simpl in *.
      repeat split; auto; try lia.
Qed.


(** The [try] block on a connection that is open and whose server refuses
    nothing. *)
Lemma upload_try_in_good_order df s :
  missing_columns_of df = [] ->
  is_connected (db s) = true ->
  Forall (eq None) (faults (db s)) ->
  let gs := insertable_rows (iterrows df) in
  let n := Z.of_nat (List.length gs) in
  exists s1,
    upload_try df s = (Ok (n, len df - n), s1)
    /\ games (db s1) = games (db s) ++ pending (db s) ++ gs
    /\ pending (db s1) = []
    /\ calls (db s1)
       = calls (db s) ++ map (fun g => EvInsert g true) gs ++ [EvCommit true]
    /\ status (db s1) = status (db s)
    /\ teams (db s1) = teams (db s)
    /\ (n = len df ->
        stdout s1 = stdout s ++ results_lines (mkcounters (len df) 0 [])).
Proof.
  intros Hcols Hc Hf gs n.
  assert (Hrows : forall index row,
             In (index, row) (iterrows df) ->
             exists id gd gt,
               getitem row "nfl_game_id" = Ok id
               /\ getitem row "game_date" = Ok gd
               /\ getitem row "game_time_et" = Ok gt).
  { intros index row Hin.
    destruct (validated_row_has_columns df index row "nfl_game_id" Hcols Hin)
      as (id & Hid); [simpl; tauto|].
    destruct (validated_row_has_columns df index row "game_date" Hcols Hin)
      as (gd & Hgd); [simpl; tauto|].
    destruct (validated_row_has_columns df index row "game_time_et" Hcols Hin)
      as (gt & Hgt); [simpl; tauto|].
    exists id, gd, gt. auto. }
  destruct (upload_rows_in_good_order (iterrows df) (mkcounters 0 0 []) s
              Hrows Hc Hf)
    as ([sc ec errs] & s1 & Hrun & Hsc & Hec & Hall & Hst & Hg & Hp & Hcl & Hf1).
  fold gs in Hsc, Hec, Hall, Hp, Hcl. simpl in Hsc, Hec, Hall.
  rewrite iterrows_length in Hec, Hall. fold (len df) in Hec.
  assert (Hc1 : is_connected (db s1) = true).
  { unfold is_connected in *. rewrite Hst. exact Hc. }
  assert (Ht : teams (db s1) = teams (db s)).
  { apply upload_rows_effect in Hrun as (evs & Hi & _). apply Hi. }
  unfold upload_try, bind at 1. rewrite Hrun. cbv beta iota.
  rewrite (upload_commits _ _ Hc1 (no_fault_next _ Hf1)).
  simpl success_count. simpl error_count.
  replace sc with n by (unfold n; lia).
  replace ec with (len df - n) by (unfold n; lia).
  eexists. split; [reflexivity|].
  unfold after_call, printed. simpl db. simpl stdout.
  rewrite (commit_call_ok _ Hc1 (no_fault_next _ Hf1)). simpl.
  rewrite Hg, Hp, Hcl, Hst, Ht. rewrite <- !app_assoc.
  repeat (split; [reflexivity|]).
  intros Hn.
  assert (Hlen : List.length gs = List.length (data df)).
  { unfold n, len in Hn. lia. }
  destruct (Hall Hlen) as (Herrs & Hout). subst errs. rewrite Hout.
  rewrite Hn. replace (len df - len df) with 0 by lia. reflexivity.
Qed.

(** X10. On a connection that is open and whose server refuses nothing,
    the load of a table with the required columns returns, and its
    success count is the number of rows whose timestamp derives and whose
    fields convert; the error count is the number of the other rows.  The
    tuples of those rows, in the order of the table, are appended to the
    table games by the one commit, and the calls are the cursor, their
    INSERTs, the commit and the cursor close.  When every row has a tuple
    the counts are (number of rows, 0) and the report has no error
    line. *)
Theorem upload_in_good_order_inserts_every_insertable_row :
  forall df s,
    missing_columns_of df = [] ->
    is_connected (db s) = true ->
    Forall (eq None) (faults (db s)) ->
    let gs := insertable_rows (iterrows df) in
    let n := Z.of_nat (List.length gs) in
    exists s',
      upload_games_to_database df s = (Ok (n, len df - n), s')
      /\ games (db s') = games (db s) ++ pending (db s) ++ gs
      /\ pending (db s') = []
      /\ calls (db s')
         = calls (db s) ++ [EvCursor] ++ map (fun g => EvInsert g true) gs
           ++ [EvCommit true; EvCursorClose]
      /\ status (db s') = status (db s)
      /\ (n = len df ->
          stdout s' = stdout s ++ results_lines (mkcounters (len df) 0 [])).
Proof.
  intros df s Hcols Hc Hf gs n.
  rewrite upload_games_to_database_eq.
  destruct (upload_try_in_good_order df (after_call cursor_call s)
              Hcols Hc Hf)
    as (s1 & Htry & Hg & Hp & Hcl & Hst & _ & Hout).
  fold gs in Htry, Hg, Hcl. fold n in Htry, Hout.
  rewrite Htry. eexists. split; [reflexivity|].
  simpl. unfold log_call. rewrite Hg, Hp, Hcl, Hst. simpl.
  unfold log_call. rewrite <- !app_assoc. simpl.
  repeat (split; [reflexivity|]). exact Hout.
Qed.

(** X11. The calls of [upload_games_to_database] on the connection,
    however it ends: the cursor is created first and closed last, returns
    and exceptions alike; between them come INSERTs only, at most one for
    each row, and then either the commit alone, when the function returns,
    or a rollback, preceded by the commit that failed when the exception
    came from it.  A commit that returned is never followed by a
    rollback. *)
Theorem upload_closes_its_cursor :
  forall df s r s',
    upload_games_to_database df s = (r, s') ->
    exists evs tail,
      calls (db s')
      = calls (db s) ++ [EvCursor] ++ evs ++ tail ++ [EvCursorClose]
      /\ forallb is_insert evs = true
      /\ (List.length evs <= List.length (data df))%nat
      /\ match r with
         | Ok _ => tail = [EvCommit true]
         | Raise _ =>
             exists b,
               tail = [EvRollback b] \/ tail = [EvCommit false; EvRollback b]
         end.
Proof.
  intros df s r s'. rewrite upload_games_to_database_eq.
  destruct (upload_try df (after_call cursor_call s)) as [[counts|e] s1]
    eqn:Htry;
    apply upload_try_effect in Htry as (evs & Hf & Hlen & _ & Hr).
  - destruct counts as [sc ec]. destruct Hr as (_ & _ & Hc & _).
    intros H; inversion H; subst.
    exists evs, [EvCommit true]. simpl. unfold log_call. rewrite Hc.
    simpl. unfold log_call. rewrite <- !app_assoc. simpl. auto.
  - destruct Hr as (Hx & _ & _ & Hc). rewrite Hx.
    destruct (rollback_call (db s1)) as [r2 c2] eqn:Hrb.
    apply rollback_call_effect in Hrb as (_ & _ & Hcases).
    assert (Hc2 : exists b, calls c2 = calls (db s1) ++ [EvRollback b]).
    { destruct Hcases as [(_ & _ & _ & _ & H) | (_ & _ & H)]; eauto. }
    destruct Hc2 as (b & Hc2).
    intros H.
    assert (Hs' : calls (db s') = calls c2 ++ [EvCursorClose]
                  /\ exists e', r = Raise e').
    { destruct r2 as [[]|e2]; inversion H; subst; simpl; eauto. }
    destruct Hs' as (Hcalls & e' & ->).
    destruct Hc as [Hc | Hc]; simpl in Hc; unfold log_call in Hc;
      [exists evs, [EvRollback b] | exists evs, [EvCommit false; EvRollback b]];
      rewrite Hcalls, Hc2, Hc, <- !app_assoc; simpl;
      (split; [reflexivity | split; [exact Hf | split; [exact Hlen | eauto]]]).
Qed.

(** ** A table without the column nfl_game_id *)

Lemma upload_row_without_game_id index row acc s :
  index_of "nfl_game_id" (labels row) = None ->
  upload_row (index, row) acc s = (Raise (KeyError "nfl_game_id"), s).
Proof.
  intros Hcol.
  assert (Hg : getitem row "nfl_game_id" = Raise (KeyError "nfl_game_id")).
  { unfold getitem. rewrite Hcol. reflexivity. }
  unfold upload_row, try_except. unfold bind at 1.
  destruct (kickoff_utc row) as [ts|e0] eqn:Hk.
  - rewrite (kickoff_success _ _ s Hk). unfold bind at 1, lift at 1.
    assert (Hd : exists e, row_data row ts = Raise e).
    { unfold row_data.
      destruct (obind (getitem row "home_team_id") py_int); simpl; [|eauto].
      destruct (obind (getitem row "away_team_id") py_int); simpl; [|eauto].
      rewrite Hg. simpl. eauto. }
    destruct Hd as (e & Hd). rewrite Hd.
    rewrite (row_data_Exception _ _ _ Hd), upload_row_handler, Hg.
    reflexivity.
  - assert (Hc : calculate_kickoff_timestamp row s
                 = (Raise (KeyError "nfl_game_id"), s)).
    { unfold calculate_kickoff_timestamp, try_except, bind, lift.
      rewrite Hk, (kickoff_utc_Exception _ _ Hk), Hg. reflexivity. }
    rewrite Hc. simpl is_Exception. cbv iota.
    rewrite upload_row_handler, Hg. reflexivity.
Qed.

(** X12. [upload_games_to_database] relies on the column nfl_game_id: on
    a table with rows but without that column, the first row ends the loop
    with the [KeyError] of the column, raised by the handler that wants to
    name the row.  No INSERT and no commit is sent; the rollback follows,
    nothing becomes durable, and the function raises: the [KeyError],
    after printing the failed transaction, when the rollback returns. *)
Theorem upload_without_game_id_column_aborts :
  forall df s,
    ~ In "nfl_game_id" (columns df) ->
    data df <> [] ->
    upload_try df (after_call cursor_call s)
    = (Raise (KeyError "nfl_game_id"), after_call cursor_call s)
    /\ exists r s' b,
         upload_games_to_database df s = (r, s')
         /\ (exists e, r = Raise e)
         /\ calls (db s')
            = calls (db s) ++ [EvCursor; EvRollback b; EvCursorClose]
         /\ games (db s') = games (db s)
         /\ (b = true ->
             r = Raise (KeyError "nfl_game_id")
             /\ pending (db s') = []
             /\ stdout s'
                = stdout s ++ [transaction_failed (KeyError "nfl_game_id")]).
Proof.
  intros df s Hcol Hdata.
  assert (Hidx : index_of "nfl_game_id" (columns df) = None).
  { destruct (index_of "nfl_game_id" (columns df)) eqn:H; [|reflexivity].
    exfalso. apply Hcol, index_of_In. congruence. }
  assert (Htry : upload_try df (after_call cursor_call s)
                 = (Raise (KeyError "nfl_game_id"), after_call cursor_call s)).
  { unfold upload_try, iterrows. destruct (data df) as [|r0 rest]; [congruence|].
    simpl map. simpl enumerate_from. unfold bind at 1.
    rewrite upload_rows_cons, upload_row_without_game_id by exact Hidx.
    reflexivity. }
  split; [exact Htry|].
  rewrite upload_games_to_database_eq, Htry. simpl is_Exception. cbv iota.
  destruct (rollback_call (db (after_call cursor_call s))) as [r2 c2] eqn:Hrb.
  apply rollback_call_effect in Hrb as (Hg & _ & Hcases).
  destruct Hcases as [(-> & _ & _ & Hp & Hc) | ((e2 & -> & _) & Hp & Hc)].
  - eexists _, _, true. split; [reflexivity|]. simpl.
    unfold log_call. rewrite Hc, Hg, Hp. simpl. unfold log_call.
    rewrite <- !app_assoc. simpl. repeat split; eauto.
  - eexists _, _, false. split; [reflexivity|]. simpl.
    unfold log_call. rewrite Hc, Hg. simpl. unfold log_call.
    rewrite <- !app_assoc. simpl.
    repeat split; eauto; discriminate.
Qed.

(** ** Fields no validation looks at *)

(** X13. The columns season_year and week are converted for the first
    time in the load.  For a row whose timestamp derives and whose team
    ids convert, a season_year or a week that [int] rejects makes the row
    one error more, recorded under its row number and game id with the
    message of the conversion; no INSERT is sent for the row, nothing is
    printed, and the loop goes on with the next row. *)
Theorem unconvertible_week_fails_row_in_load :
  forall index row rest acc s ts h a id c e,
    kickoff_utc row = Ok ts ->
    obind (getitem row "home_team_id") py_int = Ok h ->
    obind (getitem row "away_team_id") py_int = Ok a ->
    getitem row "nfl_game_id" = Ok id ->
    (getitem row "season_year" = Ok c /\ py_int c = Raise e)
    \/ ((exists y, obind (getitem row "season_year") py_int = Ok y)
        /\ getitem row "week" = Ok c /\ py_int c = Raise e) ->
    row_data row ts = Raise e
    /\ insertable row = None
    /\ upload_row (index, row) acc s
       = (Ok (count_row_error index id e acc), s)
    /\ upload_rows ((index, row) :: rest) acc s
       = upload_rows rest (count_row_error index id e acc) s.
Proof.
  intros index row rest acc s ts h a id c e Hk Hh Ha Hid Hbad.
  assert (Hd : row_data row ts = Raise e).
  { unfold row_data. rewrite Hh. simpl obind at 1. rewrite Ha.
    simpl obind at 1. rewrite Hid. simpl obind at 1.
    destruct Hbad as [(Hc & Hi) | ((y & Hy) & Hc & Hi)].
    - rewrite Hc. simpl. rewrite Hi. reflexivity.
    - rewrite Hy. simpl obind at 1. rewrite Hc. simpl. rewrite Hi.
      reflexivity. }
  pose proof (upload_row_data_fails index _ acc s _ _ _ Hk Hd Hid) as Hrow.
  split; [exact Hd|].
  split; [unfold insertable; rewrite Hk, Hd; reflexivity|].
  split; [exact Hrow|].
  rewrite upload_rows_cons, Hrow. reflexivity.
Qed.


(** ** The whole of main *)

(** The [try] of [main], phase by phase. *)
Lemma main_try_eq env s :
  let path := excel_file_path env in
  let started := [[Lit "🏈 Starting NFL Games Upload"];
                  [Lit "📁 Reading file: "; Lit path]] in
  main_try env path s
  = if path_exists env path then
      match read_excel env path with
      | inr (cls, msg) => (Raise (Exception cls msg), printed s started)
      | inl df =>
          let found := started ++ [[Lit "📋 Found "; Num (len df);
                                    Lit " games in Excel file"]] in
          match missing_columns_of df with
          | [] =>
              match column df "game_type" with
              | Raise e =>
                  (Raise e,
                   printed s (found ++
                              [[Lit "✓ Excel file has all required columns"]]))
              | Ok game_type =>
                  match invalid_types_of game_type with
                  | [] =>
                      match connect_to_database
                              (printed s (validated_lines env df)) with
                      | (Raise e, s1) => (Raise e, s1)
                      | (Ok _, s1) =>
                          match get_team_lookup s1 with
                          | (Raise e, s2) => (Raise e, s2)
                          | (Ok team_lookup, s2) =>
                              match validate_teams_exist df team_lookup s2 with
                              | (Raise e, s3) => (Raise e, s3)
                              | (Ok _, s3) =>
                                  match upload_games_to_database df s3 with
                                  | (Raise e, s4) => (Raise e, s4)
                                  | (Ok (sc, ec), s4) =>
                                      (close ;;;
                                       print [Lit "✓ Database connection closed"] ;;;
                                       print [Lit newline; Lit "🎯 Final Summary:"] ;;;
                                       print [Lit "   Total games processed: "; Num (len df)] ;;;
                                       print [Lit "   Successfully uploaded: "; Num sc] ;;;
                                       print [Lit "   Errors: "; Num ec] ;;;
                                       if ec =? 0 then
                                         print [Lit "🎉 All games uploaded successfully!"]
                                       else
                                         print [Lit "⚠️  Upload completed with some errors. Please review the error details above."]) s4
                                  end
                              end
                          end
                      end
                  | invalid =>
                      (Raise (ValueError
                                [Lit "Invalid game_type values: "; Vals invalid;
                                 Lit ". Must be one of: "; Strs valid_types]),
                       printed s (found ++
                                  [[Lit "✓ Excel file has all required columns"]]))
                  end
              end
          | missing =>
              (Raise (ValueError [Lit "Missing required columns: ";
                                  Strs missing]),
               printed s found)
          end
      end
    else
      (Raise (SystemExit 1), printed s [[Lit "❌ File not found: "; Lit path]]).
Proof.
  intros path started. unfold main_try. fold path.
  destruct (path_exists env path) eqn:Hfile; cbv [negb]; [|reflexivity].
  cbv iota. unfold bind at 1, ret at 1. cbv beta iota.
  unfold bind at 1. rewrite print_printed. cbv beta iota.
  unfold bind at 1. rewrite print_printed, printed_printed. cbv beta iota.
  simpl app. fold started.
  unfold bind at 1, pd_read_excel.
  destruct (read_excel env path) as [df|[cls msg]] eqn:Hread; [|reflexivity].
  unfold ret at 1. cbv beta iota zeta.
  unfold bind at 1. rewrite print_printed, printed_printed. cbv beta iota.
  unfold bind at 1. rewrite validate_excel_columns_eq.
  destruct (missing_columns_of df) as [|col missing] eqn:Hcols; [|reflexivity].
  rewrite printed_printed. cbv beta iota.
  unfold bind at 1. rewrite validate_game_types_eq.
  destruct (column df "game_type") as [game_type|e] eqn:Hcol; [|reflexivity].
  destruct (invalid_types_of game_type) as [|c invalid] eqn:Htypes;
    [|reflexivity].
  rewrite printed_printed. cbv beta iota.
  change (printed s _) with (printed s (validated_lines env df)).
  unfold bind at 1.
  destruct (connect_to_database (printed s (validated_lines env df)))
    as [[[]|e] s1]; [|reflexivity].
  unfold bind at 1.
  destruct (get_team_lookup s1) as [[team_lookup|e] s2]; [|reflexivity].
  unfold bind at 1.
  destruct (validate_teams_exist df team_lookup s2) as [[b|e] s3];
    [|reflexivity].
  unfold bind at 1.
  destruct (upload_games_to_database df s3) as [[[sc ec]|e] s4]; reflexivity.
Qed.

(** [main] around its [try]: the handler turns an [Exception] into the
    report of a failed upload and [sys.exit(1)]. *)
Lemma main_eq env s :
  Z.of_nat (List.length (argv env)) = 2 ->
  main env s
  = match main_try env (excel_file_path env) s with
    | (Raise (Exception cls msg), s') =>
        (Raise (SystemExit 1), printed s' [upload_failed (Exception cls msg)])
    | r => r
    end.
Proof.
  intros Hargc. unfold main. rewrite Hargc.
  change (negb (2 =? 2)) with false. cbv iota zeta.
  fold (excel_file_path env). unfold try_except.
  destruct (main_try env (excel_file_path env) s) as [[[]|[code|cls msg]] s'];
    reflexivity.
Qed.


Lemma select_after_connect_refused s lines f :
  fault_at s 0 = None ->
  fault_at s 1 = Some f ->
  select_call
    (snd (cursor_call (db (after_call connect_call (printed s lines)))))
  = (Raise (raise_db f),
     mkconn Connected (teams (db s)) (games (db s)) []
            (tl (tl (faults (db s))))
            (calls (db s) ++ [EvConnect true; EvCursor; EvSelectTeams false])).
Proof.
  unfold fault_at, after_call, printed, connect_call, cursor_call,
    select_call, next_fault, is_connected. simpl.
  destruct (faults (db s)) as [|[f0|] [|[f1|] fl]]; simpl;
    intros H0 H1; try discriminate; inversion H1; unfold log_call; simpl;
    rewrite <- !app_assoc; reflexivity.
Qed.

Lemma looked_up_db env df s :
  fault_at s 0 = None ->
  fault_at s 1 = None ->
  db (looked_up env df s)
  = mkconn Connected (teams (db s)) (games (db s)) []
           (tl (tl (faults (db s))))
           (calls (db s)
            ++ [EvConnect true; EvCursor; EvSelectTeams true; EvCursorClose]).
Proof.
  unfold fault_at, looked_up, after_call, printed, connect_call, cursor_call,
    select_call, cursor_close_call, next_fault, is_connected. simpl.
  destruct (faults (db s)) as [|[f0|] [|[f1|] fl]]; simpl;
    intros H0 H1; try discriminate; unfold log_call; simpl;
    rewrite <- !app_assoc; reflexivity.
Qed.


(** X15. When the table is accepted and the server refuses the connection,
    [connect_to_database] prints that the connection failed and raises the
    error of the driver again, and [main] prints the report of a failed
    upload with the same message and exits with [SystemExit(1)]: the error
    is reported twice, after one attempt to connect and no other call.
    When the server accepts the connection and refuses the query for the
    teams, [main] reports the failed upload once and exits with
    [SystemExit(1)]; the query is the last call: the connection stays
    open. *)
Theorem main_reports_server_refusal :
  forall env s df f,
    table_accepted env df ->
    (fault_at s 0 = Some f ->
     main env s
     = (Raise (SystemExit 1),
        printed (after_call connect_call s)
          (validated_lines env df
           ++ [[Lit "❌ Database connection failed: "; Lit (err_text f)];
               upload_failed (raise_db f)]))
     /\ calls (db (snd (main env s))) = calls (db s) ++ [EvConnect false]
     /\ status (db (snd (main env s))) = status (db s))
    /\ (fault_at s 0 = None -> fault_at s 1 = Some f ->
        exists s',
          main env s = (Raise (SystemExit 1), s')
          /\ stdout s'
             = stdout s ++ validated_lines env df
               ++ [[Lit "✓ Connected to database: "; Lit "pools"];
                   upload_failed (raise_db f)]
          /\ calls (db s')
             = calls (db s) ++ [EvConnect true; EvCursor; EvSelectTeams false]
          /\ status (db s') = Connected).
Proof.
  intros env s df f (Hargc & Hfile & Hread & Hcols & gt & Hcol & Htypes).
  assert (Hmain : main env s
                  = match connect_to_database
                            (printed s (validated_lines env df)) with
                    | (Raise e, s1) =>
                        match e with
                        | Exception cls msg =>
                            (Raise (SystemExit 1),
                             printed s1 [upload_failed (Exception cls msg)])
                        | _ => (Raise e, s1)
                        end
                    | (Ok _, s1) =>
                        match get_team_lookup s1 with
                        | (Raise (Exception cls msg), s2) =>
                            (Raise (SystemExit 1),
                             printed s2 [upload_failed (Exception cls msg)])
                        | _ => main env s
                        end
                    end).
  { rewrite (main_eq _ _ Hargc), main_try_eq. cbv zeta.
    rewrite Hfile, Hread, Hcols, Hcol, Htypes.
    destruct (connect_to_database (printed s (validated_lines env df)))
      as [[[]|[code|cls msg]] s1]; try reflexivity.
    destruct (get_team_lookup s1) as [[tl|[code|cls msg]] s2]; reflexivity. }
  split.
  - intros H0.
    assert (Heq : main env s
                  = (Raise (SystemExit 1),
                     printed (after_call connect_call s)
                       (validated_lines env df
                        ++ [[Lit "❌ Database connection failed: ";
                             Lit (err_text f)];
                            upload_failed (raise_db f)]))).
    { rewrite Hmain, connect_to_database_eq, db_printed, next_fault_at, H0.
      unfold raise_db. rewrite printed_printed.
      unfold printed, after_call. simpl. rewrite <- app_assoc. reflexivity. }
    split; [exact Heq|]. rewrite Heq. simpl.
    unfold connect_call. rewrite next_fault_at, H0. simpl. auto.
  - intros H0 H1. rewrite Hmain.
    rewrite connect_to_database_eq, db_printed, next_fault_at, H0.
    rewrite get_team_lookup_eq, db_printed.
    rewrite (select_after_connect_refused _ _ _ H0 H1).
    unfold raise_db. eexists. split; [reflexivity|].
    simpl. rewrite <- !app_assoc. simpl. auto.
Qed.

(** X16. [main] ends in one of two ways: it returns, or it raises
    [SystemExit(1)].  No other exception leaves it, whatever the command
    line, the file, the table and the server. *)
Theorem main_returns_or_exits_with_1 :
  forall env s,
    fst (main env s) = Ok tt \/ fst (main env s) = Raise (SystemExit 1).
Proof.
  intros env s.
  destruct (reaches_validation_decided env s) as [(df & Hready) | Hnot].
  - rewrite (main_after_validation _ _ _ Hready).
    destruct (validate_teams_exist df (team_lookup_from (db s))
                                   (looked_up env df s)) as [[b|e] s4];
      [|right; reflexivity].
    destruct (upload_games_to_database df s4) as [[[sc ec]|e] s5];
      [left | right]; reflexivity.
  - destruct (main_stops_early _ _ Hnot) as (s' & ->). right. reflexivity.
Qed.

(** X17. Unless the run gets as far as the load (one argument, a file that
    reads as a table with the required columns and valid game types, a
    server that accepts the connection and answers the query for the
    teams, team references that all pass), [main] exits with
    [SystemExit(1)] and has written nothing: the table games is as before,
    and no INSERT, commit or rollback is among the calls made. *)
Theorem no_write_unless_ready_to_load :
  forall env s,
    ~ ready_to_load env s ->
    exists s' evs,
      main env s = (Raise (SystemExit 1), s')
      /\ games (db s') = games (db s)
      /\ calls (db s') = calls (db s) ++ evs
      /\ forallb (fun ev => negb (is_write ev)) evs = true.
Proof.
  intros env s Hnot.
  destruct (reaches_validation_decided env s) as [(df & Hready) | Hnone].
  { pose proof Hready as [_ _ _ _ _ H0 H1].
    rewrite (main_after_validation _ _ _ Hready).
    destruct (validate_teams_exist df (team_lookup_from (db s))
                                   (looked_up env df s)) as [[b|e] s4] eqn:Hv;
      pose proof (validate_teams_exist_effect _ _ _ _ _ Hv) as (Hdb & Hr).
    - exfalso. apply Hnot. exists df, s4. subst b. auto.
    - exists (printed s4 [upload_failed e]),
             [EvConnect true; EvCursor; EvSelectTeams true; EvCursorClose].
      rewrite db_printed, Hdb, (looked_up_db _ _ _ H0 H1). simpl. auto. }
  assert (Hquiet : forall lines,
             exists s' evs,
               (@Raise unit (SystemExit 1), printed s lines)
               = (Raise (SystemExit 1), s')
               /\ games (db s') = games (db s)
               /\ calls (db s') = calls (db s) ++ evs
               /\ forallb (fun ev => negb (is_write ev)) evs = true).
  { intros lines. exists (printed s lines), []. simpl.
    rewrite app_nil_r. auto. }
  destruct (Z.eq_dec (Z.of_nat (List.length (argv env))) 2) as [Hargc|Hargc].
  2: { unfold main. destruct (Z.eqb_spec (Z.of_nat (List.length (argv env))) 2);
         [contradiction|].
       cbv [negb]. unfold bind. rewrite !print_printed, printed_printed.
       apply Hquiet. }
  rewrite (main_eq _ _ Hargc), main_try_eq. cbv zeta.
  destruct (path_exists env (excel_file_path env)) eqn:Hfile;
    [|apply Hquiet].
  destruct (read_excel env (excel_file_path env)) as [df|[cls msg]] eqn:Hread;
    [|rewrite printed_printed; apply Hquiet].
  destruct (missing_columns_of df) as [|col missing] eqn:Hcols;
    [|unfold ValueError; rewrite printed_printed; apply Hquiet].
  destruct (column df "game_type") as [game_type|e] eqn:Hcol.
  2: { unfold column in Hcol.
       destruct (index_of "game_type" (columns df)); inversion Hcol.
       unfold KeyError. rewrite printed_printed. apply Hquiet. }
  destruct (invalid_types_of game_type) as [|c invalid] eqn:Htypes;
    [|unfold ValueError; rewrite printed_printed; apply Hquiet].
  rewrite connect_to_database_eq, db_printed, next_fault_at.
  destruct (fault_at s 0) as [f0|] eqn:H0.
  { unfold raise_db.
    eexists _, [EvConnect false]. split; [reflexivity|]. simpl.
    unfold connect_call. rewrite next_fault_at, H0. simpl. auto. }
  rewrite get_team_lookup_eq, db_printed.
  destruct (fault_at s 1) as [f1|] eqn:H1.
  { rewrite (select_after_connect_refused _ _ _ H0 H1). unfold raise_db.
    eexists _, [EvConnect true; EvCursor; EvSelectTeams false].
    split; [reflexivity|]. simpl. auto. }
  exfalso. apply (Hnone df). constructor; eauto.
Qed.

(** X18. The whole run on a server that refuses nothing.  When the table
    reaches the referential validation and passes it, [main] returns, so
    the exit status is 0.  The table games has gained the tuples of the
    rows whose timestamp derives and whose fields convert, in the order
    of the table, and nothing else; the calls are the connection, the
    query for the teams, the INSERTs of these rows, one commit and the
    goodbye, and the connection is closed.  The summary printed last
    gives the number of these rows as uploaded and the number of the
    other rows as errors. *)
Theorem main_loads_validated_table :
  forall env s df s4,
    reaches_validation env s df ->
    validate_teams_exist df (team_lookup_from (db s)) (looked_up env df s)
    = (Ok true, s4) ->
    Forall (eq None) (faults (db s)) ->
    let gs := insertable_rows (iterrows df) in
    let n := Z.of_nat (List.length gs) in
    exists s',
      main env s = (Ok tt, s')
      /\ exit_status (fst (main env s)) = 0
      /\ games (db s') = games (db s) ++ gs
      /\ pending (db s') = []
      /\ status (db s') = Closed
      /\ calls (db s')
         = calls (db s)
           ++ [EvConnect true; EvCursor; EvSelectTeams true; EvCursorClose;
               EvCursor]
           ++ map (fun g => EvInsert g true) gs
           ++ [EvCommit true; EvCursorClose; EvClose]
      /\ exists before,
           stdout s' = before ++ summary_lines df n (len df - n).
Proof.
  intros env s df s4 Hready Hv Hf gs n.
  pose proof Hready as [_ _ _ Hcols _ H0 H1].
  pose proof (validate_teams_exist_effect _ _ _ _ _ Hv) as (Hdb4 & _).
  rewrite (looked_up_db _ _ _ H0 H1) in Hdb4.
  set (s0 := after_call cursor_call s4).
  assert (Hc0 : is_connected (db s0) = true).
  { unfold s0, after_call, cursor_call, is_connected. simpl.
    rewrite Hdb4. reflexivity. }
  assert (Hf0 : Forall (eq None) (faults (db s0))).
  { unfold s0, after_call, cursor_call. simpl. rewrite Hdb4. simpl.
    apply no_fault_tl, no_fault_tl, Hf. }
  destruct (upload_try_in_good_order df s0 Hcols Hc0 Hf0)
    as (s1 & Htry & Hg & Hp & Hcl & Hst & _ & _).
  fold gs in Htry, Hg, Hcl. fold n in Htry.
  assert (Hup : upload_games_to_database df s4
                = (Ok (n, len df - n), after_call cursor_close_call s1)).
  { rewrite upload_games_to_database_eq. fold s0. rewrite Htry.
    reflexivity. }
  assert (Hmain : main env s
                  = (Ok tt,
                     printed (after_call close_call
                                (after_call cursor_close_call s1))
                             (summary_lines df n (len df - n)))).
  { rewrite (main_after_validation _ _ _ Hready), Hv, Hup. reflexivity. }
  rewrite Hmain. eexists. split; [reflexivity|].
  split; [reflexivity|].
  assert (Hst1 : status (db s1) = Connected).
  { rewrite Hst. unfold s0, after_call, cursor_call. simpl.
    rewrite Hdb4. reflexivity. }
  unfold printed, after_call, close_call, cursor_close_call, is_connected.
  simpl. rewrite Hst1. simpl. unfold log_call. simpl.
  rewrite Hg, Hcl. unfold s0, after_call, cursor_call. simpl.
  rewrite Hdb4. simpl. unfold log_call. simpl.
  rewrite <- !app_assoc. simpl.
  repeat (split; [reflexivity|]). eauto.
Qed.


(** ** The report of the load *)

Lemma calculate_kickoff_timestamp_stdout row s r s' :
  calculate_kickoff_timestamp row s = (r, s') ->
  exists lines, stdout s' = stdout s ++ lines.
Proof.
  unfold calculate_kickoff_timestamp, try_except, bind, lift, ret, print.
  destruct (kickoff_utc row) as [ts|e] eqn:Hk; simpl.
  - intros H; inversion H; subst. exists []. rewrite app_nil_r. reflexivity.
  - rewrite (kickoff_utc_Exception _ _ Hk).
    destruct (getitem row "nfl_game_id"); simpl;
      [| intros H; inversion H; subst; exists []; rewrite app_nil_r;
         reflexivity].
    destruct (getitem row "game_date"); simpl;
      [| intros H; inversion H; subst; eexists; reflexivity].
    destruct (getitem row "game_time_et"); simpl;
      intros H; inversion H; subst; simpl; rewrite <- ?app_assoc;
      eexists; reflexivity.
Qed.

Lemma upload_row_stdout ir acc s r s' :
  upload_row ir acc s = (r, s') ->
  exists lines, stdout s' = stdout s ++ lines.
Proof.
  destruct ir as [index row]. unfold upload_row, try_except.
  unfold bind at 1.
  destruct (calculate_kickoff_timestamp row s) as [[[ts|]|e] s1] eqn:Hk;
    apply calculate_kickoff_timestamp_stdout in Hk as (l1 & Hl1).
  - unfold bind at 1, lift at 1.
    destruct (row_data row ts) as [g|e] eqn:Hd.
    + unfold bind at 1.
      destruct (execute_insert g s1) as [[[]|e] s2] eqn:He;
        apply execute_insert_effect in He as (Hout & _).
      * unfold ret. intros H; inversion H; subst. exists l1. congruence.
      * destruct (is_Exception e);
          [rewrite upload_row_handler; destruct (getitem row "nfl_game_id")|];
          intros H; inversion H; subst; exists l1; congruence.
    + destruct (is_Exception e);
        [rewrite upload_row_handler; destruct (getitem row "nfl_game_id")|];
        intros H; inversion H; subst; exists l1; congruence.
  - unfold ret. intros H; inversion H; subst. exists l1. exact Hl1.
  - destruct (is_Exception e);
      [rewrite upload_row_handler; destruct (getitem row "nfl_game_id")|];
      intros H; inversion H; subst; exists l1; congruence.
Qed.

Lemma upload_rows_stdout rows :
  forall acc s r s',
    upload_rows rows acc s = (r, s') ->
    exists lines, stdout s' = stdout s ++ lines.
Proof.
  induction rows as [|ir rows IH]; intros acc s r s' H.
  - inversion H; subst. exists []. rewrite app_nil_r. reflexivity.
  - rewrite upload_rows_cons in H.
    destruct (upload_row ir acc s) as [[acc1|e] s1] eqn:Hrow;
      apply upload_row_stdout in Hrow as (l1 & Hl1).
    + apply IH in H as (l2 & Hl2). exists (l1 ++ l2).
      rewrite Hl2, Hl1, app_assoc. reflexivity.
    + inversion H; subst. exists l1. exact Hl1.
Qed.

(** X19. The report [upload_games_to_database] prints when it returns
    comes last, after what the loop printed about the kickoff of rows.
    The number of errors it returns is the number of entries it has
    recorded, one for each failed row.  With no error the report has two
    lines; otherwise it gives the error count and the entries, all of them
    up to ten, and for more than ten the first ten and one line more with
    the number of the others, so that the report never has more than
    fifteen lines. *)
Theorem upload_report_counts_recorded_errors :
  forall df s sc ec s',
    upload_games_to_database df s = (Ok (sc, ec), s') ->
    exists reports errors,
      let shown := results_lines (mkcounters sc ec errors) in
      stdout s' = stdout s ++ reports ++ shown
      /\ Z.of_nat (List.length errors) = ec
      /\ (ec = 0 ->
          shown
          = [[Lit newline; Lit "📊 Upload Results:"];
             [Lit "✅ Successfully uploaded: "; Num sc; Lit " games"]])
      /\ (0 < ec <= 10 ->
          shown
          = [[Lit newline; Lit "📊 Upload Results:"];
             [Lit "✅ Successfully uploaded: "; Num sc; Lit " games"];
             [Lit "❌ Errors encountered: "; Num ec; Lit " games"];
             [Lit newline; Lit "Error details:"]]
            ++ map (app [Lit "  • "]) errors)
      /\ (10 < ec ->
          shown
          = [[Lit newline; Lit "📊 Upload Results:"];
             [Lit "✅ Successfully uploaded: "; Num sc; Lit " games"];
             [Lit "❌ Errors encountered: "; Num ec; Lit " games"];
             [Lit newline; Lit "Error details:"]]
            ++ map (app [Lit "  • "]) (firstn 10 errors)
            ++ [[Lit "  "; Lit "... and "; Num (ec - 10);
                 Lit " more errors"]])
      /\ (List.length shown <= 15)%nat.
Proof.
  intros df s sc ec s' H. rewrite upload_games_to_database_eq in H.
  destruct (upload_try df (after_call cursor_call s)) as [[[sc1 ec1]|e] s1]
    eqn:Htry.
  2: { destruct (is_Exception e); [|discriminate].
       destruct (rollback_call (db s1)) as [[[]|e2] c2]; discriminate. }
  inversion H; subst. clear H.
  unfold upload_try in Htry. unfold bind at 1 in Htry.
  destruct (upload_rows (iterrows df) (mkcounters 0 0 [])
                        (after_call cursor_call s))
    as [[[sc0 ec0 errs]|e] s2] eqn:Hloop; [|discriminate].
  pose proof (upload_rows_stdout _ _ _ _ _ Hloop) as (reports & Hout).
  apply upload_rows_effect in Hloop as (evs & _ & _ & _ & _ & Hlen).
  simpl in Hlen, Hout.
  unfold bind at 1 in Htry.
  destruct (commit s2) as [[[]|e] s3] eqn:Hcommit; [|discriminate].
  apply commit_effect in Hcommit as (Hout3 & _).
  unfold bind in Htry. rewrite print_results_printed in Htry.
  unfold ret in Htry. simpl in Htry. inversion Htry; subst. clear Htry.
  exists reports, errs. cbv zeta.
  assert (Hec : Z.of_nat (List.length errs) = ec) by lia.
  split; [simpl; rewrite Hout3, Hout, <- app_assoc; reflexivity|].
  split; [exact Hec|].
  unfold results_lines, shown_lines. simpl success_count.
  simpl error_count. simpl errors. rewrite Hec.
  split.
  { intros ->. reflexivity. }
  split.
  { intros Hrange.
    destruct (Z.ltb_spec 0 ec); [|lia]. destruct (Z.ltb_spec 10 ec); [lia|].
    rewrite firstn_all2 by lia. rewrite app_nil_r. reflexivity. }
  split.
  { intros Hmany.
    destruct (Z.ltb_spec 0 ec); [|lia]. destruct (Z.ltb_spec 10 ec); [|lia].
    reflexivity. }
  destruct (Z.ltb_spec 0 ec); [|simpl; lia].
  rewrite !length_app, length_map, length_firstn.
  pose proof (Nat.le_min_l 10 (List.length errs)) as Hmin.
  set (m := Nat.min 10 (List.length errs)) in *. clearbody m.
  destruct (Z.ltb_spec 10 ec); simpl; lia.
Qed.

(** ** References to teams that are not active *)

Lemma inactive_id_not_looked_up c id :
  (forall tm, In tm (teams c) -> team_id tm = id -> active tm = false) ->
  Dict.get Z.eqb (team_id_lookup_of (team_lookup_from c)) id = None.
Proof.
  intros Hinactive.
  destruct (Dict.get Z.eqb (team_id_lookup_of (team_lookup_from c)) id)
    as [abbr|] eqn:Hget; [|reflexivity].
  change (team_lookup_from c) with (team_lookup_of (active_teams c)) in Hget.
  apply inverted_lookup_sound, active_teams_In in Hget
    as (tm & Hin & Hact & Hid & _).
  rewrite (Hinactive tm Hin Hid) in Hact. discriminate.
Qed.

(** X20. Only active teams pass the referential validation.  On a table
    whose team ids all convert, a row whose home id, or away id, is the id
    of no active team of the directory (an unknown id, or the id of teams
    that are not active) is reported as not found in the database: the
    validation raises, with the entry of that side among its errors and
    the number of all entries in its message. *)
Theorem inactive_team_reference_is_rejected :
  forall df c ts index t s,
    teams_of_rows (iterrows df) = Ok ts ->
    In (index, t) ts ->
    let problems :=
      all_problems (team_id_lookup_of (team_lookup_from c)) ts in
    let rejected :=
      validate_teams_exist df (team_lookup_from c) s
      = (Raise (team_validation_error (List.length problems)),
         printed s ([Lit "❌ Team validation errors:"]
                    :: shown_lines "   " "   " (map problem_entry problems)))
    in
    ((forall tm, In tm (teams c) -> team_id tm = home_id t ->
                 active tm = false) ->
     In (NotFound index "Home" (home_id t)) problems /\ rejected)
    /\ ((forall tm, In tm (teams c) -> team_id tm = away_id t ->
                    active tm = false) ->
        In (NotFound index "Away" (away_id t)) problems /\ rejected).
Proof.
  intros df c ts index t s Hts Hin problems rejected.
  set (lk := team_id_lookup_of (team_lookup_from c)) in *.
  assert (Hrej : problems <> [] -> rejected).
  { intros Hne. unfold rejected. rewrite validate_teams_exist_eq. fold lk.
    rewrite (check_rows_problems lk _ _ [] Hts). simpl app.
    fold problems. destruct problems as [|p ps]; [congruence|].
    simpl map. rewrite !length_cons, length_map. reflexivity. }
  assert (Hrow : forall p, In p (row_problems lk (index, t)) ->
                           In p problems).
  { intros p Hp. unfold problems, all_problems. apply in_flat_map. eauto. }
  split; intros Hinactive;
    pose proof (inactive_id_not_looked_up c _ Hinactive) as Hnone;
    fold lk in Hnone.
  - assert (Hp : In (NotFound index "Home" (home_id t)) problems).
    { apply Hrow. unfold row_problems, side_problems. simpl.
      rewrite Hnone. simpl. auto. }
    split; [exact Hp|]. apply Hrej. intros Hnil. rewrite Hnil in Hp.
    contradiction.
  - assert (Hp : In (NotFound index "Away" (away_id t)) problems).
    { apply Hrow. unfold row_problems, side_problems. simpl.
      rewrite Hnone. apply in_or_app. right. simpl. auto. }
    split; [exact Hp|]. apply Hrej. intros Hnil. rewrite Hnil in Hp.
    contradiction.
Qed.


(** ** What the validations leave to the load *)

Lemma teams_of_rows_In rows :
  forall ts index row,
    teams_of_rows rows = Ok ts ->
    In (index, row) rows ->
    exists t, teams_of_row row = Ok t.
Proof.
  induction rows as [|[i r] rows IH]; intros ts index row H Hin;
    [contradiction|].
  simpl in H. destruct (teams_of_row r) as [t|] eqn:Ht; [|discriminate].
  simpl in H. destruct (teams_of_rows rows) as [ts'|] eqn:Hts; [|discriminate].
  destruct Hin as [Heq | Hin]; [inversion Heq; subst; eauto|].
  eapply IH; eauto.
Qed.

(** X21. After the validations, what can keep a row out of the table is
    its timestamp and its two numbers only.  For a row of a table that
    has the required columns and whose team ids all convert (as they do
    when [validate_teams_exist] returns), the load builds a tuple unless
    the kickoff timestamp cannot be derived or [int] rejects the
    season_year or the week; the team ids convert again, and the other
    fields are taken as they are. *)
Theorem validated_row_fails_only_on_timestamp_or_numbers :
  forall df ts index row,
    missing_columns_of df = [] ->
    teams_of_rows (iterrows df) = Ok ts ->
    In (index, row) (iterrows df) ->
    (insertable row = None
     <-> (exists e, kickoff_utc row = Raise e)
         \/ (exists e, obind (getitem row "season_year") py_int = Raise e)
         \/ (exists e, obind (getitem row "week") py_int = Raise e))
    /\ (forall g,
           insertable row = Some g ->
           obind (getitem row "home_team_id") py_int = Ok (g_home_team_id g)
           /\ obind (getitem row "away_team_id") py_int
              = Ok (g_away_team_id g)
           /\ getitem row "nfl_game_id" = Ok (g_nfl_game_id g)
           /\ getitem row "game_type" = Ok (g_game_type g)
           /\ kickoff_utc row = Ok (g_kickoff_timestamp g)
           /\ g_status g = "scheduled").
Proof.
  intros df ts index row Hcols Hts Hin.
  destruct (teams_of_rows_In _ _ _ _ Hts Hin) as (t & Ht).
  unfold teams_of_row in Ht.
  apply obind_Ok in Ht as (h & Hh & Ht).
  apply obind_Ok in Ht as (ha & _ & Ht).
  apply obind_Ok in Ht as (a & Ha & _).
  destruct (validated_row_has_columns df index row "nfl_game_id" Hcols Hin)
    as (id & Hid); [simpl; tauto|].
  destruct (validated_row_has_columns df index row "game_type" Hcols Hin)
    as (gty & Hgty); [simpl; tauto|].
  destruct (validated_row_has_columns df index row "game_date" Hcols Hin)
    as (gd & Hgd); [simpl; tauto|].
  destruct (validated_row_has_columns df index row "game_time_et" Hcols Hin)
    as (gt & Hgt); [simpl; tauto|].
  unfold insertable.
  destruct (kickoff_utc row) as [ts'|e] eqn:Hk.
  2: { split; [split; eauto | discriminate]. }
  unfold row_data. rewrite Hh. cbn [obind]. rewrite Ha. cbn [obind].
  rewrite Hid. cbn [obind].
  destruct (obind (getitem row "season_year") py_int) as [y|e] eqn:Hy;
    cbn [obind].
  2: { split; [split; eauto | discriminate]. }
  destruct (obind (getitem row "week") py_int) as [w|e] eqn:Hw; cbn [obind].
  2: { split; [split; eauto | discriminate]. }
  rewrite Hgty. cbn [obind]. rewrite Hgd. cbn [obind]. rewrite Hgt.
  cbn [obind]. split.
  - split; [discriminate|].
    intros [(e & H) | [(e & H) | (e & H)]]; discriminate.
  - intros g Hg. inversion Hg; subst. simpl. auto 7.
Qed.

(** ** The summary of main *)

Lemma upload_counts_add_up df s sc ec s' :
  upload_games_to_database df s = (Ok (sc, ec), s') ->
  sc + ec = len df /\ 0 <= sc /\ 0 <= ec.
Proof.
  rewrite upload_games_to_database_eq.
  destruct (upload_try df (after_call cursor_call s)) as [[[sc1 ec1]|e] s1]
    eqn:Htry.
  - intros H; inversion H; subst.
    apply upload_try_effect in Htry as (evs & _ & Hlen & _ & Hsc & Hsum & _).
    pose proof (inserted_length_le evs). unfold len in *. lia.
  - destruct (is_Exception e); [|discriminate].
    destruct (rollback_call (db s1)) as [[[]|e2] c2]; discriminate.
Qed.

(** X22. The final summary of a run that completes.  [main] closes the
    connection and prints six lines last: the number of games processed,
    which is the number of rows of the table, the number uploaded and the
    number of errors as the load returned them, which add up to the
    number processed, and a closing line that announces success exactly
    when no row failed. *)
Theorem main_summary_adds_up :
  forall env s df s4 sc ec s5,
    reaches_validation env s df ->
    validate_teams_exist df (team_lookup_from (db s)) (looked_up env df s)
    = (Ok true, s4) ->
    upload_games_to_database df s4 = (Ok (sc, ec), s5) ->
    main env s
    = (Ok tt, printed (after_call close_call s5) (summary_lines df sc ec))
    /\ summary_lines df sc ec
       = [[Lit "✓ Database connection closed"];
          [Lit newline; Lit "🎯 Final Summary:"];
          [Lit "   Total games processed: "; Num (sc + ec)];
          [Lit "   Successfully uploaded: "; Num sc];
          [Lit "   Errors: "; Num ec];
          if ec =? 0 then [Lit "🎉 All games uploaded successfully!"]
          else [Lit "⚠️  Upload completed with some errors. Please review the error details above."]]
    /\ 0 <= sc /\ 0 <= ec
    /\ (ec = 0 <-> sc = len df).
Proof.
  intros env s df s4 sc ec s5 Hready Hv Hu.
  destruct (upload_counts_add_up _ _ _ _ _ Hu) as (Hsum & Hsc & Hec).
  split.
  { rewrite (main_after_validation _ _ _ Hready), Hv, Hu. reflexivity. }
  split.
  { unfold summary_lines. rewrite Hsum. reflexivity. }
  repeat split; try assumption; lia.
Qed.


End Program.

(** * Instances *)

(** ** Conversions *)

Example int_of_padded_string : int_of_string " 12 " = Some 12.
Proof. reflexivity. Qed.

Example int_of_grouped_digits : int_of_string "-1_000" = Some (-1000).
Proof. reflexivity. Qed.

Example int_of_doubled_underscore : int_of_string "1__0" = None.
Proof. reflexivity. Qed.

Example int_of_team_code : int_of_string "SEA" = None.
Proof. reflexivity. Qed.

(** The separator characters are white space for [str.isspace], not for
    [int]. *)
Example int_of_separator_character : int_of_string (String "028" "5") = None.
Proof. reflexivity. Qed.

Example int_of_float_truncates : py_int (CFloat (FFin 7 (-1))) = Ok 3.
Proof. reflexivity. Qed.

Example int_of_negative_float_truncates :
  py_int (CFloat (FFin (-7) (-1))) = Ok (-3).
Proof. reflexivity. Qed.

(** ** The calendar and the zone *)

Example epoch_is_day_zero : days_from_civil (mkdate 1970 1 1) = 0.
Proof. reflexivity. Qed.

Example leap_day_2024 :
  civil_from_days (days_from_civil (mkdate 2024 2 28) + 1) = mkdate 2024 2 29.
Proof. reflexivity. Qed.

Example datetime_min_seconds :
  seconds_of (mkdatetime (mkdate 1 1 1) (mktime 0 0 0 0)) = datetime_min.
Proof. reflexivity. Qed.

(** Daylight saving time of 2025 starts on March 9 at 07:00 UTC and ends
    on November 2 at 06:00 UTC. *)
Example transitions_of_2025 :
  In (seconds_of (mkdatetime (mkdate 2025 3 9) (mktime 7 0 0 0)), EDT)
     new_york_transitions
  /\ In (seconds_of (mkdatetime (mkdate 2025 11 2) (mktime 6 0 0 0)), EST)
        new_york_transitions.
Proof. vm_compute. tauto. Qed.

Example localize_in_summer :
  let dt := seconds_of (mkdatetime (mkdate 2025 9 4) (mktime 20 20 0 0)) in
  localize America_New_York dt = Ok (mkaware dt EDT).
Proof. vm_compute. reflexivity. Qed.

Example localize_in_winter :
  let dt := seconds_of (mkdatetime (mkdate 2026 1 11) (mktime 13 0 0 0)) in
  localize America_New_York dt = Ok (mkaware dt EST).
Proof. vm_compute. reflexivity. Qed.

Example datetime_max_seconds :
  seconds_of (mkdatetime (mkdate 9999 12 31) (mktime 23 59 59 0))
  = datetime_max.
Proof. reflexivity. Qed.

(** Daylight saving time before the Uniform Time Act, and war time. *)
Example localize_in_summer_1966 :
  let dt := seconds_of (mkdatetime (mkdate 1966 7 4) (mktime 12 0 0 0)) in
  localize America_New_York dt = Ok (mkaware dt EDT).
Proof. vm_compute. reflexivity. Qed.

Example localize_in_war_time :
  let dt := seconds_of (mkdatetime (mkdate 1943 1 15) (mktime 12 0 0 0)) in
  localize America_New_York dt = Ok (mkaware dt EWT).
Proof. vm_compute. reflexivity. Qed.

(** 23:00 on the last day of the year 9999 is an instant of the year
    10000 in UTC, beyond [datetime.max]. *)
Example localize_on_the_last_day :
  let dt := seconds_of (mkdatetime (mkdate 9999 12 31) (mktime 23 0 0 0)) in
  localize America_New_York dt
  = Raise (Exception "OverflowError" [Lit "date value out of range"]).
Proof. vm_compute. reflexivity. Qed.

Example kickoff_on_the_last_day :
  kickoff_utc no_parse
              (mkSeries ["game_date"; "game_time_et"]
                        [at_midnight 9999 12 31; CTime (mktime 23 0 0 0)])
  = Raise (Exception "OverflowError" [Lit "date value out of range"]).
Proof. vm_compute. reflexivity. Qed.

(** Noon on 1966-07-04 is 16:00 UTC. *)
Example kickoff_in_summer_1966 :
  kickoff_utc no_parse
              (mkSeries ["game_date"; "game_time_et"]
                        [at_midnight 1966 7 4; CTime (mktime 12 0 0 0)])
  = Ok (mkdatetime (mkdate 1966 7 4) (mktime 16 0 0 0)).
Proof. vm_compute. reflexivity. Qed.

(** A missing date is [NaT], which [datetime.combine] reads as 0001-01-01:
    [localize] finds no datetime a day before it. *)
Example kickoff_of_missing_date :
  kickoff_utc no_parse
              (mkSeries ["game_date"; "game_time_et"]
                        [CNaT; CTime (mktime 13 0 0 0)])
  = Raise (Exception "OverflowError" [Lit "date value out of range"]).
Proof. vm_compute. reflexivity. Qed.

(** A time given as a string that pandas reads as [NaT]. *)
Example time_of_missing_time :
  game_time_of (fun _ => inl NaT) (CStr "NaT")
  = Raise (ValueError [Lit "NaTType does not support time"]).
Proof. reflexivity. Qed.

(** Evaluates [t] and keeps the equation between [t] and its value. *)
Ltac evaluated t H :=
  let v := eval vm_compute in t in
  assert (H : t = v) by (vm_compute; reflexivity).

(** ** The partial failure of five rows *)

Lemma partial_failure_witness :
  let s := server Connected [None; None; None; Some duplicate_entry] in
  let r := upload_games_to_database no_parse five_games s in
  fst r = Ok (3, 2)
  /\ map g_nfl_game_id (games (db (snd r)))
     = [CStr "2025_01_DAL_PHI"; CStr "2025_09_DAL_BAL"; CStr "2025_10_PHI_KC"]
  /\ List.length (filter (fun ev => match ev with
                                    | EvCommit _ => true
                                    | _ => false
                                    end) (calls (db (snd r)))) = 1%nat.
Proof.
  intros s r. unfold r, s, five_games.
  evaluated (kickoff_utc no_parse (mkSeries required_columns game_1)) K1.
  evaluated (kickoff_utc no_parse (mkSeries required_columns game_4)) K2.
  evaluated (kickoff_utc no_parse (mkSeries required_columns game_3)) K3.
  evaluated (kickoff_utc no_parse (mkSeries required_columns game_5)) K4.
  match type of K1 with _ = Ok ?ts =>
    evaluated (row_data (mkSeries required_columns game_1) ts) D1 end.
  match type of K2 with _ = Ok ?ts =>
    evaluated (row_data (mkSeries required_columns game_4) ts) D2 end.
  match type of K4 with _ = Ok ?ts =>
    evaluated (row_data (mkSeries required_columns game_5) ts) D4 end.
  rewrite (partial_failure_commits_successes no_parse
             required_columns game_1 game_4 game_3 game_5 game_1
             _ _ _ _ _ _ _ _ _ _ _ _ _ duplicate_entry []
             (server Connected [None; None; None; Some duplicate_entry])
             K1 D1 K2 D2 K3 eq_refl eq_refl eq_refl K4 D4 K1 D1 eq_refl
             eq_refl eq_refl eq_refl).
  repeat split.
Defined.

(** ** A commit and a rollback that both fail *)

(** The connection is lost at the commit: the commit raises, and so does
    the rollback the handler sends.  The caller gets the exception of the
    rollback, and the row inserted is still in the transaction. *)
Lemma rollback_fault_replaces_exception :
  let s := server Connected
             [None; Some lost_connection; Some no_socket_left] in
  (exists s1,
      upload_try no_parse one_game (after_call cursor_call s)
      = (Raise (raise_db lost_connection), s1))
  /\ fst (upload_games_to_database no_parse one_game s)
     = Raise (raise_db no_socket_left)
  /\ raise_db no_socket_left <> raise_db lost_connection
  /\ List.length (pending (db (snd (upload_games_to_database
                                      no_parse one_game s)))) = 1%nat
  /\ (rolls_back_and_reraises no_parse one_game s -> False).
Proof.
  intros s.
  evaluated (upload_try no_parse one_game (after_call cursor_call s)) Htry.
  evaluated (upload_games_to_database no_parse one_game s) Hup.
  split; [eexists; exact Htry|].
  split; [rewrite Hup; reflexivity|].
  split; [discriminate|].
  split; [rewrite Hup; reflexivity|].
  intros Hclaim. destruct (Hclaim _ _ Htry) as (s' & Hs' & _).
  rewrite Hup in Hs'. discriminate.
Qed.

(** Without a column nfl_game_id the handler of the loop raises in its
    turn: a [KeyError] leaves the loop; here the rollback fails as well and
    its exception is the one the caller gets. *)
Example loop_exception_without_game_id :
  let s := server Connected [Some lost_connection] in
  fst (upload_rows no_parse (iterrows no_game_id) (mkcounters 0 0 [])
                   (after_call cursor_call s))
  = Raise (KeyError "nfl_game_id")
  /\ fst (upload_games_to_database no_parse no_game_id s)
     = Raise (raise_db lost_connection)
  /\ calls (db (snd (upload_games_to_database no_parse no_game_id s)))
     = [EvCursor; EvRollback false; EvCursorClose].
Proof. vm_compute. repeat split. Qed.

(** The commit fails and the rollback returns. *)
Lemma failed_upload_witness :
  let s := server Connected [None; Some lost_connection] in
  let r := upload_games_to_database no_parse one_game s in
  fst r = Raise (raise_db lost_connection)
  /\ games (db (snd r)) = []
  /\ pending (db (snd r)) = [].
Proof.
  intros s r. unfold r.
  evaluated (upload_try no_parse one_game (after_call cursor_call s)) Htry.
  destruct (failed_upload_persists_nothing no_parse one_game s _ _ Htry)
    as (r' & s' & Hup & Hgames & _ & Hok & _).
  rewrite Hup. simpl.
  destruct (Hok eq_refl eq_refl) as (-> & Hpending & _).
  repeat split; assumption.
Defined.

(** ** An empty table *)

Lemma upload_counts_witness :
  let s := server Connected [] in
  let r := upload_games_to_database no_parse no_games s in
  fst r = Ok (0, 0)
  /\ calls (db (snd r)) = [EvCursor; EvCommit true; EvCursorClose].
Proof.
  intros s r. unfold r.
  evaluated (upload_games_to_database no_parse no_games s) Hup.
  rewrite Hup.
  destruct (upload_counts_every_row_once no_parse no_games s _ _ _ Hup)
    as (_ & _ & Hempty).
  destruct (Hempty eq_refl) as (_ & _ & Hcalls).
  split; [reflexivity | exact Hcalls].
Defined.

(** ** Team references *)

Lemma referential_validation_witness :
  let s := server Connected [] in
  let r := validate_teams_exist unknown_teams lookup_2025 s in
  fst r = Raise (ValueError [Lit "Found "; Num 2;
                             Lit " team validation errors"])
  /\ stdout (snd r)
     = [[Lit "❌ Team validation errors:"];
        [Lit "   "; Lit "Row "; Num 3; Lit ": "; Lit "Home"; Lit " team_id ";
         Num 9; Lit " not found in database"];
        [Lit "   "; Lit "Row "; Num 3; Lit ": "; Lit "Away"; Lit " team_id ";
         Num 4; Lit " doesn't match abbreviation '"; Val (CStr "DAK");
         Lit "' (should be '"; Val (CStr "DAL"); Lit "')"]].
Proof.
  intros s r. unfold r.
  evaluated (teams_of_rows (iterrows unknown_teams)) Hts.
  pose proof (referential_validation_exhaustive
                unknown_teams lookup_2025 s _ Hts) as H.
  cbv zeta in H. destruct H as (_ & _ & _ & Hbad).
  rewrite Hbad by (vm_compute; discriminate).
  split; reflexivity.
Defined.

Lemma unconvertible_team_id_witness :
  let s := server Connected [] in
  validate_teams_exist bad_team_id lookup_2025 s
  = (Raise (ValueError [Lit "invalid literal for int() with base 10: ";
                        Repr (CStr "KC")]), s).
Proof.
  intros s.
  destruct (unconvertible_team_id_aborts_validation no_parse
              bad_team_id lookup_2025 s
              1 (mkSeries required_columns game_bad_id) (CStr "KC") _
              (or_intror (or_introl eq_refl)) (or_introl eq_refl) eq_refl)
    as (e' & Hv & _ & _ & He' & _).
  rewrite Hv.
  rewrite (He' [(0, mkSeries required_columns game_unknown_teams)] [] _
               eq_refl eq_refl (or_introl (conj eq_refl eq_refl))).
  reflexivity.
Defined.

(** ** Kickoff timestamps *)

Lemma kickoff_2025_09_04_witness :
  calculate_kickoff_timestamp no_parse (mkSeries required_columns game_1)
                              (server NotConnected [])
  = (Ok (Some (mkdatetime (mkdate 2025 9 5) (mktime 0 20 0 0))),
     server NotConnected []).
Proof.
  exact (proj2 (proj2 (kickoff_2025_09_04_is_00_20_utc no_parse
                         (mkSeries required_columns game_1)
                         (at_midnight 2025 9 4)
                         (mkdatetime (mkdate 2025 9 4) (mktime 0 0 0 0))
                         (CTime (mktime 20 20 0 0))
                         (server NotConnected [])
                         eq_refl eq_refl eq_refl eq_refl eq_refl))).
Defined.

(** The date of the third of the five games does not parse. *)
Lemma kickoff_failure_witness :
  let s := server Connected [] in
  let row := mkSeries required_columns game_3 in
  fst (calculate_kickoff_timestamp no_parse row s) = Ok None
  /\ fst (upload_row no_parse (2, row) (mkcounters 2 0 []) s)
     = Ok (mkcounters 2 1
             [[Lit "Row "; Num 4;
               Lit ": Could not calculate kickoff timestamp"]])
  /\ calls (db (snd (upload_row no_parse (2, row) (mkcounters 2 0 []) s)))
     = [].
Proof.
  intros s row.
  evaluated (kickoff_utc no_parse row) Hk.
  destruct (kickoff_failure_skips_row no_parse five_games 2 row
              (mkcounters 2 0 []) [] s _ eq_refl
              (or_intror (or_intror (or_introl eq_refl))) Hk)
    as (id & gd & gt & _ & _ & _ & Hc & Hr & _).
  rewrite Hc, Hr. repeat split.
Defined.

(** 01:30 on 2025-11-02 happens twice: it is read as 01:30 EST. *)
Lemma dst_transition_witness :
  calculate_kickoff_timestamp no_parse (mkSeries required_columns game_4)
                              (server NotConnected [])
  = (Ok (Some (mkdatetime (mkdate 2025 11 2) (mktime 6 30 0 0))),
     server NotConnected []).
Proof.
  refine (proj1 (proj2 (proj2
            (dst_transition_reads_standard_time no_parse
               (mkSeries required_columns game_4)
               (at_midnight 2025 11 2)
               (mkdatetime (mkdate 2025 11 2) (mktime 0 0 0 0))
               (CTime (mktime 1 30 0 0)) (mktime 1 30 0 0)
               (server NotConnected [])
               eq_refl eq_refl eq_refl eq_refl _ _)))).
  - split; vm_compute; discriminate.
  - left. split; vm_compute; reflexivity.
Defined.

(** 02:30 on 2025-03-09 never happens: it is read as 02:30 EST, which is
    07:30 UTC. *)
Example nonexistent_2025_03_09 :
  let dt := seconds_of (mkdatetime (mkdate 2025 3 9) (mktime 2 30 0 0)) in
  nonexistent America_New_York dt
  /\ localize America_New_York dt = Ok (mkaware dt EST)
  /\ datetime_of (utc_of (mkaware dt EST)) 0
     = mkdatetime (mkdate 2025 3 9) (mktime 7 30 0 0).
Proof.
  intros dt. split; [| split; vm_compute; reflexivity].
  split; vm_compute; discriminate.
Qed.


(** ** Runs of main *)

Lemma reaches_validation_one_game s :
  fault_at s 0 = None -> fault_at s 1 = None ->
  reaches_validation (command_line one_game) s one_game.
Proof.
  intros Hc Hq. constructor; try reflexivity; try assumption.
  eexists. split; reflexivity.
Qed.

Lemma reaches_validation_five_games s :
  fault_at s 0 = None -> fault_at s 1 = None ->
  reaches_validation (command_line five_games) s five_games.
Proof.
  intros Hc Hq. constructor; try reflexivity; try assumption.
  eexists. split; reflexivity.
Qed.

(** When the load raises, [main] exits with the connection still open. *)
Lemma load_failure_leaves_connection_open :
  let r := main no_parse (command_line one_game) commit_fails in
  fst r = Raise (SystemExit 1)
  /\ status (db (snd r)) = Connected
  /\ calls (db (snd r))
     = [EvConnect true; EvCursor; EvSelectTeams true; EvCursorClose;
        EvCursor;
        EvInsert (mkgame (CStr "2025_01_DAL_PHI") 2025 1 (CStr "regular") 3 4
                         (at_midnight 2025 9 4) (CTime (mktime 20 20 0 0))
                         (mkdatetime (mkdate 2025 9 5) (mktime 0 20 0 0))
                         "scheduled") true;
        EvCommit false; EvRollback true; EvCursorClose]
  /\ (closes_what_it_opened no_parse (command_line one_game) commit_fails
      -> False).
Proof.
  intros r. unfold r.
  evaluated (main no_parse (command_line one_game) commit_fails) Hmain.
  unfold closes_what_it_opened. rewrite Hmain. simpl.
  repeat split. intros H. assert (Connected = Closed) by (apply H; auto).
  discriminate.
Qed.

(** When the load returns, here with one row failed, [main] closes the
    connection and exits with status 0. *)
Lemma connection_closed_witness :
  let r := main no_parse (command_line five_games) last_insert_fails in
  fst r = Ok tt
  /\ status (db (snd r)) = Closed
  /\ last (calls (db (snd r))) EvCursor = EvClose.
Proof.
  intros r. unfold r.
  pose proof (reaches_validation_five_games last_insert_fails eq_refl eq_refl)
    as Hready.
  evaluated (validate_teams_exist five_games
               (team_lookup_from (db last_insert_fails))
               (looked_up (command_line five_games) five_games
                          last_insert_fails)) Hv.
  match type of Hv with _ = (_, ?s4) =>
    evaluated (upload_games_to_database no_parse five_games s4) Hu end.
  destruct (connection_closed_when_load_returns no_parse _ _ _ _ Hready Hv)
    as (Hret & _).
  destruct (Hret _ _ _ Hu) as (s' & Hmain & Hst & Hcalls & _).
  rewrite Hmain. simpl. rewrite Hcalls, last_last. auto.
Defined.

Example exit_status_with_failed_rows :
  let r := main no_parse (command_line five_games) last_insert_fails in
  exit_status (fst r) = 0
  /\ last (removelast (stdout (snd r))) [] = [Lit "   Errors: "; Num 2]
  /\ List.length (games (db (snd r))) = 3%nat.
Proof. vm_compute. repeat split. Qed.

Example exit_status_without_argument :
  exit_status (fst (main no_parse (mkenv ["nfl_upload.py"] (fun _ => true)
                                         (fun _ => inl one_game))
                         commit_fails)) = 1.
Proof. reflexivity. Qed.



(** ** The lookup of the teams *)

Lemma get_team_lookup_witness :
  let s := server Connected [] in
  fst (get_team_lookup s) = Ok lookup_2025
  /\ calls (db (snd (get_team_lookup s)))
     = [EvCursor; EvSelectTeams true; EvCursorClose]
  /\ Dict.get String.eqb lookup_2025 "STL" = None.
Proof.
  intros s.
  destruct (get_team_lookup_loads_active_teams s eq_refl eq_refl)
    as (s' & Hrun & _ & Hcalls & _).
  rewrite Hrun. split; [reflexivity|]. split; [exact Hcalls | reflexivity].
Defined.

Lemma get_team_lookup_failure_witness :
  let s := server Connected [Some lost_connection] in
  fst (get_team_lookup s) = Raise (raise_db lost_connection)
  /\ calls (db (snd (get_team_lookup s))) = [EvCursor; EvSelectTeams false].
Proof.
  intros s.
  evaluated (get_team_lookup s) Hrun.
  destruct (get_team_lookup_failure_leaves_cursor_open _ _ _ Hrun)
    as (_ & Hcalls & _).
  rewrite Hrun. split; [reflexivity | exact Hcalls].
Defined.

Example shared_abbreviation_keeps_last_id :
  let rows := [(7, "LA"); (8, "NY"); (9, "LA")] in
  team_lookup_of rows = [("LA", 9); ("NY", 8)]
  /\ Dict.get Z.eqb (team_id_lookup_of (team_lookup_of rows)) 7 = None.
Proof. split; reflexivity. Qed.

Lemma team_validation_witness :
  let rows := [(1, "KC"); (2, "BAL"); (3, "PHI"); (4, "DAL")] in
  let s := server Connected [] in
  validate_teams_exist one_game (team_lookup_of rows) s
  = (Ok true,
     printed s [[Lit "✓ All team IDs and abbreviations are valid"]]).
Proof.
  intros rows s.
  evaluated (teams_of_rows (iterrows one_game)) Hts.
  pose proof (team_validation_matches_directory one_game rows _ s Hts) as H.
  cbv zeta in H. destruct H as (_ & Hcomplete).
  apply Hcomplete.
  - repeat (constructor; [simpl; intuition discriminate|]). constructor.
  - repeat (constructor; [simpl; intuition discriminate|]). constructor.
  - intros index t [Heq | []]. inversion Heq; subst.
    split; eexists; (split; [reflexivity | simpl; auto]).
Defined.

Lemma inactive_team_witness :
  let s := server Connected [] in
  fst (validate_teams_exist inactive_team (team_lookup_from (db s)) s)
  = Raise (ValueError [Lit "Found "; Num 1; Lit " team validation errors"]).
Proof.
  intros s.
  evaluated (teams_of_rows (iterrows inactive_team)) Hts.
  pose proof (inactive_team_reference_is_rejected inactive_team (db s) _
                1 (mkrow_teams 5 (CStr "STL") 1 (CStr "KC")) s Hts
                (or_intror (or_introl eq_refl))) as H.
  cbv zeta in H. destruct H as (Hhome & _).
  destruct Hhome as (_ & Hrej).
  - intros tm Hin Hid. simpl in Hin.
    repeat (destruct Hin as [<- | Hin]; [simpl in Hid; try discriminate;
                                          try reflexivity|]).
    contradiction.
  - rewrite Hrej. vm_compute. reflexivity.
Defined.

(** ** Kickoff timestamps in winter and without a time *)

Lemma kickoff_offset_witness :
  let row := mkSeries required_columns game_5 in
  let s := server NotConnected [] in
  exists utc,
    calculate_kickoff_timestamp no_parse row s = (Ok (Some utc), s)
    /\ seconds_of utc
       = seconds_of (mkdatetime (mkdate 2025 11 9) (mktime 16 25 0 0))
         + 5 * 3600.
Proof.
  intros row s.
  destruct (kickoff_is_wall_clock_plus_offset no_parse row
              (at_midnight 2025 11 9)
              (mkdatetime (mkdate 2025 11 9) (mktime 0 0 0 0))
              (CTime (mktime 16 25 0 0)) (mktime 16 25 0 0) s
              eq_refl eq_refl eq_refl eq_refl)
    as (utc & Hrun & _ & Hstd & _).
  { split; vm_compute; discriminate. }
  exists utc. split; [exact Hrun|]. apply Hstd.
  intros (_ & Hs). apply Hs. vm_compute. reflexivity.
Defined.

Lemma kickoff_without_time_witness :
  let row := mkSeries required_columns game_no_time in
  let s := server NotConnected [] in
  fst (calculate_kickoff_timestamp no_parse row s) = Ok None
  /\ List.length (stdout (snd (calculate_kickoff_timestamp no_parse row s)))
     = 3%nat.
Proof.
  intros row s.
  destruct (kickoff_needs_a_time_of_day no_parse row
              (CStr "2025_02_KC_BAL") (at_midnight 2025 9 14)
              (mkdatetime (mkdate 2025 9 14) (mktime 0 0 0 0)) nan s
              eq_refl eq_refl eq_refl eq_refl)
    as (_ & Hrun).
  - intros str. discriminate.
  - intros t. discriminate.
  - rewrite Hrun. split; reflexivity.
Defined.

(** ** The INSERTs of five rows *)

Lemma upload_sends_witness :
  let s := server Connected [None; None; None; Some duplicate_entry] in
  exists evs,
    sent evs = insertable_rows no_parse (iterrows five_games)
    /\ List.length (sent evs) = 4%nat
    /\ List.length (inserted evs) = 3%nat.
Proof.
  intros s.
  evaluated (upload_games_to_database no_parse five_games s) Hup.
  destruct (upload_sends_every_insertable_row no_parse five_games s _ _ _ Hup)
    as (evs & _ & _ & Hsent & Hg & _).
  exists evs. split; [exact Hsent|].
  split; [rewrite Hsent; vm_compute; reflexivity|].
  simpl in Hg. rewrite <- Hg. reflexivity.
Defined.

Lemma upload_in_good_order_witness :
  let s := server Connected [] in
  fst (upload_games_to_database no_parse five_games s) = Ok (4, 1)
  /\ map g_nfl_game_id
         (games (db (snd (upload_games_to_database no_parse five_games s))))
     = [CStr "2025_01_DAL_PHI"; CStr "2025_09_DAL_BAL";
        CStr "2025_10_PHI_KC"; CStr "2025_01_DAL_PHI"].
Proof.
  intros s.
  destruct (upload_in_good_order_inserts_every_insertable_row no_parse
              five_games s eq_refl eq_refl (Forall_nil _))
    as (s' & Hrun & Hg & _).
  rewrite Hrun. cbn [fst snd]. rewrite Hg.
  split; vm_compute; reflexivity.
Defined.

Lemma upload_cursor_witness :
  let s := server Connected [None; Some lost_connection] in
  let r := upload_games_to_database no_parse one_game s in
  fst r = Raise (raise_db lost_connection)
  /\ last (calls (db (snd r))) EvCursor = EvCursorClose.
Proof.
  intros s r. unfold r.
  evaluated (upload_games_to_database no_parse one_game s) Hup.
  destruct (upload_closes_its_cursor no_parse one_game s _ _ Hup)
    as (evs & tail & Hcalls & _).
  rewrite Hup. split; [reflexivity|].
  simpl snd. rewrite Hcalls, !app_assoc. apply last_last.
Defined.

Lemma upload_without_game_id_witness :
  let s := server Connected [] in
  exists b,
    calls (db (snd (upload_games_to_database no_parse no_game_id s)))
    = [EvCursor; EvRollback b; EvCursorClose].
Proof.
  intros s.
  destruct (upload_without_game_id_column_aborts no_parse no_game_id s)
    as (_ & r & s' & b & Hrun & _ & Hcalls & _).
  - simpl. intuition discriminate.
  - discriminate.
  - exists b. rewrite Hrun. exact Hcalls.
Defined.

Lemma unconvertible_week_witness :
  let row := mkSeries required_columns game_bad_week in
  let s := server Connected [] in
  fst (upload_row no_parse (0, row) (mkcounters 0 0 []) s)
  = Ok (mkcounters 0 1
          [[Lit "Row "; Num 2; Lit " ("; Val (CStr "2025_01_DAL_PHI");
            Lit "): "; Lit "invalid literal for int() with base 10: ";
            Repr (CStr "one")]])
  /\ calls (db (snd (upload_row no_parse (0, row) (mkcounters 0 0 []) s)))
     = [].
Proof.
  intros row s.
  evaluated (kickoff_utc no_parse row) Hk.
  destruct (unconvertible_week_fails_row_in_load no_parse 0 row []
              (mkcounters 0 0 []) s _ 3 4 (CStr "2025_01_DAL_PHI")
              (CStr "one") _ Hk eq_refl eq_refl eq_refl
              (or_intror (conj (ex_intro _ 2025 eq_refl)
                               (conj eq_refl eq_refl))))
    as (_ & _ & Hrow & _).
  rewrite Hrow. split; reflexivity.
Defined.

Lemma upload_report_witness :
  let s := server Connected [None; None; None; Some duplicate_entry] in
  let r := upload_games_to_database no_parse five_games s in
  exists reports errors,
    stdout (snd r) = reports ++ results_lines (mkcounters 3 2 errors)
    /\ List.length errors = 2%nat
    /\ List.length (results_lines (mkcounters 3 2 errors)) = 6%nat.
Proof.
  intros s r. unfold r.
  evaluated (upload_games_to_database no_parse five_games s) Hup.
  destruct (upload_report_counts_recorded_errors no_parse five_games s _ _ _
              Hup)
    as (reports & errors & Hout & Hlen & _ & Hfew & _).
  exists reports, errors. rewrite Hup. simpl snd.
  assert (Hn : List.length errors = 2%nat) by lia.
  split; [exact Hout|]. split; [exact Hn|].
  rewrite Hfew by lia. rewrite length_app, length_map. simpl.
  do 4 f_equal. exact Hn.
Defined.

(** ** Runs of main that stop, and the run that loads *)

Lemma table_accepted_one_game :
  table_accepted (command_line one_game) one_game.
Proof.
  repeat (split; [reflexivity|]). eexists. split; reflexivity.
Qed.

Lemma server_refusal_witness :
  let s := server NotConnected [Some lost_connection] in
  let r := main no_parse (command_line one_game) s in
  fst r = Raise (SystemExit 1)
  /\ calls (db (snd r)) = [EvConnect false]
  /\ last (stdout (snd r)) []
     = [Lit "❌ Upload failed: ";
        Lit "(2013, 'Lost connection to MySQL server during query')"].
Proof.
  intros s r. unfold r.
  destruct (main_reports_server_refusal no_parse (command_line one_game) s
              one_game lost_connection table_accepted_one_game)
    as (Hconnect & _).
  destruct (Hconnect eq_refl) as (Hmain & Hcalls & _).
  split; [rewrite Hmain; reflexivity|].
  split; [exact Hcalls|]. rewrite Hmain. reflexivity.
Defined.

Lemma no_write_witness :
  let s := server NotConnected [] in
  exists s',
    main no_parse (command_line unknown_teams) s = (Raise (SystemExit 1), s')
    /\ games (db s') = []
    /\ calls (db s')
       = [EvConnect true; EvCursor; EvSelectTeams true; EvCursorClose].
Proof.
  intros s.
  assert (Hnot : ~ ready_to_load (command_line unknown_teams) s).
  { intros (df & s4 & [_ _ Hread _ _ _ _] & Hv).
    simpl in Hread. inversion Hread; subst df.
    vm_compute in Hv. discriminate. }
  destruct (no_write_unless_ready_to_load no_parse _ _ Hnot)
    as (s' & evs & Hmain & Hg & Hcalls & _).
  exists s'. split; [exact Hmain|]. split; [exact Hg|].
  evaluated (main no_parse (command_line unknown_teams) s) Hrun.
  rewrite Hrun in Hmain. inversion Hmain; subst s'. reflexivity.
Defined.

Lemma main_loads_witness :
  let s := server NotConnected [] in
  let r := main no_parse (command_line five_games) s in
  exit_status (fst r) = 0
  /\ status (db (snd r)) = Closed
  /\ List.length (games (db (snd r))) = 4%nat.
Proof.
  intros s r. unfold r.
  pose proof (reaches_validation_five_games s eq_refl eq_refl) as Hready.
  evaluated (validate_teams_exist five_games (team_lookup_from (db s))
               (looked_up (command_line five_games) five_games s)) Hv.
  destruct (main_loads_validated_table no_parse _ _ _ _ Hready Hv
              (Forall_nil _))
    as (s' & Hmain & Hexit & Hg & _ & Hst & _).
  split; [exact Hexit|]. rewrite Hmain. simpl snd.
  split; [exact Hst|]. rewrite Hg. vm_compute. reflexivity.
Defined.

(** A file that is not there: one line, and no report of a failed
    upload. *)
Example missing_file_is_not_a_failed_upload :
  main no_parse (mkenv ["nfl_upload.py"; "week1.xlsx"] (fun _ => false)
                       (fun _ => inl one_game))
       (server NotConnected [])
  = (Raise (SystemExit 1),
     printed (server NotConnected [])
             [[Lit "❌ File not found: "; Lit "week1.xlsx"]]).
Proof. reflexivity. Qed.


(** ** A validated row with a week that is no number *)

Lemma validated_row_witness :
  let row := mkSeries required_columns game_bad_week in
  insertable no_parse row = None.
Proof.
  intros row.
  evaluated (teams_of_rows
               (iterrows (mkDataFrame required_columns [game_bad_week]))) Hts.
  destruct (validated_row_fails_only_on_timestamp_or_numbers no_parse
              (mkDataFrame required_columns [game_bad_week]) _ 0 row
              eq_refl Hts (or_introl eq_refl))
    as (Hnone & _).
  apply Hnone. right. right. eexists. reflexivity.
Defined.

(** ** The summary of a run with two failed rows *)

Lemma main_summary_witness :
  let r := main no_parse (command_line five_games) last_insert_fails in
  fst r = Ok tt
  /\ nth 3 (rev (stdout (snd r))) []
     = [Lit "   Total games processed: "; Num 5]
  /\ nth 2 (rev (stdout (snd r))) []
     = [Lit "   Successfully uploaded: "; Num 3]
  /\ nth 1 (rev (stdout (snd r))) [] = [Lit "   Errors: "; Num 2].
Proof.
  intros r. unfold r.
  pose proof (reaches_validation_five_games last_insert_fails eq_refl eq_refl)
    as Hready.
  evaluated (validate_teams_exist five_games
               (team_lookup_from (db last_insert_fails))
               (looked_up (command_line five_games) five_games
                          last_insert_fails)) Hv.
  match type of Hv with _ = (_, ?s4) =>
    evaluated (upload_games_to_database no_parse five_games s4) Hu end.
  destruct (main_summary_adds_up no_parse _ _ _ _ _ _ _ Hready Hv Hu)
    as (Hmain & _).
  rewrite Hmain. cbn [fst snd].
  split; [reflexivity|]. vm_compute. repeat split.
Defined.

